(** * workflowbuilder: the ABAC decision engine and the visual workflow compiler

    A shallow embedding of
      - app/services/abac_service.py          (ABACService)
      - app/services/visual_workflow_service.py (VisualWorkflowService)
      - app/core/permissions.py               (WorkflowPermissions)
      - app/models/abac.py, app/models/workflow.py, app/models/user.py
    followed by the properties of the specification that concern them.

    Python values are the JSON values that the JSON columns and the attribute
    bags hold.  Code that may raise returns [pyres]; code that talks to the
    SQLAlchemy session takes the database and returns the new one, a raised
    exception leaving the transaction uncommitted.  Strings are sequences of
    ASCII characters. *)

From Stdlib Require Import ZArith List String Ascii Bool Lia DecimalString.
From Stdlib Require Import Floats.SpecFloat.
Import ListNotations.
Open Scope string_scope.
Open Scope Z_scope.
Open Scope list_scope.

Set Implicit Arguments.

(* ================================================================== *)
(** * Python: exceptions, values and the built-ins the services use    *)
(* ================================================================== *)

Module Py.

(** The exceptions that the modelled code can meet.  [HTTPException] is
    fastapi's; [IntegrityError] is the one SQLAlchemy raises on a violated
    NOT NULL or UNIQUE constraint. *)
Inductive pyexn : Type :=
| ValueError
| TypeError
| AttributeError
| KeyError
| OverflowError
| IntegrityError
| HTTPException (status_code : Z) (detail : string).

Definition is_http (e : pyexn) : bool :=
  match e with HTTPException _ _ => true | _ => false end.

(** A computation that returns or raises. *)
Inductive pyres (A : Type) : Type :=
| Ok (a : A)
| Raise (e : pyexn).
Arguments Raise {A} e.

Definition bind {A B} (c : pyres A) (k : A -> pyres B) : pyres B :=
  match c with
  | Ok a => k a
  | Raise e => Raise e
  end.

(** [try: c  except (ValueError, TypeError, AttributeError): return d] *)
Definition except_VTA {A} (c : pyres A) (d : A) : pyres A :=
  match c with
  | Raise ValueError | Raise TypeError | Raise AttributeError => Ok d
  | r => r
  end.

(** [try: c  except ValueError: return d] *)
Definition except_ValueError {A} (c : pyres A) (d : A) : pyres A :=
  match c with
  | Raise ValueError => Ok d
  | r => r
  end.

(** JSON values.  A dict keeps its insertion order and has string keys. *)
#[warnings="-register-all"]
Inductive pyval : Type :=
| PNone
| PBool (b : bool)
| PInt (z : Z)
| PFloat (f : spec_float)
| PStr (s : string)
| PList (l : list pyval)
| PDict (d : list (string * pyval)).

Definition pydict : Type := list (string * pyval).

(** ** Dicts *)

Fixpoint dict_get (d : pydict) (k : string) : option pyval :=
  match d with
  | [] => None
  | (k', v) :: d' => if String.eqb k' k then Some v else dict_get d' k
  end.

Definition dict_has (d : pydict) (k : string) : bool :=
  match dict_get d k with Some _ => true | None => false end.

(** [d.get(k)] and [d.get(k, default)] on a dict *)
Definition get_or (d : pydict) (k : string) (default : pyval) : pyval :=
  match dict_get d k with Some v => v | None => default end.

Definition get (d : pydict) (k : string) : pyval := get_or d k PNone.

(** [d[k] = v]: an existing key keeps its place. *)
Fixpoint dict_set (d : pydict) (k : string) (v : pyval) : pydict :=
  match d with
  | [] => [(k, v)]
  | (k', v') :: d' =>
      if String.eqb k' k then (k', v) :: d' else (k', v') :: dict_set d' k v
  end.

(** [d.update(e)] *)
Definition dict_update (d e : pydict) : pydict :=
  fold_left (fun acc kv => dict_set acc (fst kv) (snd kv)) e d.

(** ** Equality: Python's [==] on JSON values *)

(** [bool] is a subclass of [int]; an int and a float are equal when they
    denote the same number. *)
Definition int_eq_float (z : Z) (f : spec_float) : bool :=
  match f with
  | S754_zero _ => z =? 0
  | S754_finite s m e =>
      let v := if s then Z.neg m else Z.pos m in
      if 0 <=? e then z =? v * 2 ^ e else z * 2 ^ (- e) =? v
  | S754_infinity _ | S754_nan => false
  end.

Definition int_of_bool (b : bool) : Z := if b then 1 else 0.

Fixpoint py_eq (a b : pyval) {struct a} : bool :=
  match a, b with
  | PNone, PNone => true
  | PBool x, PBool y => Bool.eqb x y
  | PBool x, PInt y => int_of_bool x =? y
  | PBool x, PFloat y => int_eq_float (int_of_bool x) y
  | PInt x, PBool y => x =? int_of_bool y
  | PInt x, PInt y => x =? y
  | PInt x, PFloat y => int_eq_float x y
  | PFloat x, PBool y => int_eq_float (int_of_bool y) x
  | PFloat x, PInt y => int_eq_float y x
  | PFloat x, PFloat y => SFeqb x y
  | PStr s, PStr t => String.eqb s t
  | PList l, PList m =>
      (fix go (l m : list pyval) {struct l} : bool :=
         match l, m with
         | [], [] => true
         | x :: l', y :: m' => py_eq x y && go l' m'
         | _, _ => false
         end) l m
  | PDict d, PDict e =>
      (Nat.eqb (List.length d) (List.length e)) &&
      (fix go (d : pydict) {struct d} : bool :=
         match d with
         | [] => true
         | (k, v) :: d' =>
             match dict_get e k with
             | Some w => py_eq v w
             | None => false
             end && go d'
         end) d
  | _, _ => false
  end.

(** [x in l] for a list [l] *)
Definition py_in (x : pyval) (l : list pyval) : bool :=
  existsb (fun y => py_eq x y) l.

(** ** Truth value: [bool(v)], the test of [if v:] and [not v] *)
Definition truthy (v : pyval) : bool :=
  match v with
  | PNone => false
  | PBool b => b
  | PInt z => negb (z =? 0)
  | PFloat (S754_zero _) => false
  | PFloat _ => true
  | PStr s => negb (String.eqb s "")
  | PList l => match l with [] => false | _ => true end
  | PDict d => match d with [] => false | _ => true end
  end.

(** Only lists and dicts among the JSON values are unhashable. *)
Definition hashable (v : pyval) : bool :=
  match v with
  | PList _ | PDict _ => false
  | _ => true
  end.

(** ** Methods and subscripts on an arbitrary value *)

(** [o.get(k, default)]: only a dict has the method. *)
Definition py_get_or (o : pyval) (k : string) (default : pyval) : pyres pyval :=
  match o with
  | PDict d => Ok (get_or d k default)
  | _ => Raise AttributeError
  end.

Definition py_get (o : pyval) (k : string) : pyres pyval := py_get_or o k PNone.

(** [o[k]] for a string [k]. *)
Definition py_getitem (o : pyval) (k : string) : pyres pyval :=
  match o with
  | PDict d => match dict_get d k with Some v => Ok v | None => Raise KeyError end
  | _ => Raise TypeError
  end.

(** ** Strings *)

Fixpoint chars (s : string) : list pyval :=
  match s with
  | EmptyString => []
  | String c r => PStr (String c EmptyString) :: chars r
  end.

(** [for x in v]: the items that the iteration yields. *)
Definition py_iter (v : pyval) : pyres (list pyval) :=
  match v with
  | PList l => Ok l
  | PDict d => Ok (map (fun kv => PStr (fst kv)) d)
  | PStr s => Ok (chars s)
  | _ => Raise TypeError
  end.

(** [s.split(sep)] for a one-character separator *)
Fixpoint str_split (sep : ascii) (s : string) : list string :=
  match s with
  | EmptyString => [EmptyString]
  | String c r =>
      match str_split sep r with
      | [] => [EmptyString]
      | p :: ps =>
          if Ascii.eqb c sep then EmptyString :: p :: ps else String c p :: ps
      end
  end.

Definition startswith (s p : string) : bool := String.prefix p s.

Definition endswith (s p : string) : bool :=
  let n := String.length s in
  let m := String.length p in
  (m <=? n)%nat && String.eqb (String.substring (n - m) m s) p.

(** [sub in s] *)
Fixpoint contains (s sub : string) : bool :=
  String.prefix sub s ||
  match s with
  | EmptyString => false
  | String _ r => contains r sub
  end.

Definition isspace (c : ascii) : bool :=
  let n := nat_of_ascii c in
  ((9 <=? n) && (n <=? 13))%nat || ((28 <=? n) && (n <=? 32))%nat.

Fixpoint lstrip (s : string) : string :=
  match s with
  | String c r => if isspace c then lstrip r else s
  | EmptyString => EmptyString
  end.

Fixpoint rstrip (s : string) : string :=
  match s with
  | EmptyString => EmptyString
  | String c r =>
      match rstrip r with
      | EmptyString => if isspace c then EmptyString else String c EmptyString
      | r' => String c r'
      end
  end.

Definition strip (s : string) : string := rstrip (lstrip s).

Definition lower_ascii (c : ascii) : ascii :=
  let n := nat_of_ascii c in
  if ((65 <=? n) && (n <=? 90))%nat then ascii_of_nat (n + 32) else c.

Fixpoint lower (s : string) : string :=
  match s with
  | EmptyString => EmptyString
  | String c r => String (lower_ascii c) (lower r)
  end.

Definition str_of_Z (z : Z) : string := NilZero.string_of_int (Z.to_int z).

(** ** Short-circuit [all(...)] and [any(...)] over a generator whose
    body may raise: items after the deciding one are not evaluated. *)
Fixpoint py_all {A} (f : A -> pyres bool) (l : list A) : pyres bool :=
  match l with
  | [] => Ok true
  | x :: l' => bind (f x) (fun b => if b then py_all f l' else Ok false)
  end.

Fixpoint py_any {A} (f : A -> pyres bool) (l : list A) : pyres bool :=
  match l with
  | [] => Ok false
  | x :: l' => bind (f x) (fun b => if b then Ok true else py_any f l')
  end.

(** ** Floats: binary64 *)

Definition float_of_Z (z : Z) : spec_float := binary_normalize 53 1024 z 0 false.

(** The built-ins whose result depends on the interpreter and not on the
    repository: parsing and printing of numbers and containers, JSON
    decoding, and the attributes of values that are not dicts. *)
Class Builtins : Type := {
  (** [float(s)] for a string; [None] is ValueError *)
  float_of_str : string -> option spec_float;
  (** [str(v)] for a number, a list or a dict *)
  builtin_str : pyval -> pyres string;
  (** [getattr(v, name, None)] for a value that is not a dict *)
  builtin_getattr : pyval -> string -> pyval;
  (** [json.loads(s)]; [None] is JSONDecodeError *)
  json_loads : string -> option pyval
}.

Section WithBuiltins.
Context {rt : Builtins}.

(** [float(v)]: an int beyond the binary64 range raises OverflowError. *)
Definition py_float (v : pyval) : pyres spec_float :=
  match v with
  | PBool b => Ok (float_of_Z (int_of_bool b))
  | PInt z =>
      match float_of_Z z with
      | S754_infinity _ => Raise OverflowError
      | f => Ok f
      end
  | PFloat f => Ok f
  | PStr s =>
      match float_of_str s with
      | Some f => Ok f
      | None => Raise ValueError
      end
  | PNone | PList _ | PDict _ => Raise TypeError
  end.

(** [str(v)] *)
Definition py_str (v : pyval) : pyres string :=
  match v with
  | PStr s => Ok s
  | PNone => Ok "None"
  | PBool true => Ok "True"
  | PBool false => Ok "False"
  | _ => builtin_str v
  end.

End WithBuiltins.

End Py.

Export Py.

Declare Scope py_scope.
Delimit Scope py_scope with py.
Notation "x <- c ;; k" := (Py.bind c (fun x => k))
  (at level 61, c at next level, right associativity) : py_scope.
Notation "' pat <- c ;; k" := (Py.bind c (fun x => match x with pat => k end))
  (at level 61, pat pattern, c at next level, right associativity) : py_scope.
Open Scope py_scope.

(* ================================================================== *)
(** * app/models: enums, rows and the session                          *)
(* ================================================================== *)

(** A reading of the wall clock ([datetime.utcnow()], [time.time()]). *)
Definition datetime : Type := Z.

(** Nullable columns as Python values. *)
Definition of_int (o : option Z) : pyval :=
  match o with Some z => PInt z | None => PNone end.
Definition of_str (o : option string) : pyval :=
  match o with Some s => PStr s | None => PNone end.
Definition of_bool (o : option bool) : pyval :=
  match o with Some b => PBool b | None => PNone end.

(** ** app/models/abac.py *)

Module PolicyEffect.
Inductive t : Type := allow | deny.
Definition value (e : t) : string :=
  match e with allow => "allow" | deny => "deny" end.
Definition eqb (a b : t) : bool :=
  match a, b with allow, allow | deny, deny => true | _, _ => false end.
End PolicyEffect.

Module ABACPolicy.
Record t : Type := {
  id : Z;
  name : string;
  description : option string;
  effect : PolicyEffect.t;
  priority : Z;
  action : string;
  resource_type : string;
  conditions : option pydict;
  department_ids : option (list Z);
  division_ids : option (list Z);
  role_requirements : option (list string);
  is_active : bool;
  created_by : Z
}.
End ABACPolicy.

Module ResourceAttribute.
Record t : Type := {
  id : Z;
  resource_type : string;
  resource_id : Z;
  attribute_name : string;
  attribute_value : option string;
  attribute_type : string
}.
End ResourceAttribute.

Module UserAttribute.
Record t : Type := {
  id : Z;
  user_id : Z;
  department_id : option Z;
  division_id : option Z;
  team_id : option Z;
  job_title : option string;
  job_level : option Z;
  cost_center : option string;
  approval_limit_amount : option Z;
  can_approve_own_department : option bool;
  can_approve_all_departments : option bool;
  custom_attributes : option pydict;
  office_location : option string;
  country_code : option string;
  timezone : option string
}.
End UserAttribute.

Module ABACAccessLog.
Record t : Type := {
  id : Z;
  user_id : Z;
  action : string;
  resource_type : string;
  resource_id : option Z;
  decision : string;
  policy_id : option Z;
  user_attributes : pydict;
  resource_attributes : pydict;
  environment_attributes : pydict;
  evaluated_policies : list Z;
  evaluation_time_ms : Z;
  reason : string;
  ip_address : pyval;
  user_agent : pyval;
  endpoint : pyval
}.
End ABACAccessLog.

(** ** app/models/role.py, app/models/user.py *)

Module Role.
Record t : Type := { id : Z; name : string; description : option string }.
End Role.

(** The subject as the services read it: besides the columns of the
    [users] table they read [username], [full_name] and, when present,
    [is_superuser]. *)
Module User.
Record t : Type := {
  id : Z;
  email : string;
  username : string;
  full_name : string;
  is_active : bool;
  role : string;
  is_superuser : option bool;
  department_id : option Z;
  division_id : option Z;
  roles : list Role.t
}.
End User.

(** ** app/models/workflow.py *)

Module WorkflowStatus.
Inductive t : Type :=
  draft | active | pending | approved | rejected | completed | archived.
Definition eqb (a b : t) : bool :=
  match a, b with
  | draft, draft | active, active | pending, pending | approved, approved
  | rejected, rejected | completed, completed | archived, archived => true
  | _, _ => false
  end.
End WorkflowStatus.

Module NodeType.
Inductive t : Type :=
  start | approval | condition | parallel | end_ | notification | action.

Definition eqb (a b : t) : bool :=
  match a, b with
  | start, start | approval, approval | condition, condition
  | parallel, parallel | end_, end_ | notification, notification
  | action, action => true
  | _, _ => false
  end.

(** The member whose name (and value) is [s], if any. *)
Definition of_string (s : string) : option t :=
  if String.eqb s "start" then Some start
  else if String.eqb s "approval" then Some approval
  else if String.eqb s "condition" then Some condition
  else if String.eqb s "parallel" then Some parallel
  else if String.eqb s "end" then Some end_
  else if String.eqb s "notification" then Some notification
  else if String.eqb s "action" then Some action
  else None.
End NodeType.

Module ApprovalType.
Inductive t : Type :=
  sequential | parallel_all | parallel_any | parallel_majority.

Definition of_string (s : string) : option t :=
  if String.eqb s "sequential" then Some sequential
  else if String.eqb s "parallel_all" then Some parallel_all
  else if String.eqb s "parallel_any" then Some parallel_any
  else if String.eqb s "parallel_majority" then Some parallel_majority
  else None.

(** [ApprovalType(v)]: the member of that value, else ValueError. *)
Definition call (v : pyval) : pyres t :=
  match v with
  | PStr s =>
      match of_string s with
      | Some a => Ok a
      | None => Raise ValueError
      end
  | _ => Raise ValueError
  end.
End ApprovalType.

Module WorkflowDefinition.
Record t : Type := {
  id : Z;
  name : pyval;
  description : pyval;
  model_name : pyval;
  workflow_graph : pyval;
  version : Z;
  status : WorkflowStatus.t;
  is_template : bool;
  created_by : Z;
  department_id : option Z;
  division_id : option Z;
  can_view_roles : option (list string);
  can_edit_roles : option (list string);
  can_use_roles : option (list string);
  updated_at : option datetime;
  published_at : option datetime
}.
End WorkflowDefinition.

Module WorkflowVersion.
Record t : Type := {
  id : Z;
  workflow_id : Z;
  version_number : Z;
  workflow_graph : pyval;
  change_description : option string;
  created_by : Z
}.
End WorkflowVersion.

Module WorkflowStage.
Record t : Type := {
  id : Z;
  workflow_id : Z;
  node_id : pyval;
  node_type : NodeType.t;
  name : pyval;
  order_index : Z;
  required_role : pyval;
  required_roles : pyval;
  specific_users : pyval;
  approval_type : ApprovalType.t;
  required_approvals_count : pyval;
  condition_field : pyval;
  condition_operator : pyval;
  condition_value : pyval;
  sla_hours : pyval;
  escalation_role : pyval;
  escalation_user_id : pyval;
  auto_escalate : pyval;
  notification_template : pyval;
  custom_action : pyval;
  position_x : pyval;
  position_y : pyval;
  next_stage_id : option Z
}.

Definition set_next_stage_id (s : t) (n : option Z) : t :=
  {| id := id s; workflow_id := workflow_id s; node_id := node_id s;
     node_type := node_type s; name := name s; order_index := order_index s;
     required_role := required_role s; required_roles := required_roles s;
     specific_users := specific_users s; approval_type := approval_type s;
     required_approvals_count := required_approvals_count s;
     condition_field := condition_field s;
     condition_operator := condition_operator s;
     condition_value := condition_value s; sla_hours := sla_hours s;
     escalation_role := escalation_role s;
     escalation_user_id := escalation_user_id s;
     auto_escalate := auto_escalate s;
     notification_template := notification_template s;
     custom_action := custom_action s; position_x := position_x s;
     position_y := position_y s; next_stage_id := n |}.
End WorkflowStage.

Module ConditionalRoute.
Record t : Type := {
  id : Z;
  from_stage_id : Z;
  to_stage_id : Z;
  condition_label : pyval;
  condition_field : pyval;
  operator : pyval;
  condition_value : pyval;
  priority : pyval
}.
End ConditionalRoute.

(** ** The session: the tables in storage order and their id sequences.

    Of the database's checks the model has the NOT NULL and UNIQUE
    constraints and the ON DELETE actions that app/models declares; a row
    keeps the Python values it was built from. *)
Module Session.
Record t : Type := {
  abac_policies : list ABACPolicy.t;
  user_attributes : list UserAttribute.t;
  resource_attributes : list ResourceAttribute.t;
  abac_access_logs : list ABACAccessLog.t;
  abac_access_logs_seq : Z;
  workflow_definitions : list WorkflowDefinition.t;
  workflow_definitions_seq : Z;
  workflow_versions : list WorkflowVersion.t;
  workflow_versions_seq : Z;
  workflow_stages : list WorkflowStage.t;
  workflow_stages_seq : Z;
  conditional_routes : list ConditionalRoute.t;
  conditional_routes_seq : Z;
  (** [ConditionalRoute] objects added to the session and not yet
      flushed; their [id] is given at the flush. *)
  new_routes : list ConditionalRoute.t
}.

Definition set_abac_access_logs (db : t) (rows : list ABACAccessLog.t) (seq : Z) : t :=
  {| abac_policies := abac_policies db;
     user_attributes := user_attributes db;
     resource_attributes := resource_attributes db;
     abac_access_logs := rows;
     abac_access_logs_seq := seq;
     workflow_definitions := workflow_definitions db;
     workflow_definitions_seq := workflow_definitions_seq db;
     workflow_versions := workflow_versions db;
     workflow_versions_seq := workflow_versions_seq db;
     workflow_stages := workflow_stages db;
     workflow_stages_seq := workflow_stages_seq db;
     conditional_routes := conditional_routes db;
     conditional_routes_seq := conditional_routes_seq db;
     new_routes := new_routes db |}.

Definition set_workflow_definitions (db : t) (rows : list WorkflowDefinition.t) (seq : Z) : t :=
  {| abac_policies := abac_policies db;
     user_attributes := user_attributes db;
     resource_attributes := resource_attributes db;
     abac_access_logs := abac_access_logs db;
     abac_access_logs_seq := abac_access_logs_seq db;
     workflow_definitions := rows;
     workflow_definitions_seq := seq;
     workflow_versions := workflow_versions db;
     workflow_versions_seq := workflow_versions_seq db;
     workflow_stages := workflow_stages db;
     workflow_stages_seq := workflow_stages_seq db;
     conditional_routes := conditional_routes db;
     conditional_routes_seq := conditional_routes_seq db;
     new_routes := new_routes db |}.

Definition set_workflow_versions (db : t) (rows : list WorkflowVersion.t) (seq : Z) : t :=
  {| abac_policies := abac_policies db;
     user_attributes := user_attributes db;
     resource_attributes := resource_attributes db;
     abac_access_logs := abac_access_logs db;
     abac_access_logs_seq := abac_access_logs_seq db;
     workflow_definitions := workflow_definitions db;
     workflow_definitions_seq := workflow_definitions_seq db;
     workflow_versions := rows;
     workflow_versions_seq := seq;
     workflow_stages := workflow_stages db;
     workflow_stages_seq := workflow_stages_seq db;
     conditional_routes := conditional_routes db;
     conditional_routes_seq := conditional_routes_seq db;
     new_routes := new_routes db |}.

Definition set_workflow_stages (db : t) (rows : list WorkflowStage.t) (seq : Z) : t :=
  {| abac_policies := abac_policies db;
     user_attributes := user_attributes db;
     resource_attributes := resource_attributes db;
     abac_access_logs := abac_access_logs db;
     abac_access_logs_seq := abac_access_logs_seq db;
     workflow_definitions := workflow_definitions db;
     workflow_definitions_seq := workflow_definitions_seq db;
     workflow_versions := workflow_versions db;
     workflow_versions_seq := workflow_versions_seq db;
     workflow_stages := rows;
     workflow_stages_seq := seq;
     conditional_routes := conditional_routes db;
     conditional_routes_seq := conditional_routes_seq db;
     new_routes := new_routes db |}.

Definition set_conditional_routes (db : t) (rows : list ConditionalRoute.t) (seq : Z)
  (pending : list ConditionalRoute.t) : t :=
  {| abac_policies := abac_policies db;
     user_attributes := user_attributes db;
     resource_attributes := resource_attributes db;
     abac_access_logs := abac_access_logs db;
     abac_access_logs_seq := abac_access_logs_seq db;
     workflow_definitions := workflow_definitions db;
     workflow_definitions_seq := workflow_definitions_seq db;
     workflow_versions := workflow_versions db;
     workflow_versions_seq := workflow_versions_seq db;
     workflow_stages := workflow_stages db;
     workflow_stages_seq := workflow_stages_seq db;
     conditional_routes := rows;
     conditional_routes_seq := seq;
     new_routes := pending |}.
End Session.

(** [[r.name for r in getattr(user, "roles", [])] or [user.role]] *)
Definition user_roles (user : User.t) : list string :=
  match map Role.name (User.roles user) with
  | [] => [User.role user]
  | names => names
  end.

(** [any(role in allowed for role in roles)] *)
Definition any_role_in (roles allowed : list string) : bool :=
  existsb (fun role => existsb (String.eqb role) allowed) roles.

(** [.first()] of a filtered query *)
Definition first {A} (l : list A) : option A :=
  match l with [] => None | x :: _ => Some x end.

(* ================================================================== *)
(** * app/services/abac_service.py                                     *)
(* ================================================================== *)

(** What [datetime.utcnow()] shows when the environment bag is built. *)
Module Clock.
Record t : Type := {
  isoformat : string;
  date_isoformat : string;
  hour : Z;
  day_name : string;
  month : Z;
  year : Z
}.
End Clock.

Module ABACService.

(** [re.match(r"\{\{(.+?)\}\}", reference)]: group 1, the shortest non-empty
    run of characters other than newline that is followed by two closing
    braces. *)
Fixpoint re_group (acc rest : string) : option string :=
  if String.prefix "}}" rest then Some acc
  else
    match rest with
    | EmptyString => None
    | String c r =>
        if Ascii.eqb c "010"%char then None
        else re_group (acc ++ String c EmptyString)%string r
    end.

Definition re_match (reference : string) : option string :=
  match reference with
  | String "{" (String "{" (String c r)) =>
      if Ascii.eqb c "010"%char then None
      else re_group (String c EmptyString) r
  | _ => None
  end.

(** The running state of the loop of [check_access]. *)
Record verdict : Type := {
  evaluated_policy_ids : list Z;
  decision : string;
  reason : string;
  applied_policy : option ABACPolicy.t
}.

(** [sorted(policies, key=lambda p: p.priority, reverse=True)]: stable,
    policies of equal priority keep their order. *)
Fixpoint insert_by_priority (p : ABACPolicy.t) (l : list ABACPolicy.t)
  : list ABACPolicy.t :=
  match l with
  | [] => [p]
  | q :: l' =>
      if ABACPolicy.priority p <? ABACPolicy.priority q
      then q :: insert_by_priority p l'
      else p :: q :: l'
  end.

Definition sorted_by_priority (l : list ABACPolicy.t) : list ABACPolicy.t :=
  fold_right insert_by_priority [] l.

Definition in_ids (x : option Z) (ids : list Z) : bool :=
  match x with
  | Some z => existsb (Z.eqb z) ids
  | None => false
  end.

Definition user_attribute (db : Session.t) (user : User.t)
  : option UserAttribute.t :=
  first (filter (fun a => UserAttribute.user_id a =? User.id user)
                (Session.user_attributes db)).

(** [_get_applicable_policies]: the body of the loop, [true] when the
    policy is appended. *)
Definition applicable (db : Session.t) (user : User.t) (policy : ABACPolicy.t)
  : bool :=
  if match ABACPolicy.role_requirements policy with
     | Some ((_ :: _) as reqs) =>
         negb (any_role_in (user_roles user) reqs)
     | _ => false
     end
  then false
  else
    let user_attr := user_attribute db user in
    if match ABACPolicy.department_ids policy, user_attr with
       | Some ((_ :: _) as ids), Some ua =>
           negb (in_ids (UserAttribute.department_id ua) ids)
       | _, _ => false
       end
    then false
    else
      if match ABACPolicy.division_ids policy, user_attr with
         | Some ((_ :: _) as ids), Some ua =>
             negb (in_ids (UserAttribute.division_id ua) ids)
         | _, _ => false
         end
      then false
      else true.

Definition _get_applicable_policies (db : Session.t) (action resource_type : string)
  (user : User.t) : list ABACPolicy.t :=
  let policies :=
    filter (fun p => ABACPolicy.is_active p
                     && String.eqb (ABACPolicy.action p) action
                     && String.eqb (ABACPolicy.resource_type p) resource_type)
           (Session.abac_policies db) in
  filter (applicable db user) policies.

Definition _get_user_attributes (db : Session.t) (user : User.t) : pydict :=
  let attrs :=
    [ ("id", PInt (User.id user));
      ("email", PStr (User.email user));
      ("username", PStr (User.username user));
      ("role", PStr (User.role user));
      ("is_active", PBool (User.is_active user));
      ("is_superuser",
        match User.is_superuser user with Some b => PBool b | None => PBool false end) ] in
  let attrs :=
    match user_attribute db user with
    | Some ua =>
        let attrs :=
          dict_update attrs
            [ ("department_id", of_int (UserAttribute.department_id ua));
              ("division_id", of_int (UserAttribute.division_id ua));
              ("team_id", of_int (UserAttribute.team_id ua));
              ("job_title", of_str (UserAttribute.job_title ua));
              ("job_level", of_int (UserAttribute.job_level ua));
              ("approval_limit_amount", of_int (UserAttribute.approval_limit_amount ua));
              ("can_approve_own_department",
                of_bool (UserAttribute.can_approve_own_department ua));
              ("can_approve_all_departments",
                of_bool (UserAttribute.can_approve_all_departments ua));
              ("office_location", of_str (UserAttribute.office_location ua));
              ("country_code", of_str (UserAttribute.country_code ua)) ] in
        match UserAttribute.custom_attributes ua with
        | Some ((_ :: _) as custom) => dict_update attrs custom
        | _ => attrs
        end
    | None => attrs
    end in
  dict_set attrs "roles" (PList (map (fun r => PStr (Role.name r)) (User.roles user))).

Definition _get_environment_attributes (now : Clock.t) (context : option pydict)
  : pydict :=
  let attrs :=
    [ ("current_time", PStr (Clock.isoformat now));
      ("current_date", PStr (Clock.date_isoformat now));
      ("current_hour", PInt (Clock.hour now));
      ("current_day_of_week", PStr (Clock.day_name now));
      ("current_month", PInt (Clock.month now));
      ("current_year", PInt (Clock.year now)) ] in
  match context with
  | Some ((_ :: _) as c) =>
      dict_update attrs
        [ ("ip_address", get c "ip_address");
          ("user_agent", get c "user_agent");
          ("endpoint", get c "endpoint") ]
  | _ => attrs
  end.

Section Evaluation.
Context {rt : Builtins}.

Definition _parse_attribute_value (value : option string) (value_type : string)
  : pyres pyval :=
  if String.eqb value_type "number" then
    match value with
    | None => Raise TypeError
    | Some s =>
        match float_of_str s with
        | Some f => Ok (PFloat f)
        | None => Ok (PStr s)
        end
    end
  else if String.eqb value_type "boolean" then
    match value with
    | None => Raise AttributeError
    | Some s => Ok (PBool (existsb (String.eqb (lower s)) ["true"; "1"; "yes"]))
    end
  else if String.eqb value_type "json" then
    match value with
    | None => Raise TypeError
    | Some s =>
        match json_loads s with
        | Some v => Ok v
        | None => Ok (PStr s)
        end
    end
  else Ok (of_str value).

(** [resource_obj] is given by the attributes it has. *)
Definition _get_resource_attributes (db : Session.t) (resource_type : string)
  (resource_id : option Z) (resource_obj : option pydict) : pyres pydict :=
  let attrs := [ ("type", PStr resource_type); ("id", of_int resource_id) ] in
  let attrs :=
    match resource_obj with
    | Some obj =>
        fold_left
          (fun acc attr_name =>
             match dict_get obj attr_name with
             | Some v => dict_set acc attr_name v
             | None => acc
             end)
          [ "status"; "amount"; "total_amount"; "created_by"; "department_id";
            "division_id"; "created_at"; "priority"; "category"; "assigned_to" ]
          attrs
    | None => attrs
    end in
  match resource_id with
  | Some rid =>
      if rid =? 0 then Ok attrs
      else
        let dynamic_attrs :=
          filter (fun a => String.eqb (ResourceAttribute.resource_type a) resource_type
                           && (ResourceAttribute.resource_id a =? rid))
                 (Session.resource_attributes db) in
        fold_left
          (fun acc attr =>
             attrs <- acc ;;
             v <- _parse_attribute_value (ResourceAttribute.attribute_value attr)
                                         (ResourceAttribute.attribute_type attr) ;;
             Ok (dict_set attrs (ResourceAttribute.attribute_name attr) v))
          dynamic_attrs (Ok attrs)
  | None => Ok attrs
  end.

(** The loop of [_get_attribute_value] over [parts[1:]]. *)
Fixpoint navigate (obj : pyval) (parts : list string) : pyval :=
  match parts with
  | [] => obj
  | part :: rest =>
      let obj' :=
        match obj with
        | PDict d => get d part
        | _ => builtin_getattr obj part
        end in
      match obj' with
      | PNone => PNone
      | _ => navigate obj' rest
      end
  end.

(** [path.split] exists on a string only. *)
Definition _get_attribute_value (path : pyval)
  (user_attrs resource_attrs env_attrs : pydict) : pyres pyval :=
  match path with
  | PStr s =>
      let parts := str_split "." s in
      let root := hd "" parts in
      if String.eqb root "user" then Ok (navigate (PDict user_attrs) (tl parts))
      else if String.eqb root "resource" then Ok (navigate (PDict resource_attrs) (tl parts))
      else if String.eqb root "environment" then Ok (navigate (PDict env_attrs) (tl parts))
      else Ok PNone
  | _ => Raise AttributeError
  end.

Definition _resolve_reference (reference : string)
  (user_attrs resource_attrs env_attrs : pydict) : pyres pyval :=
  match re_match reference with
  | None => Ok (PStr reference)
  | Some g =>
      _get_attribute_value (PStr (strip g)) user_attrs resource_attrs env_attrs
  end.

Definition is_op (operator : pyval) (name : string) : bool :=
  py_eq operator (PStr name).

Definition _apply_operator (operator actual expected : pyval) : pyres bool :=
  except_VTA
    (if is_op operator "eq" then Ok (py_eq actual expected)
     else if is_op operator "ne" then Ok (negb (py_eq actual expected))
     else if is_op operator "gt" then
       a <- py_float actual ;; e <- py_float expected ;; Ok (SFltb e a)
     else if is_op operator "gte" then
       a <- py_float actual ;; e <- py_float expected ;; Ok (SFleb e a)
     else if is_op operator "lt" then
       a <- py_float actual ;; e <- py_float expected ;; Ok (SFltb a e)
     else if is_op operator "lte" then
       a <- py_float actual ;; e <- py_float expected ;; Ok (SFleb a e)
     else if is_op operator "in" then
       match expected with
       | PList l => Ok (py_in actual l)
       | _ => Ok false
       end
     else if is_op operator "not_in" then
       match expected with
       | PList l => Ok (negb (py_in actual l))
       | _ => Ok true
       end
     else if is_op operator "contains" then
       e <- py_str expected ;; a <- py_str actual ;; Ok (contains a e)
     else if is_op operator "starts_with" then
       a <- py_str actual ;; e <- py_str expected ;; Ok (startswith a e)
     else if is_op operator "ends_with" then
       a <- py_str actual ;; e <- py_str expected ;; Ok (endswith a e)
     else if is_op operator "between" then
       match expected with
       | PList [lo; hi] =>
           l <- py_float lo ;;
           a <- py_float actual ;;
           if SFleb l a then h <- py_float hi ;; Ok (SFleb a h) else Ok false
       | _ => Ok false
       end
     else if is_op operator "is_null" then
       Ok (match actual with PNone => true | _ => false end)
     else if is_op operator "is_not_null" then
       Ok (match actual with PNone => false | _ => true end)
     else Ok false)
    false.

Definition _evaluate_condition (condition : pyval)
  (user_attrs resource_attrs env_attrs : pydict) : pyres bool :=
  attribute_path <- py_get condition "attribute" ;;
  operator <- py_get_or condition "operator" (PStr "eq") ;;
  expected_value <- py_get condition "value" ;;
  actual_value <-
    _get_attribute_value attribute_path user_attrs resource_attrs env_attrs ;;
  expected_value <-
    match expected_value with
    | PStr s =>
        if startswith s "{{"
        then _resolve_reference s user_attrs resource_attrs env_attrs
        else Ok expected_value
    | _ => Ok expected_value
    end ;;
  _apply_operator operator actual_value expected_value.

Definition _evaluate_policy (policy : ABACPolicy.t)
  (user_attrs resource_attrs env_attrs : pydict) : pyres bool :=
  match ABACPolicy.conditions policy with
  | None | Some [] => Ok true
  | Some conditions =>
      let each cond :=
        _evaluate_condition cond user_attrs resource_attrs env_attrs in
      if dict_has conditions "all" then
        conds <- py_iter (get conditions "all") ;; py_all each conds
      else if dict_has conditions "any" then
        conds <- py_iter (get conditions "any") ;; py_any each conds
      else if dict_has conditions "none" then
        conds <- py_iter (get conditions "none") ;;
        b <- py_any each conds ;; Ok (negb b)
      else Ok false
  end.

Definition _log_access (db : Session.t) (user_id : Z) (action resource_type : string)
  (resource_id : option Z) (decision : string) (policy_id : option Z)
  (user_attrs resource_attrs env_attrs : pydict) (evaluated_policies : list Z)
  (evaluation_time_ms : Z) (reason : string) (context : option pydict)
  : Session.t :=
  let field k :=
    match context with
    | Some ((_ :: _) as c) => get c k
    | _ => PNone
    end in
  let log :=
    {| ABACAccessLog.id := Session.abac_access_logs_seq db;
       ABACAccessLog.user_id := user_id;
       ABACAccessLog.action := action;
       ABACAccessLog.resource_type := resource_type;
       ABACAccessLog.resource_id := resource_id;
       ABACAccessLog.decision := decision;
       ABACAccessLog.policy_id := policy_id;
       ABACAccessLog.user_attributes := user_attrs;
       ABACAccessLog.resource_attributes := resource_attrs;
       ABACAccessLog.environment_attributes := env_attrs;
       ABACAccessLog.evaluated_policies := evaluated_policies;
       ABACAccessLog.evaluation_time_ms := evaluation_time_ms;
       ABACAccessLog.reason := reason;
       ABACAccessLog.ip_address := field "ip_address";
       ABACAccessLog.user_agent := field "user_agent";
       ABACAccessLog.endpoint := field "endpoint" |} in
  Session.set_abac_access_logs db
    (Session.abac_access_logs db ++ [log]) (Session.abac_access_logs_seq db + 1).

(** The [for] loop of [check_access]: a match overwrites the verdict; a
    matching deny breaks, a matching allow goes on. *)
Fixpoint evaluate (user_attrs resource_attrs env_attrs : pydict)
  (policies : list ABACPolicy.t) (v : verdict) : pyres verdict :=
  match policies with
  | [] => Ok v
  | policy :: rest =>
      let ids := evaluated_policy_ids v ++ [ABACPolicy.id policy] in
      matched <- _evaluate_policy policy user_attrs resource_attrs env_attrs ;;
      if matched then
        let v' :=
          {| evaluated_policy_ids := ids;
             decision := PolicyEffect.value (ABACPolicy.effect policy);
             reason := ("Policy '" ++ ABACPolicy.name policy ++ "' matched")%string;
             applied_policy := Some policy |} in
        match ABACPolicy.effect policy with
        | PolicyEffect.deny => Ok v'
        | PolicyEffect.allow => evaluate user_attrs resource_attrs env_attrs rest v'
        end
      else
        evaluate user_attrs resource_attrs env_attrs rest
          {| evaluated_policy_ids := ids;
             decision := decision v;
             reason := reason v;
             applied_policy := applied_policy v |}
  end.

Definition initial_verdict : verdict :=
  {| evaluated_policy_ids := [];
     decision := "deny";
     reason := "No matching policy found";
     applied_policy := None |}.

(** [check_access]; [now] and [evaluation_time_ms] are the readings of the
    clock.  Returns the triple and the session with the access log row. *)
Definition check_access (db : Session.t) (user : User.t)
  (action resource_type : string) (resource_id : option Z)
  (resource_obj : option pydict) (context : option pydict)
  (now : Clock.t) (evaluation_time_ms : Z)
  : pyres ((bool * string * option ABACPolicy.t) * Session.t) :=
  let user_attrs := _get_user_attributes db user in
  resource_attrs <- _get_resource_attributes db resource_type resource_id resource_obj ;;
  let env_attrs := _get_environment_attributes now context in
  let policies := _get_applicable_policies db action resource_type user in
  v <- evaluate user_attrs resource_attrs env_attrs
         (sorted_by_priority policies) initial_verdict ;;
  let db' :=
    _log_access db (User.id user) action resource_type resource_id (decision v)
      (option_map ABACPolicy.id (applied_policy v))
      user_attrs resource_attrs env_attrs (evaluated_policy_ids v)
      evaluation_time_ms (reason v) context in
  Ok ((String.eqb (decision v) "allow", reason v, applied_policy v), db').

End Evaluation.

End ABACService.

(* ================================================================== *)
(** * app/core/permissions.py                                          *)
(* ================================================================== *)

Module WorkflowPermissions.

(** "Only admins and managers can publish" *)
Definition can_publish_workflow (user : User.t) (workflow : WorkflowDefinition.t)
  : bool :=
  if String.eqb (User.role user) "admin" then true
  else if (WorkflowDefinition.created_by workflow =? User.id user)
          && any_role_in (user_roles user) ["manager"; "supervisor"; "department_head"]
  then true
  else false.

End WorkflowPermissions.

(* ================================================================== *)
(** * app/services/visual_workflow_service.py                          *)
(* ================================================================== *)

Module VisualWorkflowService.

Definition _can_edit (user : User.t) (workflow : WorkflowDefinition.t) : bool :=
  if String.eqb (User.role user) "admin" then true
  else if WorkflowDefinition.created_by workflow =? User.id user then true
  else
    match WorkflowDefinition.can_edit_roles workflow with
    | Some ((_ :: _) as allowed) => any_role_in (user_roles user) allowed
    | _ => false
    end.

Definition _validate_graph (graph_data : pydict) : pyres unit :=
  if negb (dict_has graph_data "nodes") || negb (dict_has graph_data "edges") then
    Raise (HTTPException 400 "Invalid graph: must contain 'nodes' and 'edges'")
  else
    let nodes := get graph_data "nodes" in
    if negb (truthy nodes) then
      Raise (HTTPException 400 "Workflow must have at least one node")
    else
      items <- py_iter nodes ;;
      has_start <-
        py_any (fun n => t <- py_get n "type" ;; Ok (py_eq t (PStr "start"))) items ;;
      if negb has_start then
        Raise (HTTPException 400 "Workflow must have a start node")
      else Ok tt.

(** ** The queries of the service *)

Definition definition_by_id (db : Session.t) (workflow_id : Z)
  : option WorkflowDefinition.t :=
  first (filter (fun w => WorkflowDefinition.id w =? workflow_id)
                (Session.workflow_definitions db)).

Definition stages_of (db : Session.t) (workflow_id : Z) : list WorkflowStage.t :=
  filter (fun s => WorkflowStage.workflow_id s =? workflow_id)
         (Session.workflow_stages db).

Definition mem (i : Z) (ids : list Z) : bool := existsb (Z.eqb i) ids.

(** [db.query(WorkflowStage).filter_by(workflow_id=...).delete()].  The
    foreign keys on [workflow_stages.id] act on the delete:
    [conditional_routes.from_stage_id] and [.to_stage_id] are ON DELETE
    CASCADE, [workflow_stages.next_stage_id] is ON DELETE SET NULL. *)
Definition delete_stages (db : Session.t) (workflow_id : Z) : Session.t :=
  let deleted := map WorkflowStage.id (stages_of db workflow_id) in
  let kept :=
    filter (fun s => negb (WorkflowStage.workflow_id s =? workflow_id))
           (Session.workflow_stages db) in
  let kept :=
    map (fun s =>
           match WorkflowStage.next_stage_id s with
           | Some n =>
               if mem n deleted then WorkflowStage.set_next_stage_id s None else s
           | None => s
           end) kept in
  let routes :=
    filter (fun r => negb (mem (ConditionalRoute.from_stage_id r) deleted)
                     && negb (mem (ConditionalRoute.to_stage_id r) deleted))
           (Session.conditional_routes db) in
  Session.set_conditional_routes
    (Session.set_workflow_stages db kept (Session.workflow_stages_seq db))
    routes (Session.conditional_routes_seq db) (Session.new_routes db).

(** [db.query(ConditionalRoute).filter(ConditionalRoute.from_stage_id.in_(
      db.query(WorkflowStage.id).filter_by(workflow_id=...))).delete()] *)
Definition delete_routes (db : Session.t) (workflow_id : Z) : Session.t :=
  let ids := map WorkflowStage.id (stages_of db workflow_id) in
  Session.set_conditional_routes db
    (filter (fun r => negb (mem (ConditionalRoute.from_stage_id r) ids))
            (Session.conditional_routes db))
    (Session.conditional_routes_seq db) (Session.new_routes db).

(** [db.add(stage); db.flush()]: the row gets its id; [node_id] and [name]
    are NOT NULL. *)
Definition add_stage (db : Session.t) (stage : Z -> WorkflowStage.t)
  : pyres (WorkflowStage.t * Session.t) :=
  let row := stage (Session.workflow_stages_seq db) in
  match WorkflowStage.node_id row, WorkflowStage.name row with
  | PNone, _ | _, PNone => Raise IntegrityError
  | _, _ =>
      Ok (row, Session.set_workflow_stages db
                 (Session.workflow_stages db ++ [row])
                 (Session.workflow_stages_seq db + 1))
  end.

(** [db.add(ConditionalRoute(...))] *)
Definition add_route (db : Session.t) (route : ConditionalRoute.t) : Session.t :=
  Session.set_conditional_routes db (Session.conditional_routes db)
    (Session.conditional_routes_seq db) (Session.new_routes db ++ [route]).

(** The flush of the pending routes, in the order they were added:
    [condition_field], [operator] and [condition_value] are NOT NULL. *)
Fixpoint flush_routes (pending rows : list ConditionalRoute.t) (seq : Z)
  : pyres (list ConditionalRoute.t * Z) :=
  match pending with
  | [] => Ok (rows, seq)
  | r :: pending' =>
      match ConditionalRoute.condition_field r, ConditionalRoute.operator r,
            ConditionalRoute.condition_value r with
      | PNone, _, _ | _, PNone, _ | _, _, PNone => Raise IntegrityError
      | _, _, _ =>
          let row :=
            {| ConditionalRoute.id := seq;
               ConditionalRoute.from_stage_id := ConditionalRoute.from_stage_id r;
               ConditionalRoute.to_stage_id := ConditionalRoute.to_stage_id r;
               ConditionalRoute.condition_label := ConditionalRoute.condition_label r;
               ConditionalRoute.condition_field := ConditionalRoute.condition_field r;
               ConditionalRoute.operator := ConditionalRoute.operator r;
               ConditionalRoute.condition_value := ConditionalRoute.condition_value r;
               ConditionalRoute.priority := ConditionalRoute.priority r |} in
          flush_routes pending' (rows ++ [row]) (seq + 1)
      end
  end.

(** [db.commit()] *)
Definition commit (db : Session.t) : pyres Session.t :=
  '(rows, seq) <-
    flush_routes (Session.new_routes db) (Session.conditional_routes db)
                 (Session.conditional_routes_seq db) ;;
  Ok (Session.set_conditional_routes db rows seq []).

(** [source_stage.next_stage_id = target] on the stage of that id *)
Definition set_next_stage (db : Session.t) (stage_id target : Z) : Session.t :=
  Session.set_workflow_stages db
    (map (fun s =>
            if WorkflowStage.id s =? stage_id
            then WorkflowStage.set_next_stage_id s (Some target)
            else s)
         (Session.workflow_stages db))
    (Session.workflow_stages_seq db).

Definition stage_by_id (db : Session.t) (stage_id : Z) : option WorkflowStage.t :=
  first (filter (fun s => WorkflowStage.id s =? stage_id) (Session.workflow_stages db)).

(** ** [node_to_stage]: a dict from node ids to the stages (by their id) *)

Definition node_map : Type := list (pyval * Z).

Fixpoint node_map_set (m : node_map) (k : pyval) (v : Z) : node_map :=
  match m with
  | [] => [(k, v)]
  | (k', v') :: m' =>
      if py_eq k' k then (k', v) :: m' else (k', v') :: node_map_set m' k v
  end.

Fixpoint node_map_find (m : node_map) (k : pyval) : option Z :=
  match m with
  | [] => None
  | (k', v) :: m' => if py_eq k' k then Some v else node_map_find m' k
  end.

(** [node_to_stage[k] = v] and [node_to_stage.get(k)] hash the key. *)
Definition node_map_setitem (m : node_map) (k : pyval) (v : Z) : pyres node_map :=
  if hashable k then Ok (node_map_set m k v) else Raise TypeError.

Definition node_map_get (m : node_map) (k : pyval) : pyres (option Z) :=
  if hashable k then Ok (node_map_find m k) else Raise TypeError.

(** ** _sync_stages_from_graph *)

(** [NodeType(node_type) if node_type in NodeType.__members__
     else NodeType.approval] *)
Definition node_type_of (node_type : pyval) : pyres NodeType.t :=
  if negb (hashable node_type) then Raise TypeError
  else
    match node_type with
    | PStr s =>
        match NodeType.of_string s with
        | Some t => Ok t
        | None => Ok NodeType.approval
        end
    | _ => Ok NodeType.approval
    end.

(** The [WorkflowStage(...)] of one node; the keyword arguments are
    evaluated in the order they are written. *)
Definition stage_of_node (workflow_id : Z) (idx : Z) (node : pyval)
  : pyres (Z -> WorkflowStage.t) :=
  node_id <- py_getitem node "id" ;;
  node_data <- py_get_or node "data" (PDict []) ;;
  node_type <- py_get_or node "type" (PStr "approval") ;;
  node_type <- node_type_of node_type ;;
  name <- py_get_or node_data "label" (PStr ("Stage " ++ str_of_Z (idx + 1))) ;;
  required_role <- py_get node_data "required_role" ;;
  required_roles <- py_get node_data "required_roles" ;;
  specific_users <- py_get node_data "specific_users" ;;
  approval_type <- py_get_or node_data "approval_type" (PStr "sequential") ;;
  approval_type <- ApprovalType.call approval_type ;;
  required_approvals_count <- py_get node_data "required_approvals_count" ;;
  condition_field <- py_get node_data "condition_field" ;;
  condition_operator <- py_get node_data "condition_operator" ;;
  condition_value <- py_get node_data "condition_value" ;;
  sla_hours <- py_get node_data "sla_hours" ;;
  escalation_role <- py_get node_data "escalation_role" ;;
  escalation_user_id <- py_get node_data "escalation_user_id" ;;
  auto_escalate <- py_get_or node_data "auto_escalate" (PBool false) ;;
  notification_template <- py_get node_data "notification_template" ;;
  custom_action <- py_get node_data "custom_action" ;;
  position <- py_get_or node "position" (PDict []) ;;
  position_x <- py_get position "x" ;;
  position <- py_get_or node "position" (PDict []) ;;
  position_y <- py_get position "y" ;;
  Ok (fun id =>
        {| WorkflowStage.id := id;
           WorkflowStage.workflow_id := workflow_id;
           WorkflowStage.node_id := node_id;
           WorkflowStage.node_type := node_type;
           WorkflowStage.name := name;
           WorkflowStage.order_index := idx;
           WorkflowStage.required_role := required_role;
           WorkflowStage.required_roles := required_roles;
           WorkflowStage.specific_users := specific_users;
           WorkflowStage.approval_type := approval_type;
           WorkflowStage.required_approvals_count := required_approvals_count;
           WorkflowStage.condition_field := condition_field;
           WorkflowStage.condition_operator := condition_operator;
           WorkflowStage.condition_value := condition_value;
           WorkflowStage.sla_hours := sla_hours;
           WorkflowStage.escalation_role := escalation_role;
           WorkflowStage.escalation_user_id := escalation_user_id;
           WorkflowStage.auto_escalate := auto_escalate;
           WorkflowStage.notification_template := notification_template;
           WorkflowStage.custom_action := custom_action;
           WorkflowStage.position_x := position_x;
           WorkflowStage.position_y := position_y;
           WorkflowStage.next_stage_id := None |}).

(** [for idx, node in enumerate(nodes)] *)
Fixpoint create_stages (workflow_id : Z) (nodes : list pyval) (idx : Z)
  (db : Session.t) (node_to_stage : node_map) : pyres (Session.t * node_map) :=
  match nodes with
  | [] => Ok (db, node_to_stage)
  | node :: nodes' =>
      stage <- stage_of_node workflow_id idx node ;;
      '(row, db) <- add_stage db stage ;;
      node_to_stage <-
        node_map_setitem node_to_stage (WorkflowStage.node_id row) (WorkflowStage.id row) ;;
      create_stages workflow_id nodes' (idx + 1) db node_to_stage
  end.

(** [for edge in edges] *)
Fixpoint connect_stages (edges : list pyval) (node_to_stage : node_map)
  (db : Session.t) : pyres Session.t :=
  match edges with
  | [] => Ok db
  | edge :: edges' =>
      source_id <- py_getitem edge "source" ;;
      target_id <- py_getitem edge "target" ;;
      edge_data <- py_get_or edge "data" (PDict []) ;;
      source_stage <- node_map_get node_to_stage source_id ;;
      target_stage <- node_map_get node_to_stage target_id ;;
      match source_stage, target_stage with
      | Some source, Some target =>
          condition <- py_get edge_data "condition" ;;
          if truthy condition then
            label <- py_get edge_data "label" ;;
            condition_field <- py_get edge_data "condition_field" ;;
            operator <- py_get edge_data "operator" ;;
            condition_value <- py_get edge_data "condition_value" ;;
            priority <- py_get_or edge_data "priority" (PInt 0) ;;
            connect_stages edges' node_to_stage
              (add_route db
                 {| ConditionalRoute.id := 0;
                    ConditionalRoute.from_stage_id := source;
                    ConditionalRoute.to_stage_id := target;
                    ConditionalRoute.condition_label := label;
                    ConditionalRoute.condition_field := condition_field;
                    ConditionalRoute.operator := operator;
                    ConditionalRoute.condition_value := condition_value;
                    ConditionalRoute.priority := priority |})
          else
            let unset :=
              match option_map WorkflowStage.next_stage_id (stage_by_id db source) with
              | Some (Some n) => n =? 0
              | _ => true
              end in
            connect_stages edges' node_to_stage
              (if unset then set_next_stage db source target else db)
      | _, _ => connect_stages edges' node_to_stage db
      end
  end.

Definition _sync_stages_from_graph (db : Session.t) (workflow : WorkflowDefinition.t)
  (graph_data : pydict) : pyres Session.t :=
  let db := delete_stages db (WorkflowDefinition.id workflow) in
  let db := delete_routes db (WorkflowDefinition.id workflow) in
  let nodes := get_or graph_data "nodes" (PList []) in
  let edges := get_or graph_data "edges" (PList []) in
  nodes <- py_iter nodes ;;
  '(db, node_to_stage) <-
    create_stages (WorkflowDefinition.id workflow) nodes 0 db [] ;;
  edges <- py_iter edges ;;
  connect_stages edges node_to_stage db.

(** ** save_workflow_graph *)

(** The UPDATE of a definition row *)
Definition update_definition (db : Session.t) (workflow : WorkflowDefinition.t)
  : Session.t :=
  Session.set_workflow_definitions db
    (map (fun w =>
            if WorkflowDefinition.id w =? WorkflowDefinition.id workflow
            then workflow else w)
         (Session.workflow_definitions db))
    (Session.workflow_definitions_seq db).

(** [db.add(WorkflowVersion(...))] *)
Definition add_version (db : Session.t) (workflow : WorkflowDefinition.t)
  (description : option string) (user : User.t) : Session.t :=
  Session.set_workflow_versions db
    (Session.workflow_versions db ++
     [ {| WorkflowVersion.id := Session.workflow_versions_seq db;
          WorkflowVersion.workflow_id := WorkflowDefinition.id workflow;
          WorkflowVersion.version_number := WorkflowDefinition.version workflow;
          WorkflowVersion.workflow_graph := WorkflowDefinition.workflow_graph workflow;
          WorkflowVersion.change_description := description;
          WorkflowVersion.created_by := User.id user |} ])
    (Session.workflow_versions_seq db + 1).

(** [db.add(workflow); db.flush()] of a new definition: [name] is NOT NULL
    and UNIQUE, [model_name] is NOT NULL; [version] and [is_template] take
    their column defaults. *)
Definition add_definition (db : Session.t) (graph_data : pydict) (user : User.t)
  : pyres (WorkflowDefinition.t * Session.t) :=
  let workflow :=
    {| WorkflowDefinition.id := Session.workflow_definitions_seq db;
       WorkflowDefinition.name := get_or graph_data "name" (PStr "New Workflow");
       WorkflowDefinition.description := get graph_data "description";
       WorkflowDefinition.model_name := get_or graph_data "model_name" (PStr "GenericModel");
       WorkflowDefinition.workflow_graph := PDict graph_data;
       WorkflowDefinition.version := 1;
       WorkflowDefinition.status := WorkflowStatus.draft;
       WorkflowDefinition.is_template := false;
       WorkflowDefinition.created_by := User.id user;
       WorkflowDefinition.department_id := None;
       WorkflowDefinition.division_id := None;
       WorkflowDefinition.can_view_roles := None;
       WorkflowDefinition.can_edit_roles := None;
       WorkflowDefinition.can_use_roles := None;
       WorkflowDefinition.updated_at := None;
       WorkflowDefinition.published_at := None |} in
  match WorkflowDefinition.name workflow, WorkflowDefinition.model_name workflow with
  | PNone, _ | _, PNone => Raise IntegrityError
  | name, _ =>
      if existsb (fun w => py_eq (WorkflowDefinition.name w) name)
                 (Session.workflow_definitions db)
      then Raise IntegrityError
      else
        Ok (workflow,
            Session.set_workflow_definitions db
              (Session.workflow_definitions db ++ [workflow])
              (Session.workflow_definitions_seq db + 1))
  end.

(** The assignments of the update branch: the new graph, [version += 1],
    [updated_at]. *)
Definition with_new_graph (workflow : WorkflowDefinition.t) (graph_data : pydict)
  (now : datetime) : WorkflowDefinition.t :=
  {| WorkflowDefinition.id := WorkflowDefinition.id workflow;
     WorkflowDefinition.name := WorkflowDefinition.name workflow;
     WorkflowDefinition.description := WorkflowDefinition.description workflow;
     WorkflowDefinition.model_name := WorkflowDefinition.model_name workflow;
     WorkflowDefinition.workflow_graph := PDict graph_data;
     WorkflowDefinition.version := WorkflowDefinition.version workflow + 1;
     WorkflowDefinition.status := WorkflowDefinition.status workflow;
     WorkflowDefinition.is_template := WorkflowDefinition.is_template workflow;
     WorkflowDefinition.created_by := WorkflowDefinition.created_by workflow;
     WorkflowDefinition.department_id := WorkflowDefinition.department_id workflow;
     WorkflowDefinition.division_id := WorkflowDefinition.division_id workflow;
     WorkflowDefinition.can_view_roles := WorkflowDefinition.can_view_roles workflow;
     WorkflowDefinition.can_edit_roles := WorkflowDefinition.can_edit_roles workflow;
     WorkflowDefinition.can_use_roles := WorkflowDefinition.can_use_roles workflow;
     WorkflowDefinition.updated_at := Some now;
     WorkflowDefinition.published_at := WorkflowDefinition.published_at workflow |}.

(** [if workflow_id:] *)
Definition given (workflow_id : option Z) : option Z :=
  match workflow_id with
  | Some wid => if wid =? 0 then None else Some wid
  | None => None
  end.

Definition save_workflow_graph (db : Session.t) (workflow_id : option Z)
  (graph_data : pydict) (user : User.t) (description : option string)
  (now : datetime) : pyres (WorkflowDefinition.t * Session.t) :=
  _ <- _validate_graph graph_data ;;
  '(workflow, db) <-
    match given workflow_id with
    | Some wid =>
        match definition_by_id db wid with
        | None => Raise (HTTPException 404 "Workflow not found")
        | Some workflow =>
            if negb (_can_edit user workflow) then
              Raise (HTTPException 403 "No permission to edit workflow")
            else
              let db := add_version db workflow description user in
              let workflow := with_new_graph workflow graph_data now in
              Ok (workflow, update_definition db workflow)
        end
    | None => add_definition db graph_data user
    end ;;
  db <- _sync_stages_from_graph db workflow graph_data ;;
  db <- commit db ;;
  Ok (workflow, db).

(** ** publish_workflow *)

Definition with_active (workflow : WorkflowDefinition.t) (now : datetime)
  : WorkflowDefinition.t :=
  {| WorkflowDefinition.id := WorkflowDefinition.id workflow;
     WorkflowDefinition.name := WorkflowDefinition.name workflow;
     WorkflowDefinition.description := WorkflowDefinition.description workflow;
     WorkflowDefinition.model_name := WorkflowDefinition.model_name workflow;
     WorkflowDefinition.workflow_graph := WorkflowDefinition.workflow_graph workflow;
     WorkflowDefinition.version := WorkflowDefinition.version workflow;
     WorkflowDefinition.status := WorkflowStatus.active;
     WorkflowDefinition.is_template := WorkflowDefinition.is_template workflow;
     WorkflowDefinition.created_by := WorkflowDefinition.created_by workflow;
     WorkflowDefinition.department_id := WorkflowDefinition.department_id workflow;
     WorkflowDefinition.division_id := WorkflowDefinition.division_id workflow;
     WorkflowDefinition.can_view_roles := WorkflowDefinition.can_view_roles workflow;
     WorkflowDefinition.can_edit_roles := WorkflowDefinition.can_edit_roles workflow;
     WorkflowDefinition.can_use_roles := WorkflowDefinition.can_use_roles workflow;
     WorkflowDefinition.updated_at := WorkflowDefinition.updated_at workflow;
     WorkflowDefinition.published_at := Some now |}.

Section Publish.
Context {rt : Builtins}.

Definition _validate_workflow_completeness (db : Session.t)
  (workflow : WorkflowDefinition.t) : pyres (list string) :=
  let stages := stages_of db (WorkflowDefinition.id workflow) in
  let errors :=
    match stages with
    | [] => ["No stages defined"]
    | _ => []
    end in
  fold_left
    (fun acc stage =>
       errors <- acc ;;
       if NodeType.eqb (WorkflowStage.node_type stage) NodeType.approval
          && negb (truthy (WorkflowStage.required_role stage))
          && negb (truthy (WorkflowStage.required_roles stage))
          && negb (truthy (WorkflowStage.specific_users stage))
       then
         name <- py_str (WorkflowStage.name stage) ;;
         Ok (errors ++ [("Stage '" ++ name ++ "' missing required approvers")%string])
       else Ok errors)
    stages (Ok errors).

Definition publish_workflow (db : Session.t) (workflow_id : Z) (user : User.t)
  (now : datetime) : pyres (WorkflowDefinition.t * Session.t) :=
  match definition_by_id db workflow_id with
  | None => Raise (HTTPException 404 "Workflow not found")
  | Some workflow =>
      if negb (_can_edit user workflow) then
        Raise (HTTPException 403 "No permission to publish")
      else
        errors <- _validate_workflow_completeness db workflow ;;
        match errors with
        | _ :: _ =>
            Raise (HTTPException 400
                     ("Cannot publish incomplete workflow: "
                      ++ String.concat ", " errors)%string)
        | [] =>
            let workflow := with_active workflow now in
            db <- commit (update_definition db workflow) ;;
            Ok (workflow, db)
        end
  end.

End Publish.

End VisualWorkflowService.

(* ================================================================== *)
(** * Concrete requests, policies and graphs                           *)
(* ================================================================== *)

Module Examples.

(** None of the closed examples reaches a built-in that depends on the
    interpreter; this instance fixes them so that the examples are closed. *)
Definition no_builtins : Builtins :=
  {| float_of_str := fun _ => None;
     builtin_str := fun _ => Raise ValueError;
     builtin_getattr := fun _ _ => PNone;
     json_loads := fun _ => None |}.

Definition empty_session : Session.t :=
  {| Session.abac_policies := [];
     Session.user_attributes := [];
     Session.resource_attributes := [];
     Session.abac_access_logs := [];
     Session.abac_access_logs_seq := 1;
     Session.workflow_definitions := [];
     Session.workflow_definitions_seq := 1;
     Session.workflow_versions := [];
     Session.workflow_versions_seq := 1;
     Session.workflow_stages := [];
     Session.workflow_stages_seq := 1;
     Session.conditional_routes := [];
     Session.conditional_routes_seq := 1;
     Session.new_routes := [] |}.

Definition with_policies (policies : list ABACPolicy.t) : Session.t :=
  {| Session.abac_policies := policies;
     Session.user_attributes := [];
     Session.resource_attributes := [];
     Session.abac_access_logs := [];
     Session.abac_access_logs_seq := 1;
     Session.workflow_definitions := [];
     Session.workflow_definitions_seq := 1;
     Session.workflow_versions := [];
     Session.workflow_versions_seq := 1;
     Session.workflow_stages := [];
     Session.workflow_stages_seq := 1;
     Session.conditional_routes := [];
     Session.conditional_routes_seq := 1;
     Session.new_routes := [] |}.

Definition subject (id : Z) (role : string) : User.t :=
  {| User.id := id;
     User.email := "subject@example.com";
     User.username := "subject";
     User.full_name := "Subject";
     User.is_active := true;
     User.role := role;
     User.is_superuser := None;
     User.department_id := None;
     User.division_id := None;
     User.roles := [] |}.

Definition policy (id : Z) (name : string) (effect : PolicyEffect.t) (priority : Z)
  (action resource_type : string) (conditions : option pydict) : ABACPolicy.t :=
  {| ABACPolicy.id := id;
     ABACPolicy.name := name;
     ABACPolicy.description := None;
     ABACPolicy.effect := effect;
     ABACPolicy.priority := priority;
     ABACPolicy.action := action;
     ABACPolicy.resource_type := resource_type;
     ABACPolicy.conditions := conditions;
     ABACPolicy.department_ids := None;
     ABACPolicy.division_ids := None;
     ABACPolicy.role_requirements := None;
     ABACPolicy.is_active := true;
     ABACPolicy.created_by := 1 |}.

Definition noon : Clock.t :=
  {| Clock.isoformat := "2025-01-06T12:00:00";
     Clock.date_isoformat := "2025-01-06";
     Clock.hour := 12;
     Clock.day_name := "Monday";
     Clock.month := 1;
     Clock.year := 2025 |}.

(** Scenario 2 of the specification: an unconditional allow and a deny of
    self-approval, both of priority 100. *)
Definition allow_approve : ABACPolicy.t :=
  policy 1 "approve-invoices" PolicyEffect.allow 100 "approve" "Invoice" None.

Definition deny_own : ABACPolicy.t :=
  policy 2 "no-self-approval" PolicyEffect.deny 100 "approve" "Invoice"
    (Some [("all", PList [PDict [("attribute", PStr "user.id");
                                 ("operator", PStr "eq");
                                 ("value", PStr "{{resource.created_by}}")]])]).

Definition own_invoice : pydict := [("created_by", PInt 5); ("amount", PInt 25000)].

(** The seeded "Admin - Full Access" policy of app/seeds/abac_policies.py. *)
Definition admin_full_access : ABACPolicy.t :=
  {| ABACPolicy.id := 1;
     ABACPolicy.name := "Admin - Full Access";
     ABACPolicy.description := Some "Admins have full access to all resources";
     ABACPolicy.effect := PolicyEffect.allow;
     ABACPolicy.priority := 999;
     ABACPolicy.action := "*";
     ABACPolicy.resource_type := "*";
     ABACPolicy.conditions := None;
     ABACPolicy.department_ids := None;
     ABACPolicy.division_ids := None;
     ABACPolicy.role_requirements := Some ["admin"];
     ABACPolicy.is_active := true;
     ABACPolicy.created_by := 1 |}.

(** Two unconditional allows of different priority. *)
Definition allow_high : ABACPolicy.t :=
  policy 1 "read-high" PolicyEffect.allow 10 "read" "invoice" None.
Definition allow_low : ABACPolicy.t :=
  policy 2 "read-low" PolicyEffect.allow 5 "read" "invoice" None.

(** An allow scoped to department 3. *)
Definition allow_department_3 : ABACPolicy.t :=
  {| ABACPolicy.id := 1;
     ABACPolicy.name := "department-3-readers";
     ABACPolicy.description := None;
     ABACPolicy.effect := PolicyEffect.allow;
     ABACPolicy.priority := 10;
     ABACPolicy.action := "read";
     ABACPolicy.resource_type := "invoice";
     ABACPolicy.conditions := None;
     ABACPolicy.department_ids := Some [3];
     ABACPolicy.division_ids := None;
     ABACPolicy.role_requirements := None;
     ABACPolicy.is_active := true;
     ABACPolicy.created_by := 1 |}.

End Examples.

(* ================================================================== *)
(** * Vocabulary of the properties                                     *)
(* ================================================================== *)

(** A policy that carries a non-empty department or division scope. *)
Definition scoped (policy : ABACPolicy.t) : bool :=
  match ABACPolicy.department_ids policy, ABACPolicy.division_ids policy with
  | Some (_ :: _), _ | _, Some (_ :: _) => true
  | _, _ => false
  end.

(** The role requirements of a policy, if any, are met by the subject. *)
Definition roles_met (user : User.t) (policy : ABACPolicy.t) : bool :=
  match ABACPolicy.role_requirements policy with
  | Some ((_ :: _) as reqs) => any_role_in (user_roles user) reqs
  | _ => true
  end.

(** The request selects the policy: active, same action, same resource type. *)
Definition selected (action resource_type : string) (policy : ABACPolicy.t) : bool :=
  ABACPolicy.is_active policy
  && String.eqb (ABACPolicy.action policy) action
  && String.eqb (ABACPolicy.resource_type policy) resource_type.

Section Matching.
Context {rt : Builtins}.

(** The last policy of the list whose conditions match, if any. *)
Fixpoint last_matching (user_attrs resource_attrs env_attrs : pydict)
  (policies : list ABACPolicy.t) : option ABACPolicy.t :=
  match policies with
  | [] => None
  | p :: rest =>
      match last_matching user_attrs resource_attrs env_attrs rest with
      | Some q => Some q
      | None =>
          match ABACService._evaluate_policy p user_attrs resource_attrs env_attrs with
          | Ok true => Some p
          | _ => None
          end
      end
  end.

End Matching.

(** Priorities do not increase along the list. *)
Fixpoint descending (policies : list ABACPolicy.t) : Prop :=
  match policies with
  | [] => True
  | p :: rest =>
      (forall q, In q rest -> ABACPolicy.priority q <= ABACPolicy.priority p)
      /\ descending rest
  end.

(** The state a request finds: nothing pending in the session, the stage ids
    below their sequence, and every route leaving an existing stage (the
    foreign key of [from_stage_id]). *)
Definition consistent (db : Session.t) : Prop :=
  Session.new_routes db = []
  /\ (forall s, In s (Session.workflow_stages db) ->
                WorkflowStage.id s < Session.workflow_stages_seq db)
  /\ (forall r, In r (Session.conditional_routes db) ->
                exists s, In s (Session.workflow_stages db)
                          /\ WorkflowStage.id s = ConditionalRoute.from_stage_id r).

(** The route carries the data of that edge, a conditional one. *)
Definition route_of_edge (r : ConditionalRoute.t) (edge : pyval) : Prop :=
  exists data,
    py_get_or edge "data" (PDict []) = Ok (PDict data)
    /\ truthy (get data "condition") = true
    /\ ConditionalRoute.condition_label r = get data "label"
    /\ ConditionalRoute.condition_field r = get data "condition_field"
    /\ ConditionalRoute.operator r = get data "operator"
    /\ ConditionalRoute.condition_value r = get data "condition_value"
    /\ ConditionalRoute.priority r = get_or data "priority" (PInt 0).

Definition is_dict (v : pyval) : bool :=
  match v with PDict _ => true | _ => false end.

(** Some node of the list declares the type "start". *)
Definition has_start (nodes : list pyval) : bool :=
  existsb (fun n => match n with
                    | PDict d => py_eq (get d "type") (PStr "start")
                    | _ => false
                    end) nodes.

(** Rows that stand for the same stage: the edges of the graph only set
    [next_stage_id]. *)
Definition same_stage (s s' : WorkflowStage.t) : Prop :=
  WorkflowStage.id s = WorkflowStage.id s'
  /\ WorkflowStage.workflow_id s = WorkflowStage.workflow_id s'
  /\ WorkflowStage.node_id s = WorkflowStage.node_id s'.

(** A flushed route and the pending object it was flushed from. *)
Definition same_route (r p : ConditionalRoute.t) : Prop :=
  ConditionalRoute.from_stage_id r = ConditionalRoute.from_stage_id p
  /\ ConditionalRoute.to_stage_id r = ConditionalRoute.to_stage_id p
  /\ ConditionalRoute.condition_label r = ConditionalRoute.condition_label p
  /\ ConditionalRoute.condition_field r = ConditionalRoute.condition_field p
  /\ ConditionalRoute.operator r = ConditionalRoute.operator p
  /\ ConditionalRoute.condition_value r = ConditionalRoute.condition_value p
  /\ ConditionalRoute.priority r = ConditionalRoute.priority p.

(** The definition and version tables are the same. *)
Definition same_definitions (db db' : Session.t) : Prop :=
  Session.workflow_definitions db' = Session.workflow_definitions db
  /\ Session.workflow_versions db' = Session.workflow_versions db.

(** The ids of the stages of a workflow. *)
Definition stage_ids (db : Session.t) (workflow_id : Z) : list Z :=
  map WorkflowStage.id (VisualWorkflowService.stages_of db workflow_id).

(** The two branches of [save_workflow_graph] before the compilation. *)
Definition prepared (db : Session.t) (workflow_id : option Z) (graph_data : pydict)
  (user : User.t) (description : option string) (now : datetime)
  (workflow : WorkflowDefinition.t) (db1 : Session.t) : Prop :=
  match VisualWorkflowService.given workflow_id with
  | Some wid =>
      exists old,
        VisualWorkflowService.definition_by_id db wid = Some old
        /\ VisualWorkflowService._can_edit user old = true
        /\ workflow = VisualWorkflowService.with_new_graph old graph_data now
        /\ db1 = VisualWorkflowService.update_definition (VisualWorkflowService.add_version db old description user) workflow
  | None => VisualWorkflowService.add_definition db graph_data user = Ok (workflow, db1)
  end.


(** Two nodes of the list share an id. *)
Definition shared_node_id (nodes : list pyval) : Prop :=
  ~ NoDup (map (fun n => py_getitem n "id") nodes).

(** Some edge has a source or a target that is the id of no node. *)
Definition dangling_edge (nodes edges : list pyval) : Prop :=
  exists edge endpoint,
    In edge edges
    /\ (py_getitem edge "source" = Ok endpoint
        \/ py_getitem edge "target" = Ok endpoint)
    /\ ~ In (Ok endpoint) (map (fun n => py_getitem n "id") nodes).

(** The computation raises no [HTTPException]: what it raises is not an
    error response of the service. *)
Definition no_http {A} (c : pyres A) : Prop :=
  forall e, c = Raise e -> is_http e = false.

(** The values of the enum [ApprovalType]. *)
Definition approval_types : list string :=
  ["sequential"; "parallel_all"; "parallel_any"; "parallel_majority"].

Module WorkflowExamples.

Import Examples.

Definition node (id type : string) (data : pydict) : pyval :=
  PDict [("id", PStr id); ("type", PStr type);
         ("position", PDict [("x", PInt 0); ("y", PInt 0)]);
         ("data", PDict data)].

Definition edge (id source target : string) (data : pydict) : pyval :=
  PDict [("id", PStr id); ("source", PStr source); ("target", PStr target);
         ("data", PDict data)].

Definition over_1000 : pydict :=
  [("condition", PBool true); ("label", PStr "large amount");
   ("condition_field", PStr "amount"); ("operator", PStr ">");
   ("condition_value", PStr "1000")].

(** start -> approval (hr) -> end, with a conditional route to the end. *)
Definition nodes_v1 : list pyval :=
  [node "n1" "start" [("label", PStr "Start")];
   node "n2" "approval" [("label", PStr "HR approval"); ("required_role", PStr "hr")];
   node "n3" "end" [("label", PStr "End")]].

Definition graph_v1 : pydict :=
  [("name", PStr "Leave request");
   ("model_name", PStr "LeaveRequest");
   ("nodes", PList nodes_v1);
   ("edges", PList [edge "e1" "n1" "n2" [];
                    edge "e2" "n2" "n3" over_1000;
                    edge "e3" "n2" "n3" []])].

Definition graph_v2 : pydict :=
  [("name", PStr "Leave request");
   ("model_name", PStr "LeaveRequest");
   ("nodes", PList [node "a" "start" [("label", PStr "Start")];
                    node "b" "end" [("label", PStr "End")]]);
   ("edges", PList [edge "e1" "a" "b" over_1000])].

Definition author : User.t := subject 5 "user".

(** The database after the author has created the workflow from [graph_v1]. *)
Definition saved_once : Session.t :=
  Eval vm_compute in
    match VisualWorkflowService.save_workflow_graph
            empty_session None graph_v1 author None 100 with
    | Ok (_, db) => db
    | Raise _ => empty_session
    end.

(** Two nodes share the id "a", and the edge points to a node that does not
    exist. *)
Definition graph_duplicate_ids : pydict :=
  [("nodes", PList [node "a" "start" []; node "a" "approval" []]);
   ("edges", PList [edge "e1" "a" "zz" []])].

(** A validated graph whose only node has an unknown approval type. *)
Definition graph_unknown_approval_type : pydict :=
  [("nodes", PList [node "n1" "start" [("approval_type", PStr "unanimous")]]);
   ("edges", PList [])].

(** A workflow of subject 1 that lists the role "editor" for editing, with
    its start stage, and subject 2, who holds that role. *)
Definition editable_workflow : WorkflowDefinition.t :=
  {| WorkflowDefinition.id := 1;
     WorkflowDefinition.name := PStr "Expenses";
     WorkflowDefinition.description := PNone;
     WorkflowDefinition.model_name := PStr "Expense";
     WorkflowDefinition.workflow_graph :=
       PDict [("nodes", PList [node "n1" "start" []]); ("edges", PList [])];
     WorkflowDefinition.version := 1;
     WorkflowDefinition.status := WorkflowStatus.draft;
     WorkflowDefinition.is_template := false;
     WorkflowDefinition.created_by := 1;
     WorkflowDefinition.department_id := None;
     WorkflowDefinition.division_id := None;
     WorkflowDefinition.can_view_roles := None;
     WorkflowDefinition.can_edit_roles := Some ["editor"];
     WorkflowDefinition.can_use_roles := None;
     WorkflowDefinition.updated_at := None;
     WorkflowDefinition.published_at := None |}.

Definition with_editable_workflow : Session.t :=
  Eval vm_compute in
    match VisualWorkflowService._sync_stages_from_graph
            (Session.set_workflow_definitions empty_session [editable_workflow] 2)
            editable_workflow
            [("nodes", PList [node "n1" "start" []]); ("edges", PList [])] with
    | Ok db => db
    | Raise _ => empty_session
    end.

Definition editor : User.t := subject 2 "editor".

End WorkflowExamples.

(* ================================================================== *)
(** * The other functions of the services and their callers            *)
(* ================================================================== *)

(** ** app/core/permissions.py, the other checks *)

Module WorkflowPermissionsRest.

(** [if x and user.department_id == x] for a nullable integer column [x] *)
Definition same_unit (column : option Z) (mine : option Z) : bool :=
  match column with
  | Some d => negb (d =? 0) && match mine with Some m => m =? d | None => false end
  | None => false
  end.

Definition can_view_workflow (user : User.t) (workflow : WorkflowDefinition.t)
  : bool :=
  if String.eqb (User.role user) "admin" then true
  else if WorkflowDefinition.created_by workflow =? User.id user then true
  else if same_unit (WorkflowDefinition.department_id workflow)
                    (User.department_id user) then true
  else if same_unit (WorkflowDefinition.division_id workflow)
                    (User.division_id user) then true
  else
    match WorkflowDefinition.can_view_roles workflow with
    | Some ((_ :: _) as allowed) => any_role_in (user_roles user) allowed
    | _ => false
    end.

Definition can_edit_workflow (user : User.t) (workflow : WorkflowDefinition.t)
  : bool :=
  if String.eqb (User.role user) "admin" then true
  else if (WorkflowDefinition.created_by workflow =? User.id user)
          && WorkflowStatus.eqb (WorkflowDefinition.status workflow)
                                WorkflowStatus.draft
  then true
  else
    match WorkflowDefinition.can_edit_roles workflow with
    | Some ((_ :: _) as allowed) => any_role_in (user_roles user) allowed
    | _ => false
    end.

End WorkflowPermissionsRest.

(** ** app/services/visual_workflow_service.py, the other operations *)

Module VisualWorkflowServiceRest.

Import VisualWorkflowService.

Definition _can_view (user : User.t) (workflow : WorkflowDefinition.t) : bool :=
  if String.eqb (User.role user) "admin" then true
  else
    match WorkflowDefinition.can_view_roles workflow with
    | Some ((_ :: _) as allowed) => any_role_in (user_roles user) allowed
    | _ => true
    end.

(** [db.add(cloned); db.flush()]: the name is UNIQUE, [model_name] is NOT
    NULL, [version] takes its column default. *)
Definition add_clone (db : Session.t) (source : WorkflowDefinition.t)
  (new_name description : string) (user : User.t)
  : pyres (WorkflowDefinition.t * Session.t) :=
  let cloned :=
    {| WorkflowDefinition.id := Session.workflow_definitions_seq db;
       WorkflowDefinition.name := PStr new_name;
       WorkflowDefinition.description := PStr description;
       WorkflowDefinition.model_name := WorkflowDefinition.model_name source;
       WorkflowDefinition.workflow_graph := WorkflowDefinition.workflow_graph source;
       WorkflowDefinition.version := 1;
       WorkflowDefinition.status := WorkflowStatus.draft;
       WorkflowDefinition.is_template := false;
       WorkflowDefinition.created_by := User.id user;
       WorkflowDefinition.department_id := None;
       WorkflowDefinition.division_id := None;
       WorkflowDefinition.can_view_roles := None;
       WorkflowDefinition.can_edit_roles := None;
       WorkflowDefinition.can_use_roles := None;
       WorkflowDefinition.updated_at := None;
       WorkflowDefinition.published_at := None |} in
  match WorkflowDefinition.model_name cloned with
  | PNone => Raise IntegrityError
  | _ =>
      if existsb (fun w => py_eq (WorkflowDefinition.name w) (PStr new_name))
                 (Session.workflow_definitions db)
      then Raise IntegrityError
      else
        Ok (cloned,
            Session.set_workflow_definitions db
              (Session.workflow_definitions db ++ [cloned])
              (Session.workflow_definitions_seq db + 1))
  end.

Section Clone.
Context {rt : Builtins}.

(** [clone_workflow]: the graph is not validated again; the stage compiler
    calls [get] on it, which only a dict has. *)
Definition clone_workflow (db : Session.t) (workflow_id : Z) (new_name : string)
  (user : User.t) : pyres (WorkflowDefinition.t * Session.t) :=
  match definition_by_id db workflow_id with
  | None => Raise (HTTPException 404 "Source workflow not found")
  | Some source =>
      if negb (_can_view user source) then
        Raise (HTTPException 403 "No permission to view workflow")
      else
        name <- py_str (WorkflowDefinition.name source) ;;
        '(cloned, db) <-
          add_clone db source new_name ("Cloned from: " ++ name)%string user ;;
        db <-
          match WorkflowDefinition.workflow_graph source with
          | PDict graph_data => _sync_stages_from_graph db cloned graph_data
          | _ => Raise AttributeError
          end ;;
        db <- commit db ;;
        Ok (cloned, db)
  end.

End Clone.

End VisualWorkflowServiceRest.

(** ** app/api/v1/endpoints/workflows.py *)

Module WorkflowEndpoints.

Import VisualWorkflowService VisualWorkflowServiceRest.

Definition get_workflow (db : Session.t) (workflow_id : Z) (current_user : User.t)
  : pyres WorkflowDefinition.t :=
  match definition_by_id db workflow_id with
  | None => Raise (HTTPException 404 "Workflow not found")
  | Some workflow =>
      if negb (_can_view current_user workflow) then
        Raise (HTTPException 403 "No permission to view")
      else Ok workflow
  end.

Definition get_workflow_versions (db : Session.t) (workflow_id : Z)
  (current_user : User.t) : pyres (list WorkflowVersion.t) :=
  match definition_by_id db workflow_id with
  | None => Raise (HTTPException 404 "Workflow not found")
  | Some workflow =>
      if negb (_can_view current_user workflow) then
        Raise (HTTPException 403 "No permission")
      else
        Ok (filter (fun v => WorkflowVersion.workflow_id v
                             =? WorkflowDefinition.id workflow)
                   (Session.workflow_versions db))
  end.

End WorkflowEndpoints.

(** ** app/core/deps.py *)

(** What the dependency reads from the request: the client's host, the
    User-Agent header and the path. *)
Module Request.
Record t : Type := {
  client_host : option string;
  user_agent : option string;
  url_path : string
}.
End Request.

Module Deps.

Section Dependencies.
Context {rt : Builtins}.

(** [ABACChecker.check] *)
Definition check (db : Session.t) (user : User.t) (action resource_type : string)
  (resource_id : option Z) (resource_obj : option pydict)
  (now : Clock.t) (evaluation_time_ms : Z)
  : pyres ((bool * string) * Session.t) :=
  '(allowed, reason, policy, db) <-
    ABACService.check_access db user action resource_type resource_id resource_obj
      None now evaluation_time_ms ;;
  Ok ((allowed, reason), db).

(** [ABACChecker.require].  [check_access] has committed its log row when
    the refusal is raised, so the session after the call is returned beside
    the outcome; it is the given one when [check_access] itself raises. *)
Definition require (db : Session.t) (user : User.t) (action resource_type : string)
  (resource_id : option Z) (resource_obj : option pydict)
  (now : Clock.t) (evaluation_time_ms : Z) : Session.t * pyres unit :=
  match check db user action resource_type resource_id resource_obj
              now evaluation_time_ms with
  | Raise e => (db, Raise e)
  | Ok ((allowed, reason), db') =>
      if negb allowed
      then (db', Raise (HTTPException 403 ("Access denied: " ++ reason)%string))
      else (db', Ok tt)
  end.

(** The truth value of an optional list and of an optional string. *)
Definition given_list {A} (o : option (list A)) : bool :=
  match o with
  | Some (_ :: _) => true
  | _ => false
  end.

Definition given_str (o : option string) : bool :=
  match o with
  | Some s => negb (String.eqb s "")
  | None => false
  end.

(** The [context] dict that the dependency builds. *)
Definition request_context (request : Request.t) : pydict :=
  [ ("ip_address", of_str (Request.client_host request));
    ("user_agent", of_str (Request.user_agent request));
    ("endpoint", PStr (Request.url_path request)) ].

(** The [dependency] that [require_hybrid_auth(roles, permissions,
    abac_action, abac_resource_type, require_all=...)] returns, for a call
    that names no [abac_resource_id_param] (no call of the repository names
    one): [resource_id] stays [None].  As for [require], the session after
    the call is returned beside the outcome. *)
Definition require_hybrid_auth
  (roles permissions : option (list string))
  (abac_action abac_resource_type : option string) (require_all : bool)
  (request : Request.t) (db : Session.t) (current_user : User.t)
  (now : Clock.t) (evaluation_time_ms : Z) : Session.t * pyres bool :=
  let rbac_passed :=
    if given_list roles || given_list permissions then
      match roles with
      | Some ((_ :: _) as required) =>
          existsb (fun role => existsb (String.eqb role) (user_roles current_user))
                  required
      | _ => false
      end
    else false in
  let abac :=
    match abac_action, abac_resource_type with
    | Some action, Some resource_type =>
        if given_str abac_action && given_str abac_resource_type then
          match ABACService.check_access db current_user action resource_type
                  None None (Some (request_context request))
                  now evaluation_time_ms with
          | Ok ((allowed, _, _), db') => (db', Ok allowed)
          | Raise e => (db, Raise e)
          end
        else (db, Ok false)
    | _, _ => (db, Ok false)
    end in
  match snd abac with
  | Raise e => (fst abac, Raise e)
  | Ok abac_passed =>
      let rbac_given := given_list roles || given_list permissions in
      let abac_given := given_str abac_action && given_str abac_resource_type in
      let authorized :=
        if require_all then
          if rbac_given && abac_given then rbac_passed && abac_passed
          else if rbac_given then rbac_passed
          else if abac_given then abac_passed
          else false
        else rbac_passed || abac_passed in
      if negb authorized
      then (fst abac,
            Raise (HTTPException 403 "Access denied: Insufficient permissions"))
      else (fst abac, Ok true)
  end.

End Dependencies.

End Deps.

(* ================================================================== *)
(** * Vocabulary of the further properties                             *)
(* ================================================================== *)

(** Every table but the access log is the same. *)
Definition same_but_access_logs (db db' : Session.t) : Prop :=
  Session.abac_policies db' = Session.abac_policies db
  /\ Session.user_attributes db' = Session.user_attributes db
  /\ Session.resource_attributes db' = Session.resource_attributes db
  /\ Session.workflow_definitions db' = Session.workflow_definitions db
  /\ Session.workflow_definitions_seq db' = Session.workflow_definitions_seq db
  /\ Session.workflow_versions db' = Session.workflow_versions db
  /\ Session.workflow_versions_seq db' = Session.workflow_versions_seq db
  /\ Session.workflow_stages db' = Session.workflow_stages db
  /\ Session.workflow_stages_seq db' = Session.workflow_stages_seq db
  /\ Session.conditional_routes db' = Session.conditional_routes db
  /\ Session.conditional_routes_seq db' = Session.conditional_routes_seq db
  /\ Session.new_routes db' = Session.new_routes db.

(** The text that [check_access] reports for a matched policy. *)
Definition matched_reason (policy : ABACPolicy.t) : string :=
  "Policy '" ++ ABACPolicy.name policy ++ "' matched".

(** A path inside a reference: no closing brace and no newline. *)
Fixpoint plain (s : string) : bool :=
  match s with
  | EmptyString => true
  | String c r =>
      negb (Ascii.eqb c "}"%char) && negb (Ascii.eqb c "010"%char) && plain r
  end.

(** [start, start + 1, ...]: [n] numbers. *)
Fixpoint Zseq (start : Z) (n : nat) : list Z :=
  match n with
  | O => []
  | S n' => start :: Zseq (start + 1) n'
  end.

(** Rows that differ at most in [next_stage_id]. *)
Definition only_next_differs (s s' : WorkflowStage.t) : Prop :=
  s' = WorkflowStage.set_next_stage_id s (WorkflowStage.next_stage_id s').

(** The rows are what [stage_of_node] builds from the nodes, one row per
    node and in their order, with the ids [id], [id + 1], ... and the
    positions [idx], [idx + 1], ...; [next_stage_id] is left to the edges. *)
Fixpoint compiled (workflow_id id idx : Z) (nodes : list pyval)
  (rows : list WorkflowStage.t) : Prop :=
  match nodes, rows with
  | [], [] => True
  | node :: nodes', row :: rows' =>
      (exists stage,
          VisualWorkflowService.stage_of_node workflow_id idx node = Ok stage
          /\ only_next_differs (stage id) row)
      /\ compiled workflow_id (id + 1) (idx + 1) nodes' rows'
  | _, _ => False
  end.

(** A conditional edge between two nodes for which the route lacks one of
    the columns that are NOT NULL. *)
Definition incomplete_conditional_edge (nodes : list pyval) (edge : pyval)
  : Prop :=
  exists source target data,
    py_getitem edge "source" = Ok (PStr source)
    /\ py_getitem edge "target" = Ok (PStr target)
    /\ (exists node, In node nodes /\ py_getitem node "id" = Ok (PStr source))
    /\ (exists node, In node nodes /\ py_getitem node "id" = Ok (PStr target))
    /\ py_get_or edge "data" (PDict []) = Ok (PDict data)
    /\ truthy (get data "condition") = true
    /\ (get data "condition_field" = PNone
        \/ get data "operator" = PNone
        \/ get data "condition_value" = PNone).

(** An edge between two nodes whose [data] is not a dict: [null], as the
    schema [ReactFlowEdge] gives it for an edge sent without data. *)
Definition edge_without_data (nodes : list pyval) (edge : pyval) : Prop :=
  exists source target data,
    py_getitem edge "source" = Ok (PStr source)
    /\ py_getitem edge "target" = Ok (PStr target)
    /\ (exists node, In node nodes /\ py_getitem node "id" = Ok (PStr source))
    /\ (exists node, In node nodes /\ py_getitem node "id" = Ok (PStr target))
    /\ py_get_or edge "data" (PDict []) = Ok data
    /\ is_dict data = false.


(** ** Further concrete data *)

Module MoreExamples.

Import Examples.

Definition session_with (policies : list ABACPolicy.t)
  (profiles : list UserAttribute.t) (attributes : list ResourceAttribute.t)
  : Session.t :=
  {| Session.abac_policies := policies;
     Session.user_attributes := profiles;
     Session.resource_attributes := attributes;
     Session.abac_access_logs := [];
     Session.abac_access_logs_seq := 1;
     Session.workflow_definitions := [];
     Session.workflow_definitions_seq := 1;
     Session.workflow_versions := [];
     Session.workflow_versions_seq := 1;
     Session.workflow_stages := [];
     Session.workflow_stages_seq := 1;
     Session.conditional_routes := [];
     Session.conditional_routes_seq := 1;
     Session.new_routes := [] |}.

(** A profile that only carries custom attributes. *)
Definition profile (user_id : Z) (custom : pydict) : UserAttribute.t :=
  {| UserAttribute.id := 1;
     UserAttribute.user_id := user_id;
     UserAttribute.department_id := None;
     UserAttribute.division_id := None;
     UserAttribute.team_id := None;
     UserAttribute.job_title := None;
     UserAttribute.job_level := None;
     UserAttribute.cost_center := None;
     UserAttribute.approval_limit_amount := None;
     UserAttribute.can_approve_own_department := None;
     UserAttribute.can_approve_all_departments := None;
     UserAttribute.custom_attributes := Some custom;
     UserAttribute.office_location := None;
     UserAttribute.country_code := None;
     UserAttribute.timezone := None |}.

(** A dynamic attribute of invoice 7 declared a number, its value NULL. *)
Definition risk_score_null : ResourceAttribute.t :=
  {| ResourceAttribute.id := 1;
     ResourceAttribute.resource_type := "Invoice";
     ResourceAttribute.resource_id := 7;
     ResourceAttribute.attribute_name := "risk_score";
     ResourceAttribute.attribute_value := None;
     ResourceAttribute.attribute_type := "number" |}.

(** A request for the list of policies. *)
Definition list_policies_request : Request.t :=
  {| Request.client_host := Some "10.0.0.7";
     Request.user_agent := Some "curl/8.5.0";
     Request.url_path := "/api/v1/abac/policies" |}.

(** A workflow of subject 1 that only auditors may view. *)
Definition restricted_workflow : WorkflowDefinition.t :=
  {| WorkflowDefinition.id := 1;
     WorkflowDefinition.name := PStr "Audit trail review";
     WorkflowDefinition.description := PNone;
     WorkflowDefinition.model_name := PStr "AuditReview";
     WorkflowDefinition.workflow_graph :=
       PDict [("nodes", PList [WorkflowExamples.node "n1" "start" []]);
              ("edges", PList [])];
     WorkflowDefinition.version := 1;
     WorkflowDefinition.status := WorkflowStatus.active;
     WorkflowDefinition.is_template := false;
     WorkflowDefinition.created_by := 1;
     WorkflowDefinition.department_id := None;
     WorkflowDefinition.division_id := None;
     WorkflowDefinition.can_view_roles := Some ["auditor"];
     WorkflowDefinition.can_edit_roles := None;
     WorkflowDefinition.can_use_roles := None;
     WorkflowDefinition.updated_at := None;
     WorkflowDefinition.published_at := Some 50 |}.

Definition with_restricted_workflow : Session.t :=
  Session.set_workflow_definitions empty_session [restricted_workflow] 2.

End MoreExamples.

(** ** app/services/workflow_templates.py *)

Module WorkflowTemplates.

(** The nodes of a template: id, type, position and data. *)
Definition template_node (id type : string) (x y : Z) (data : pydict) : pyval :=
  PDict [("id", PStr id); ("type", PStr type);
         ("position", PDict [("x", PInt x); ("y", PInt y)]);
         ("data", PDict data)].

Definition approver (label role : string) (sla_hours : Z) : pydict :=
  [("label", PStr label); ("required_role", PStr role);
   ("approval_type", PStr "sequential"); ("sla_hours", PInt sla_hours)].

Definition plain_edge (id source target : string) : pyval :=
  PDict [("id", PStr id); ("source", PStr source); ("target", PStr target)].

(** [purchase_order()].  A string holds the bytes of its UTF-8 encoding. *)
Definition purchase_order : pydict :=
  [ ("name", PStr "Purchase Order Approval");
    ("description", PStr "Amount-based approval routing");
    ("model_name", PStr "PurchaseOrder");
    ("nodes",
      PList
        [ template_node "start-1" "start" 300 50 [("label", PStr "Start")];
          template_node "approval-1" "approval" 300 150
            (approver "Department Manager" "department_manager" 24);
          template_node "condition-1" "condition" 300 300
            [("label", PStr "Check Amount");
             ("condition_field", PStr "total_amount");
             ("condition_operator", PStr ">");
             ("condition_value", PStr "10000")];
          template_node "approval-2" "approval" 150 450
            (approver "CFO Approval" "cfo" 72);
          template_node "approval-3" "approval" 450 450
            (approver "Finance Manager" "finance_manager" 48);
          template_node "end-1" "end" 300 600 [("label", PStr "Approved")] ]);
    ("edges",
      PList
        [ plain_edge "e1" "start-1" "approval-1";
          plain_edge "e2" "approval-1" "condition-1";
          PDict [("id", PStr "e3"); ("source", PStr "condition-1");
                 ("target", PStr "approval-2");
                 ("data", PDict [("label", PStr "> $10,000");
                                 ("condition", PBool true)])];
          PDict [("id", PStr "e4"); ("source", PStr "condition-1");
                 ("target", PStr "approval-3");
                 ("data", PDict [("label", PStr "≤ $10,000");
                                 ("condition", PBool true)])];
          plain_edge "e5" "approval-2" "end-1";
          plain_edge "e6" "approval-3" "end-1" ]) ].

End WorkflowTemplates.

(* ================================================================== *)
(** * Properties of the policy decision engine                         *)
(* ================================================================== *)

Ltac inv H := inversion H; subst; clear H.

(** Case analysis on the scrutinee of the first [match] or [if] of the goal
    or of a hypothesis. *)
Ltac break_goal :=
  match goal with
  | |- context [match ?x with _ => _ end] =>
      let E := fresh "E" in destruct x eqn:E
  end.

Ltac break_hyp H :=
  match type of H with
  | context [match ?x with _ => _ end] =>
      let E := fresh "E" in destruct x eqn:E
  end.

Section Sorting.

Import ABACService.

Lemma In_insert_by_priority p q l :
  In q (insert_by_priority p l) <-> q = p \/ In q l.
Proof.
  induction l as [|r l IH]; simpl.
  - intuition.
  - destruct (ABACPolicy.priority p <? ABACPolicy.priority r); simpl.
    + rewrite IH. intuition.
    + intuition.
Qed.

Lemma In_sorted_by_priority q l :
  In q (sorted_by_priority l) <-> In q l.
Proof.
  induction l as [|p l IH]; simpl.
  - reflexivity.
  - rewrite In_insert_by_priority, IH. intuition.
Qed.

End Sorting.

Section DecisionLoop.

Import ABACService.
Context {rt : Builtins}.
Variables user_attrs resource_attrs env_attrs : pydict.



End DecisionLoop.

Section DenyOverrides.

Import ABACService.
Context {rt : Builtins}.


End DenyOverrides.

Section DenyOverridesWitness.

Import ABACService Examples.


End DenyOverridesWitness.

Section AllowOnly.

Import ABACService.
Context {rt : Builtins}.

Lemma insert_by_priority_descending p l :
  descending l -> descending (insert_by_priority p l).
Proof.
  induction l as [|q l IH]; simpl.
  - intros _. split; [intros q []|exact I].
  - intros [Hq Hl].
    destruct (ABACPolicy.priority p <? ABACPolicy.priority q) eqn:E; simpl.
    + apply Z.ltb_lt in E. split; [|auto].
      intros r Hr. apply In_insert_by_priority in Hr.
      destruct Hr as [->|Hr]; [lia|auto].
    + apply Z.ltb_ge in E. split; [|split; assumption].
      intros r [<-|Hr]; [lia|]. specialize (Hq r Hr). lia.
Qed.

Lemma sorted_by_priority_descending l : descending (sorted_by_priority l).
Proof.
  induction l as [|p l IH]; simpl; [exact I|].
  apply insert_by_priority_descending. exact IH.
Qed.

Variables user_attrs resource_attrs env_attrs : pydict.

Lemma last_matching_matches policies q :
  last_matching user_attrs resource_attrs env_attrs policies = Some q ->
  In q policies
  /\ _evaluate_policy q user_attrs resource_attrs env_attrs = Ok true.
Proof.
  induction policies as [|p rest IH]; simpl; [discriminate|].
  destruct (last_matching user_attrs resource_attrs env_attrs rest) as [q'|].
  - intros H. inv H. destruct (IH eq_refl). auto.
  - destruct (_evaluate_policy p user_attrs resource_attrs env_attrs)
      as [[|]|] eqn:E; intros H; inv H. auto.
Qed.

Lemma last_matching_none policies p :
  last_matching user_attrs resource_attrs env_attrs policies = None ->
  In p policies ->
  _evaluate_policy p user_attrs resource_attrs env_attrs <> Ok true.
Proof.
  induction policies as [|p0 rest IH]; simpl; [tauto|].
  destruct (last_matching user_attrs resource_attrs env_attrs rest) as [q'|];
    [discriminate|].
  intros H [<-|Hin]; [|auto].
  destruct (_evaluate_policy p0 user_attrs resource_attrs env_attrs) as [[|]|];
    congruence.
Qed.

(** In a descending list the last match has the least priority of all
    matches. *)
Lemma last_matching_least policies q :
  descending policies ->
  last_matching user_attrs resource_attrs env_attrs policies = Some q ->
  forall p, In p policies ->
            _evaluate_policy p user_attrs resource_attrs env_attrs = Ok true ->
            ABACPolicy.priority q <= ABACPolicy.priority p.
Proof.
  induction policies as [|p0 rest IH]; simpl; [discriminate|].
  intros [Hhead Hrest] Hlast p Hin Hp.
  destruct (last_matching user_attrs resource_attrs env_attrs rest) as [q'|] eqn:E.
  - inv Hlast. destruct Hin as [<-|Hin].
    + apply Hhead. apply (@last_matching_matches rest q E).
    + apply IH; auto.
  - destruct Hin as [<-|Hin].
    + destruct (_evaluate_policy p0 user_attrs resource_attrs env_attrs)
        as [[|]|]; inv Hlast. lia.
    + exfalso. exact (@last_matching_none rest p E Hin Hp).
Qed.

(** When only ALLOW policies match and no evaluation raises, the loop ends
    on the last match. *)
Lemma evaluate_allow_only policies :
  forall v,
    (forall p, In p policies ->
               exists b, _evaluate_policy p user_attrs resource_attrs env_attrs = Ok b) ->
    (forall p, In p policies ->
               _evaluate_policy p user_attrs resource_attrs env_attrs = Ok true ->
               ABACPolicy.effect p = PolicyEffect.allow) ->
    exists v',
      evaluate user_attrs resource_attrs env_attrs policies v = Ok v'
      /\ match last_matching user_attrs resource_attrs env_attrs policies with
         | Some q => applied_policy v' = Some q /\ decision v' = "allow"
         | None => applied_policy v' = applied_policy v /\ decision v' = decision v
         end.
Proof.
  induction policies as [|p0 rest IH]; intros v Hall Hallow; simpl.
  - eauto.
  - assert (Hall' : forall p, In p rest ->
               exists b, _evaluate_policy p user_attrs resource_attrs env_attrs = Ok b)
      by (intros; apply Hall; right; assumption).
    assert (Hallow' : forall p, In p rest ->
               _evaluate_policy p user_attrs resource_attrs env_attrs = Ok true ->
               ABACPolicy.effect p = PolicyEffect.allow)
      by (intros; apply Hallow; [right|]; assumption).
    destruct (Hall p0 (or_introl eq_refl)) as [b Hb]. rewrite Hb. simpl.
    destruct b.
    + rewrite (Hallow p0 (or_introl eq_refl) Hb).
      match goal with
      | |- exists v', evaluate _ _ _ rest ?v1 = _ /\ _ =>
          destruct (IH v1 Hall' Hallow') as [v' [Hv' Hlast]]
      end.
      exists v'. split; [exact Hv'|].
      destruct (last_matching user_attrs resource_attrs env_attrs rest);
        [exact Hlast|].
      simpl in Hlast. exact Hlast.
    + match goal with
      | |- exists v', evaluate _ _ _ rest ?v1 = _ /\ _ =>
          destruct (IH v1 Hall' Hallow') as [v' [Hv' Hlast]]
      end.
      exists v'. split; [exact Hv'|].
      destruct (last_matching user_attrs resource_attrs env_attrs rest);
        [exact Hlast|].
      simpl in Hlast. exact Hlast.
Qed.

End AllowOnly.

Section AllowOnlyDecision.

Import ABACService.
Context {rt : Builtins}.

(** What [check_access] does where C3 applies: when the candidates that
    match are all ALLOW (and there is one, and no evaluation raises), it
    allows and reports a matching candidate of least priority. *)
Theorem allow_only_reports_least_priority
  (db : Session.t) (user : User.t) (action resource_type : string)
  (resource_id : option Z) (resource_obj context : option pydict)
  (now : Clock.t) (evaluation_time_ms : Z)
  (resource_attrs : pydict) (m : ABACPolicy.t) :
  let user_attrs := _get_user_attributes db user in
  let env_attrs := _get_environment_attributes now context in
  let candidates := _get_applicable_policies db action resource_type user in
  _get_resource_attributes db resource_type resource_id resource_obj
    = Ok resource_attrs ->
  (forall c, In c candidates ->
     exists b, _evaluate_policy c user_attrs resource_attrs env_attrs = Ok b) ->
  (forall c, In c candidates ->
     _evaluate_policy c user_attrs resource_attrs env_attrs = Ok true ->
     ABACPolicy.effect c = PolicyEffect.allow) ->
  In m candidates ->
  _evaluate_policy m user_attrs resource_attrs env_attrs = Ok true ->
  exists reason q db',
    check_access db user action resource_type resource_id resource_obj context
      now evaluation_time_ms
    = Ok ((true, reason, Some q), db')
    /\ In q candidates
    /\ _evaluate_policy q user_attrs resource_attrs env_attrs = Ok true
    /\ forall c, In c candidates ->
         _evaluate_policy c user_attrs resource_attrs env_attrs = Ok true ->
         ABACPolicy.priority q <= ABACPolicy.priority c.
Proof.
  intros user_attrs env_attrs candidates Hres Hall Hallow Hm Hmatch.
  destruct (@evaluate_allow_only rt user_attrs resource_attrs env_attrs
              (sorted_by_priority candidates) initial_verdict)
    as [v [Hv Hlast]].
  { intros p Hp. apply Hall. apply In_sorted_by_priority. exact Hp. }
  { intros p Hp. apply Hallow. apply In_sorted_by_priority. exact Hp. }
  destruct (last_matching user_attrs resource_attrs env_attrs
              (sorted_by_priority candidates)) as [q|] eqn:Elast.
  - destruct Hlast as [Happlied Hdecision].
    destruct (@last_matching_matches rt user_attrs resource_attrs env_attrs _ _ Elast)
      as [Hq Hqm].
    exists (reason v), q. eexists.
    split.
    { unfold check_access. rewrite Hres. simpl.
      fold user_attrs env_attrs candidates. rewrite Hv. simpl.
      rewrite Hdecision, Happlied. reflexivity. }
    split; [apply In_sorted_by_priority; exact Hq|].
    split; [exact Hqm|].
    intros c Hc Hcm.
    eapply last_matching_least;
      [apply sorted_by_priority_descending|exact Elast| |exact Hcm].
    apply In_sorted_by_priority. exact Hc.
  - exfalso.
    eapply last_matching_none; [exact Elast| |exact Hmatch].
    apply In_sorted_by_priority. exact Hm.
Qed.

End AllowOnlyDecision.

Section Candidates.

Import ABACService.

(** The candidate filter, spelled out. *)
Lemma In_applicable_policies db action resource_type user policy :
  In policy (_get_applicable_policies db action resource_type user) <->
  In policy (Session.abac_policies db)
  /\ selected action resource_type policy = true
  /\ applicable db user policy = true.
Proof.
  unfold _get_applicable_policies, selected.
  rewrite !filter_In. tauto.
Qed.

(** A candidate carries the requested action and resource type themselves:
    the query compares both columns for equality and nothing else. *)
Lemma candidate_equals_request db action resource_type user policy :
  In policy (_get_applicable_policies db action resource_type user) ->
  ABACPolicy.action policy = action
  /\ ABACPolicy.resource_type policy = resource_type.
Proof.
  rewrite In_applicable_policies. unfold selected.
  intros [_ [Hsel _]].
  apply andb_prop in Hsel. destruct Hsel as [Hsel Hr].
  apply andb_prop in Hsel. destruct Hsel as [_ Ha].
  apply String.eqb_eq in Ha, Hr. auto.
Qed.

(** Without a profile the loop body reduces to the role check. *)
Lemma applicable_without_profile db user policy :
  user_attribute db user = None ->
  applicable db user policy = roles_met user policy.
Proof.
  intros Hnone. unfold applicable, roles_met. rewrite Hnone.
  destruct (ABACPolicy.role_requirements policy) as [[|r reqs]|];
    destruct (ABACPolicy.department_ids policy) as [[|d ds]|];
    destruct (ABACPolicy.division_ids policy) as [[|v vs]|];
    try reflexivity;
    destruct (any_role_in (user_roles user) (r :: reqs)); reflexivity.
Qed.

End Candidates.

Section Wildcard.

Import ABACService Examples.

(** C2 (wildcard match), at the seeded "Admin - Full Access" policy, whose
    action and resource type are both "*": an admin who asks to read an
    invoice does not get it as a candidate, and the decision is the default
    deny.  The specification wants the policy selected for every action and
    resource type. *)
Theorem C2_wildcard_policy_is_not_selected :
  let db := with_policies [admin_full_access] in
  let admin := subject 1 "admin" in
  _get_applicable_policies db "read" "invoice" admin = []
  /\ _get_applicable_policies db "*" "*" admin = [admin_full_access]
  /\ forall rt : Builtins,
       exists db',
         check_access (rt := rt) db admin "read" "invoice" None None None noon 0
         = Ok ((false, "No matching policy found", None), db').
Proof.
  intros db admin. split; [reflexivity|]. split; [reflexivity|].
  intros rt. eexists. reflexivity.
Qed.

End Wildcard.

Section Priority.

Import ABACService Examples.


End Priority.

Section Scope.

Import ABACService Examples.

(** C4 as stated fails: a subject without a profile keeps a policy scoped to
    department 3 among its candidates. *)
Lemma C4_counterexample :
  ~ (forall db action resource_type user policy,
        user_attribute db user = None ->
        scoped policy = true ->
        ~ In policy (_get_applicable_policies db action resource_type user)).
Proof.
  intros claim.
  apply (claim (with_policies [allow_department_3]) "read" "invoice"
               (subject 5 "user") allow_department_3).
  - reflexivity.
  - reflexivity.
  - simpl. auto.
Qed.

(** C4 (scoped policies and the profile), as the code has it.  For a
    subject without a profile the department and division scopes are not
    consulted: the candidates are exactly the active
    policies of the requested action and resource type whose role
    requirements are met, scoped or not.  The scopes filter only for a
    subject that has a profile, whose department (division) must then be in
    the policy's non-empty set. *)
Theorem C4_scopes_filter_only_with_a_profile
  (db : Session.t) (action resource_type : string) (user : User.t)
  (policy : ABACPolicy.t) :
  (user_attribute db user = None ->
   (In policy (_get_applicable_policies db action resource_type user) <->
    In policy (Session.abac_policies db)
    /\ selected action resource_type policy = true
    /\ roles_met user policy = true))
  /\
  (forall ua ids,
      user_attribute db user = Some ua ->
      In policy (_get_applicable_policies db action resource_type user) ->
      (ABACPolicy.department_ids policy = Some ids -> ids <> [] ->
       in_ids (UserAttribute.department_id ua) ids = true)
      /\
      (ABACPolicy.division_ids policy = Some ids -> ids <> [] ->
       in_ids (UserAttribute.division_id ua) ids = true)).
Proof.
  split.
  - intros Hnone. rewrite In_applicable_policies.
    rewrite (applicable_without_profile _ _ policy Hnone). tauto.
  - intros ua ids Hua Hin.
    apply In_applicable_policies in Hin. destruct Hin as [_ [_ Happ]].
    unfold applicable in Happ. rewrite Hua in Happ.
    split; intros Hids Hne; rewrite Hids in Happ;
      destruct ids as [|i ids]; try congruence.
    + repeat break_hyp Happ; try discriminate;
        apply negb_false_iff in E0; assumption.
    + repeat break_hyp Happ; try discriminate;
        match goal with
        | H : negb (in_ids (UserAttribute.division_id ua) _) = false |- _ =>
            apply negb_false_iff in H; assumption
        end.
Qed.

(** The subject without a profile and the policy scoped to department 3. *)
Lemma C4_scopes_filter_only_with_a_profile_witness :
  let db := with_policies [allow_department_3] in
  let user := subject 5 "user" in
  user_attribute db user = None
  /\ scoped allow_department_3 = true
  /\ In allow_department_3 (_get_applicable_policies db "read" "invoice" user).
Proof.
  intros db user.
  split; [reflexivity|]. split; [reflexivity|].
  apply (proj1 (@C4_scopes_filter_only_with_a_profile
                  db "read" "invoice" user allow_department_3) eq_refl).
  split; [simpl; auto|]. split; reflexivity.
Defined.

End Scope.

Section ConditionEvaluator.

Import ABACService.
Context {rt : Builtins}.

(** What [_apply_operator] does guarantee: the three exception classes of
    its [except] clause never leave it, and an operator that is none of the
    fourteen gives false. *)
Lemma apply_operator_catches operator actual expected :
  _apply_operator operator actual expected <> Raise ValueError
  /\ _apply_operator operator actual expected <> Raise TypeError
  /\ _apply_operator operator actual expected <> Raise AttributeError.
Proof.
  unfold _apply_operator, except_VTA.
  repeat split; intros H; repeat break_hyp H; discriminate.
Qed.

Lemma apply_operator_unknown operator actual expected :
  (forall name,
      In name ["eq"; "ne"; "gt"; "gte"; "lt"; "lte"; "in"; "not_in"; "contains";
               "starts_with"; "ends_with"; "between"; "is_null"; "is_not_null"] ->
      operator <> PStr name) ->
  _apply_operator operator actual expected = Ok false.
Proof.
  intros Hnone.
  assert (Hop : forall name,
             In name ["eq"; "ne"; "gt"; "gte"; "lt"; "lte"; "in"; "not_in"; "contains";
                      "starts_with"; "ends_with"; "between"; "is_null"; "is_not_null"] ->
             is_op operator name = false).
  { intros name Hin. unfold is_op.
    destruct operator; try reflexivity. simpl.
    destruct (String.eqb s name) eqn:E; [|reflexivity].
    apply String.eqb_eq in E. subst. exfalso. exact (Hnone name Hin eq_refl). }
  unfold _apply_operator.
  rewrite !Hop by (simpl; tauto). reflexivity.
Qed.

(** An int beyond the binary64 range makes the coercion raise
    OverflowError, which the [except] clause does not list. *)
Lemma apply_operator_overflow :
  _apply_operator (PStr "gt") (PInt (2 ^ 1024)) (PInt 0) = Raise OverflowError.
Proof. reflexivity. Qed.

(** C5 (the evaluator never raises), at the condition documents whose
    "attribute" is missing, null or not a string: [condition.get("attribute")]
    is passed to [_get_attribute_value], which calls [split] on it outside
    any [try], so [_evaluate_condition] raises AttributeError whatever the
    operator, the operand and the bags. *)
Theorem C5_condition_without_attribute_raises
  (condition : pydict) (user_attrs resource_attrs env_attrs : pydict) :
  (forall path, get condition "attribute" <> PStr path) ->
  _evaluate_condition (PDict condition) user_attrs resource_attrs env_attrs
  = Raise AttributeError.
Proof.
  intros Hpath. unfold _evaluate_condition, py_get, py_get_or.
  change (get_or condition "attribute" PNone) with (get condition "attribute").
  destruct (get condition "attribute") as [|b|z|f|path|l|d] eqn:E;
    try reflexivity.
  exfalso. exact (Hpath path eq_refl).
Qed.

End ConditionEvaluator.

Section ConditionEvaluatorWitness.

Import ABACService Examples.

(** The document [{"operator": "eq", "value": 1}]. *)
Lemma C5_condition_without_attribute_raises_witness :
  get [("operator", PStr "eq"); ("value", PInt 1)] "attribute" = PNone
  /\ _evaluate_condition (rt := no_builtins)
       (PDict [("operator", PStr "eq"); ("value", PInt 1)]) [] [] []
     = Raise AttributeError.
Proof.
  split; [reflexivity|].
  apply (@C5_condition_without_attribute_raises no_builtins
           [("operator", PStr "eq"); ("value", PInt 1)] [] [] []).
  intros path. discriminate.
Defined.

End ConditionEvaluatorWitness.

(* ================================================================== *)
(** * Properties of the workflow compiler                              *)
(* ================================================================== *)

Lemma bind_Ok {A B} (c : pyres A) (k : A -> pyres B) (b : B) :
  Py.bind c k = Ok b -> exists a, c = Ok a /\ k a = Ok b.
Proof. destruct c; simpl; intros H; [eauto|discriminate]. Qed.

Lemma bind_Raise {A B} (c : pyres A) (k : A -> pyres B) (e : pyexn) :
  Py.bind c k = Raise e -> c = Raise e \/ exists a, c = Ok a /\ k a = Raise e.
Proof. destruct c; simpl; intros H; [eauto|left; congruence]. Qed.

Ltac bind_inv H :=
  let a := fresh "a" in
  let E := fresh "E" in
  apply bind_Ok in H; destruct H as [a [E H]].

Section StageCompiler.

Import VisualWorkflowService.

Lemma stage_of_node_spec workflow_id idx node stage :
  stage_of_node workflow_id idx node = Ok stage ->
  forall id,
    WorkflowStage.id (stage id) = id
    /\ WorkflowStage.workflow_id (stage id) = workflow_id
    /\ py_getitem node "id" = Ok (WorkflowStage.node_id (stage id)).
Proof.
  unfold stage_of_node. intros H.
  repeat bind_inv H. inv H. intros id. simpl. auto.
Qed.

Lemma add_stage_spec db stage row db' :
  add_stage db stage = Ok (row, db') ->
  row = stage (Session.workflow_stages_seq db)
  /\ Session.workflow_stages db' = Session.workflow_stages db ++ [row]
  /\ Session.workflow_stages_seq db' = Session.workflow_stages_seq db + 1
  /\ Session.conditional_routes db' = Session.conditional_routes db
  /\ Session.new_routes db' = Session.new_routes db
  /\ same_definitions db db'.
Proof.
  unfold add_stage, same_definitions. intros H.
  repeat break_hyp H; try discriminate; inv H; simpl; auto 10.
Qed.

Lemma node_map_set_values m k x v :
  In v (map snd (node_map_set m k x)) -> In v (map snd m) \/ v = x.
Proof.
  induction m as [|[k' v'] m IH]; simpl.
  - intuition.
  - destruct (py_eq k' k); simpl; intuition.
Qed.

Lemma node_map_find_values m k v :
  node_map_find m k = Some v -> In v (map snd m).
Proof.
  induction m as [|[k' v'] m IH]; simpl; [discriminate|].
  destruct (py_eq k' k); intros H; [inv H; auto|auto].
Qed.

(** The rows that the node loop appends: one per node, in order, with the
    node's id, the workflow's id and the next ids of the sequence; the map
    sends node ids to ids of these rows. *)
Lemma create_stages_spec workflow_id nodes :
  forall idx db m db' m',
    create_stages workflow_id nodes idx db m = Ok (db', m') ->
    exists rows,
      Session.workflow_stages db' = Session.workflow_stages db ++ rows
      /\ Forall2 (fun s n => py_getitem n "id" = Ok (WorkflowStage.node_id s)) rows nodes
      /\ Forall (fun s => WorkflowStage.workflow_id s = workflow_id
                          /\ Session.workflow_stages_seq db <= WorkflowStage.id s) rows
      /\ (forall v, In v (map snd m') ->
            In v (map snd m) \/ In v (map WorkflowStage.id rows))
      /\ Session.conditional_routes db' = Session.conditional_routes db
      /\ Session.new_routes db' = Session.new_routes db
      /\ same_definitions db db'.
Proof.
  induction nodes as [|node nodes IH]; intros idx db m db' m' H; simpl in H.
  - inv H. exists []. rewrite app_nil_r. unfold same_definitions.
    repeat split; auto.
  - bind_inv H. bind_inv H. destruct a0 as [row db1]. bind_inv H.
    destruct (stage_of_node_spec _ _ _ E (Session.workflow_stages_seq db))
      as [Hid [Hwid Hnode]].
    destruct (add_stage_spec _ _ E0) as [Hrow [Hst [Hseq [Hr [Hn Hd]]]]].
    destruct (IH _ _ _ _ _ H) as [rows [Hst' [Hf2 [Hf [Hm [Hr' [Hn' Hd']]]]]]].
    exists (row :: rows). subst row.
    split. { rewrite Hst', Hst, <- app_assoc. reflexivity. }
    split. { constructor; assumption. }
    split. { constructor.
             - rewrite Hid, Hwid. split; [reflexivity|lia].
             - eapply Forall_impl; [|exact Hf]. simpl. intros s [? ?].
               split; [assumption|lia]. }
    split. { intros v Hin. destruct (Hm v Hin) as [Hin'|Hin'].
             - unfold node_map_setitem in E1.
               destruct (hashable _); [|discriminate].
               injection E1 as E1. rewrite <- E1 in Hin'.
               apply node_map_set_values in Hin'. destruct Hin' as [Hin' | ->].
               + left. assumption.
               + right. simpl. left. reflexivity.
             - right. simpl. auto. }
    unfold same_definitions in *. intuition congruence.
Qed.


Lemma py_get_or_Ok o k default v :
  py_get_or o k default = Ok v -> exists d, o = PDict d /\ v = get_or d k default.
Proof. destruct o; simpl; intros H; inv H; eauto. Qed.

Lemma py_get_Ok o k v :
  py_get o k = Ok v -> exists d, o = PDict d /\ v = get d k.
Proof. apply py_get_or_Ok. Qed.

Lemma same_stage_refl l : Forall2 same_stage l l.
Proof. induction l; constructor; unfold same_stage; auto. Qed.

Lemma same_stage_trans l1 l2 l3 :
  Forall2 same_stage l1 l2 -> Forall2 same_stage l2 l3 -> Forall2 same_stage l1 l3.
Proof.
  intros H12. revert l3. induction H12; intros l3 H23; inv H23; constructor.
  - unfold same_stage in *. intuition congruence.
  - auto.
Qed.

Lemma set_next_stage_same db stage_id target :
  Forall2 same_stage (Session.workflow_stages db)
          (Session.workflow_stages (set_next_stage db stage_id target)).
Proof.
  unfold set_next_stage. simpl.
  induction (Session.workflow_stages db) as [|s l IH]; simpl; constructor; auto.
  destruct (WorkflowStage.id s =? stage_id); unfold same_stage; simpl; auto.
Qed.

(** The edge loop leaves the stages in place and only queues routes: each
    goes between two mapped stages and carries the data of a conditional
    edge. *)
Lemma connect_stages_spec edges m :
  forall db db',
    connect_stages edges m db = Ok db' ->
    Forall2 same_stage (Session.workflow_stages db) (Session.workflow_stages db')
    /\ Session.workflow_stages_seq db' = Session.workflow_stages_seq db
    /\ Session.conditional_routes db' = Session.conditional_routes db
    /\ Session.conditional_routes_seq db' = Session.conditional_routes_seq db
    /\ (exists added,
          Session.new_routes db' = Session.new_routes db ++ added
          /\ Forall (fun r => In (ConditionalRoute.from_stage_id r) (map snd m)
                              /\ In (ConditionalRoute.to_stage_id r) (map snd m)
                              /\ exists edge, In edge edges /\ route_of_edge r edge)
                    added)
    /\ same_definitions db db'.
Proof.
  induction edges as [|edge edges IH]; intros db db' H; simpl in H.
  - inv H. split; [apply same_stage_refl|]. repeat split; auto.
    exists []. rewrite app_nil_r. auto.
  - bind_inv H. bind_inv H. bind_inv H. bind_inv H. bind_inv H.
    rename a into source_id, a0 into target_id, a1 into edge_data,
           a2 into source_stage, a3 into target_stage.
    assert (Hweaken :
              forall added,
                Forall (fun r => In (ConditionalRoute.from_stage_id r) (map snd m)
                                 /\ In (ConditionalRoute.to_stage_id r) (map snd m)
                                 /\ exists e, In e edges /\ route_of_edge r e) added ->
                Forall (fun r => In (ConditionalRoute.from_stage_id r) (map snd m)
                                 /\ In (ConditionalRoute.to_stage_id r) (map snd m)
                                 /\ exists e, In e (edge :: edges) /\ route_of_edge r e)
                       added).
    { intros added. apply Forall_impl. intros r [? [? [e [? ?]]]].
      split; [assumption|]. split; [assumption|]. exists e. simpl. auto. }
    destruct source_stage as [source|]; [destruct target_stage as [target|]|].
    + bind_inv H. rename a into condition.
      destruct (truthy condition) eqn:Htruthy.
      * bind_inv H. bind_inv H. bind_inv H. bind_inv H. bind_inv H.
        destruct (IH _ _ H) as [Hs [Hseq [Hr [Hrseq [[added [Hnew Hadded]] Hd]]]]].
        unfold same_definitions in *. simpl in Hs, Hseq, Hr, Hrseq, Hnew, Hd.
        split; [exact Hs|]. repeat split; try tauto; try apply Hd.
        eexists (_ :: added). split.
        { rewrite Hnew. rewrite <- app_assoc. reflexivity. }
        constructor; [|apply Hweaken; exact Hadded]. simpl.
        unfold node_map_get in E2, E3.
        destruct (hashable source_id); [|discriminate].
        destruct (hashable target_id); [|discriminate].
        inv E2. inv E3.
        split; [eapply node_map_find_values; eassumption|].
        split; [eapply node_map_find_values; eassumption|].
        exists edge. split; [left; reflexivity|].
        apply py_get_Ok in E4. destruct E4 as [data [-> ->]].
        exists data. simpl in *.
        inv E5. inv E6. inv E7. inv E8. inv E9.
        repeat split; auto.
      * destruct (IH _ _ H) as [Hs [Hseq [Hr [Hrseq [[added [Hnew Hadded]] Hd]]]]].
        destruct (match option_map WorkflowStage.next_stage_id (stage_by_id db source) with
                  | Some (Some n) => n =? 0
                  | _ => true
                  end).
        -- unfold same_definitions in *. simpl in Hseq, Hr, Hrseq, Hnew, Hd.
           split; [eapply same_stage_trans; [apply set_next_stage_same|exact Hs]|].
           repeat split; try tauto; try apply Hd.
           exists added. split; [exact Hnew|apply Hweaken; exact Hadded].
        -- split; [exact Hs|]. repeat split; try tauto; try apply Hd.
           exists added. split; [exact Hnew|apply Hweaken; exact Hadded].
    + destruct (IH _ _ H) as [Hs [Hseq [Hr [Hrseq [[added [Hnew Hadded]] Hd]]]]].
      split; [exact Hs|]. repeat split; try tauto; try apply Hd.
      exists added. split; [exact Hnew|apply Hweaken; exact Hadded].
    + destruct (IH _ _ H) as [Hs [Hseq [Hr [Hrseq [[added [Hnew Hadded]] Hd]]]]].
      split; [exact Hs|]. repeat split; try tauto; try apply Hd.
      exists added. split; [exact Hnew|apply Hweaken; exact Hadded].
Qed.

End StageCompiler.

Section Flush.

Import VisualWorkflowService.

Lemma flush_routes_spec pending :
  forall rows seq rows' seq',
    flush_routes pending rows seq = Ok (rows', seq') ->
    exists new, rows' = rows ++ new /\ Forall2 same_route new pending.
Proof.
  induction pending as [|p pending IH]; intros rows seq rows' seq' H; simpl in H.
  - inv H. exists []. rewrite app_nil_r. auto.
  - repeat break_hyp H; try discriminate;
      (destruct (IH _ _ _ _ H) as [new [-> Hnew]];
       eexists (_ :: new); rewrite <- app_assoc; split; [reflexivity|];
       constructor; [unfold same_route; simpl; auto 10|exact Hnew]).
Qed.

Lemma commit_spec db db' :
  commit db = Ok db' ->
  Session.workflow_stages db' = Session.workflow_stages db
  /\ same_definitions db db'
  /\ exists new,
       Session.conditional_routes db' = Session.conditional_routes db ++ new
       /\ Forall2 same_route new (Session.new_routes db).
Proof.
  unfold commit. intros H. bind_inv H. destruct a as [rows seq]. inv H.
  apply flush_routes_spec in E. destruct E as [new [-> Hnew]].
  unfold same_definitions. simpl. eauto 10.
Qed.

End Flush.

Section Sync.

Import VisualWorkflowService.

Lemma stages_of_delete_stages db workflow_id :
  stages_of (delete_stages db workflow_id) workflow_id = [].
Proof.
  unfold stages_of, delete_stages. simpl.
  induction (Session.workflow_stages db) as [|s l IH]; simpl; [reflexivity|].
  destruct (WorkflowStage.workflow_id s =? workflow_id) eqn:E; simpl; [exact IH|].
  assert (Hwid : forall s',
             WorkflowStage.workflow_id
               (match WorkflowStage.next_stage_id s' with
                | Some n =>
                    if mem n (map WorkflowStage.id
                                (filter (fun s0 => WorkflowStage.workflow_id s0 =? workflow_id)
                                        (Session.workflow_stages db)))
                    then WorkflowStage.set_next_stage_id s' None else s'
                | None => s'
                end) = WorkflowStage.workflow_id s').
  { intros s'. destruct (WorkflowStage.next_stage_id s'); [|reflexivity].
    destruct (mem _ _); reflexivity. }
  unfold stages_of in *. rewrite Hwid, E. exact IH.
Qed.

Lemma delete_routes_nothing db workflow_id :
  stages_of db workflow_id = [] ->
  Session.conditional_routes (delete_routes db workflow_id)
  = Session.conditional_routes db.
Proof.
  intros Hnone. unfold delete_routes. rewrite Hnone. simpl.
  induction (Session.conditional_routes db) as [|r l IH]; simpl; congruence.
Qed.

Lemma filter_same_stage workflow_id l l' :
  Forall2 same_stage l l' ->
  Forall2 same_stage
    (filter (fun s => WorkflowStage.workflow_id s =? workflow_id) l)
    (filter (fun s => WorkflowStage.workflow_id s =? workflow_id) l').
Proof.
  induction 1 as [|s s' l l' Hs Hl IH]; simpl; [constructor|].
  destruct Hs as [Hid [Hwid Hnode]]. rewrite <- Hwid.
  destruct (WorkflowStage.workflow_id s =? workflow_id); [constructor|]; auto.
  unfold same_stage; auto.
Qed.

Lemma filter_app_own workflow_id (kept rows : list WorkflowStage.t) :
  filter (fun s => WorkflowStage.workflow_id s =? workflow_id) kept = [] ->
  Forall (fun s => WorkflowStage.workflow_id s = workflow_id) rows ->
  filter (fun s => WorkflowStage.workflow_id s =? workflow_id) (kept ++ rows) = rows.
Proof.
  intros Hkept Hrows. rewrite filter_app, Hkept. simpl.
  induction Hrows as [|s rows Hs Hrows IH]; simpl; [reflexivity|].
  rewrite Hs, Z.eqb_refl, IH. reflexivity.
Qed.

(** What [_sync_stages_from_graph] leaves behind for the workflow. *)
Lemma sync_spec db workflow graph_data db' :
  _sync_stages_from_graph db workflow graph_data = Ok db' ->
  let wid := WorkflowDefinition.id workflow in
  exists nodes edges added,
    py_iter (get_or graph_data "nodes" (PList [])) = Ok nodes
    /\ py_iter (get_or graph_data "edges" (PList [])) = Ok edges
    /\ Forall2 (fun s n => py_getitem n "id" = Ok (WorkflowStage.node_id s))
               (stages_of db' wid) nodes
    /\ Forall (fun s => Session.workflow_stages_seq db <= WorkflowStage.id s)
              (stages_of db' wid)
    /\ Session.conditional_routes db'
       = filter (fun r => negb (mem (ConditionalRoute.from_stage_id r) (stage_ids db wid))
                          && negb (mem (ConditionalRoute.to_stage_id r) (stage_ids db wid)))
                (Session.conditional_routes db)
    /\ Session.new_routes db' = Session.new_routes db ++ added
    /\ Forall (fun r => In (ConditionalRoute.from_stage_id r) (stage_ids db' wid)
                        /\ In (ConditionalRoute.to_stage_id r) (stage_ids db' wid)
                        /\ exists edge, In edge edges /\ route_of_edge r edge)
              added
    /\ same_definitions db db'.
Proof.
  intros H wid. unfold _sync_stages_from_graph in H. fold wid in H.
  bind_inv H. rename a into nodes. bind_inv H. destruct a as [db1 m].
  bind_inv H. rename a into edges.
  set (db0 := delete_routes (delete_stages db wid) wid) in *.
  assert (Hnone : stages_of (delete_stages db wid) wid = [])
    by apply stages_of_delete_stages.
  assert (Hkept : filter (fun s => WorkflowStage.workflow_id s =? wid)
                         (Session.workflow_stages db0) = []) by exact Hnone.
  destruct (create_stages_spec _ _ _ _ _ E0)
    as [rows [Hst [Hf2 [Hf [Hm [Hr [Hn Hd]]]]]]].
  destruct (connect_stages_spec _ _ _ H)
    as [Hs [Hseq [Hr' [Hrseq [[added [Hnew Hadded]] Hd']]]]].
  assert (Hown : Forall2 same_stage rows (stages_of db' wid)).
  { unfold stages_of.
    rewrite <- (@filter_app_own wid (Session.workflow_stages db0) rows Hkept)
      by (eapply Forall_impl; [|exact Hf]; simpl; tauto).
    rewrite <- Hst. apply filter_same_stage. exact Hs. }
  assert (Hids : map WorkflowStage.id rows = stage_ids db' wid).
  { unfold stage_ids. clear - Hown.
    induction Hown as [|s s' l l' [Hid _] _ IH]; simpl; congruence. }
  exists nodes, edges, added.
  split; [exact E|]. split; [exact E1|].
  split.
  { clear - Hown Hf2. revert nodes Hf2.
    induction Hown as [|s s' l l' [_ [_ Hnode]] _ IH]; intros nodes Hf2; inv Hf2;
      constructor; [congruence|auto]. }
  split.
  { clear - Hown Hf. induction Hown as [|s s' l l' [Hid _] _ IH]; inv Hf;
      constructor; [simpl in *; lia|auto]. }
  split.
  { rewrite Hr', Hr. unfold db0. rewrite (@delete_routes_nothing _ _ Hnone).
    reflexivity. }
  split.
  { rewrite Hnew, Hn. reflexivity. }
  split.
  { eapply Forall_impl; [|exact Hadded]. simpl.
    intros r [Hfrom [Hto Hedge]]. rewrite <- Hids.
    split; [|split; [|exact Hedge]].
    - destruct (Hm _ Hfrom) as [[]|]; assumption.
    - destruct (Hm _ Hto) as [[]|]; assumption. }
  unfold same_definitions in *. unfold db0 in *. simpl in *.
  intuition congruence.
Qed.

End Sync.

Section Save.

Import VisualWorkflowService.

Lemma mem_In i ids : mem i ids = true <-> In i ids.
Proof.
  unfold mem. rewrite existsb_exists. split.
  - intros [x [Hin Heq]]. apply Z.eqb_eq in Heq. subst. exact Hin.
  - intros Hin. exists i. split; [exact Hin|apply Z.eqb_refl].
Qed.


Lemma save_inv db workflow_id graph_data user description now workflow db' :
  save_workflow_graph db workflow_id graph_data user description now
  = Ok (workflow, db') ->
  exists db1 db2,
    _validate_graph graph_data = Ok tt
    /\ prepared db workflow_id graph_data user description now workflow db1
    /\ _sync_stages_from_graph db1 workflow graph_data = Ok db2
    /\ commit db2 = Ok db'.
Proof.
  unfold save_workflow_graph, prepared. intros H.
  bind_inv H. destruct a. bind_inv H. destruct a as [w db1].
  bind_inv H. rename a into db2. bind_inv H. inv H.
  exists db1, db2. split; [exact E|]. split; [|auto].
  destruct (given workflow_id) as [wid|]; [|exact E0].
  destruct (definition_by_id db wid) as [old|]; [|discriminate].
  destruct (_can_edit user old) eqn:Hedit; simpl in E0; [|discriminate].
  inv E0. eauto.
Qed.

Lemma prepared_tables db workflow_id graph_data user description now workflow db1 :
  prepared db workflow_id graph_data user description now workflow db1 ->
  Session.workflow_stages db1 = Session.workflow_stages db
  /\ Session.workflow_stages_seq db1 = Session.workflow_stages_seq db
  /\ Session.conditional_routes db1 = Session.conditional_routes db
  /\ Session.new_routes db1 = Session.new_routes db.
Proof.
  unfold prepared. destruct (given workflow_id) as [wid|].
  - intros [old [_ [_ [_ ->]]]]. simpl. auto.
  - unfold add_definition. intros H.
    repeat break_hyp H; try discriminate; inv H; simpl; auto.
Qed.

End Save.

Section Versions.

Import VisualWorkflowService.

Lemma definition_by_id_id db wid workflow :
  definition_by_id db wid = Some workflow -> WorkflowDefinition.id workflow = wid.
Proof.
  unfold definition_by_id, first. intros H.
  destruct (filter _ _) as [|w l] eqn:E; inv H.
  assert (Hin : In workflow (filter (fun w => WorkflowDefinition.id w =? wid)
                                    (Session.workflow_definitions db)))
    by (rewrite E; left; reflexivity).
  apply filter_In in Hin. destruct Hin as [_ Hid]. apply Z.eqb_eq in Hid. exact Hid.
Qed.

(** After the UPDATE the query by id finds the updated row. *)
Lemma definition_by_id_update (rows : list WorkflowDefinition.t) wid old updated :
  first (filter (fun w => WorkflowDefinition.id w =? wid) rows) = Some old ->
  WorkflowDefinition.id updated = wid ->
  first (filter (fun w => WorkflowDefinition.id w =? wid)
                (map (fun w => if WorkflowDefinition.id w =? WorkflowDefinition.id updated
                               then updated else w) rows))
  = Some updated.
Proof.
  intros Hold Hid. rewrite Hid.
  induction rows as [|w rows IH]; simpl in *; [discriminate|].
  destruct (WorkflowDefinition.id w =? wid) eqn:E; simpl.
  - rewrite Hid, Z.eqb_refl. reflexivity.
  - rewrite E. auto.
Qed.

(** C7 (version monotonicity with snapshot).  A successful
    [save_workflow_graph] on the existing definition [workflow] (its id is
    not 0, which [if workflow_id:] takes for an absent id) returns and
    stores the definition with the version incremented by one and the new
    graph, and the version table holds a row for this workflow with the
    version number and the graph from before the save, the given change
    description and the editing subject. *)
Theorem C7_version_monotone_with_snapshot
  (db : Session.t) (wid : Z) (graph_data : pydict) (user : User.t)
  (description : option string) (now : datetime)
  (workflow workflow' : WorkflowDefinition.t) (db' : Session.t) :
  wid <> 0 ->
  definition_by_id db wid = Some workflow ->
  save_workflow_graph db (Some wid) graph_data user description now
  = Ok (workflow', db') ->
  WorkflowDefinition.version workflow' = WorkflowDefinition.version workflow + 1
  /\ WorkflowDefinition.workflow_graph workflow' = PDict graph_data
  /\ definition_by_id db' wid = Some workflow'
  /\ exists snapshot,
       In snapshot (Session.workflow_versions db')
       /\ WorkflowVersion.workflow_id snapshot = wid
       /\ WorkflowVersion.version_number snapshot = WorkflowDefinition.version workflow
       /\ WorkflowVersion.workflow_graph snapshot
          = WorkflowDefinition.workflow_graph workflow
       /\ WorkflowVersion.change_description snapshot = description
       /\ WorkflowVersion.created_by snapshot = User.id user.
Proof.
  intros Hwid Hold Hsave.
  apply save_inv in Hsave. destruct Hsave as [db1 [db2 [_ [Hprep [Hsync Hcommit]]]]].
  unfold prepared, given in Hprep.
  apply Z.eqb_neq in Hwid. rewrite Hwid in Hprep.
  destruct Hprep as [old [Hold' [_ [Hw Hdb1]]]].
  rewrite Hold in Hold'. inv Hold'.
  apply sync_spec in Hsync.
  destruct Hsync as [nodes [edges [added [_ [_ [_ [_ [_ [_ [_ [Hdefs2 Hvers2]]]]]]]]]]].
  apply commit_spec in Hcommit. destruct Hcommit as [_ [[Hdefs' Hvers'] _]].
  split; [reflexivity|]. split; [reflexivity|].
  split.
  - unfold definition_by_id. rewrite Hdefs', Hdefs2.
    exact (@definition_by_id_update (Session.workflow_definitions db) wid old
             (with_new_graph old graph_data now) Hold
             (@definition_by_id_id db wid old Hold)).
  - eexists. split.
    + rewrite Hvers', Hvers2. simpl. apply in_or_app. right. left. reflexivity.
    + simpl. split; [eapply definition_by_id_id; exact Hold|]. auto.
Qed.

End Versions.

Section VersionsWitness.

Import VisualWorkflowService Examples WorkflowExamples.

(** The author saves [graph_v2] over the workflow created from [graph_v1]:
    version 1 becomes version 2 and the snapshot keeps [graph_v1]. *)
Lemma C7_version_monotone_with_snapshot_witness :
  exists workflow workflow' db',
    definition_by_id saved_once 1 = Some workflow
    /\ save_workflow_graph saved_once (Some 1) graph_v2 author (Some "shorter") 200
       = Ok (workflow', db')
    /\ WorkflowDefinition.version workflow = 1
    /\ WorkflowDefinition.version workflow' = 2
    /\ exists snapshot,
         In snapshot (Session.workflow_versions db')
         /\ WorkflowVersion.version_number snapshot = 1
         /\ WorkflowVersion.workflow_graph snapshot = PDict graph_v1.
Proof.
  eexists. eexists. eexists.
  split; [vm_compute; reflexivity|].
  split; [vm_compute; reflexivity|].
  match goal with
  | |- WorkflowDefinition.version ?w = _
       /\ WorkflowDefinition.version ?w' = _
       /\ (exists s, In s (Session.workflow_versions ?d) /\ _) =>
      destruct (@C7_version_monotone_with_snapshot saved_once 1 graph_v2 author
                  (Some "shorter") 200 w w' d)
        as [Hv [_ [_ [snapshot [Hin [_ [Hn [Hg _]]]]]]]];
      [lia | vm_compute; reflexivity | vm_compute; reflexivity | ]
  end.
  split; [reflexivity|].
  split; [exact Hv|].
  exists snapshot. split; [exact Hin|]. split; [exact Hn|exact Hg].
Defined.

End VersionsWitness.

Section DerivedState.

Import VisualWorkflowService.





End DerivedState.

Section DerivedStateWitness.

Import VisualWorkflowService Examples WorkflowExamples.

Lemma saved_once_consistent : consistent saved_once.
Proof.
  unfold consistent, saved_once. simpl. split; [reflexivity|]. split.
  - intros s [<-|[<-|[<-|[]]]]; simpl; lia.
  - intros r [<-|[]]. eexists. split; [right; left; reflexivity|reflexivity].
Qed.


End DerivedStateWitness.

Section Validation.

Import VisualWorkflowService.

Lemma py_any_start nodes :
  forallb is_dict nodes = true ->
  py_any (fun n => t <- py_get n "type" ;; Ok (py_eq t (PStr "start"))) nodes
  = Ok (has_start nodes).
Proof.
  induction nodes as [|n nodes IH]; simpl; [reflexivity|].
  intros Hdicts. apply andb_prop in Hdicts. destruct Hdicts as [Hn Hdicts].
  destruct n; try discriminate. simpl.
  unfold get, get_or.
  destruct (py_eq match dict_get d "type" with Some v => v | None => PNone end
                  (PStr "start")); simpl; auto.
Qed.

Lemma save_validation_fails db workflow_id graph_data user description now e :
  _validate_graph graph_data = Raise e ->
  save_workflow_graph db workflow_id graph_data user description now = Raise e.
Proof. unfold save_workflow_graph. intros ->. reflexivity. Qed.

(** C9 (graph validation), as the code has it.  [save_workflow_graph] fails
    with status 400 when the graph lacks the key 'nodes' or the key 'edges',
    when its 'nodes' are empty,
    and when its nodes are a list of objects none of which has the type
    'start'; when its nodes are a non-empty list of objects one of which has
    the type 'start' and the key 'edges' is there, the validation succeeds.
    (Shared node ids and edges to unknown nodes are not looked at.) *)
Theorem C9_graph_validation
  (db : Session.t) (workflow_id : option Z) (graph_data : pydict) (user : User.t)
  (description : option string) (now : datetime) :
  let save := save_workflow_graph db workflow_id graph_data user description now in
  (dict_has graph_data "nodes" = false \/ dict_has graph_data "edges" = false ->
   save = Raise (HTTPException 400 "Invalid graph: must contain 'nodes' and 'edges'"))
  /\
  (dict_has graph_data "nodes" = true -> dict_has graph_data "edges" = true ->
   truthy (get graph_data "nodes") = false ->
   save = Raise (HTTPException 400 "Workflow must have at least one node"))
  /\
  (forall nodes,
      dict_get graph_data "nodes" = Some (PList nodes) ->
      dict_has graph_data "edges" = true ->
      nodes <> [] ->
      forallb is_dict nodes = true ->
      (has_start nodes = false ->
       save = Raise (HTTPException 400 "Workflow must have a start node"))
      /\ (has_start nodes = true -> _validate_graph graph_data = Ok tt)).
Proof.
  intros save. split; [|split].
  - intros Hmissing. apply save_validation_fails. unfold _validate_graph.
    destruct Hmissing as [-> | ->]; simpl; [reflexivity|].
    rewrite orb_true_r. reflexivity.
  - intros Hn He Hempty. apply save_validation_fails. unfold _validate_graph.
    rewrite Hn, He, Hempty. reflexivity.
  - intros nodes Hnodes He Hne Hdicts.
    assert (Hv : _validate_graph graph_data
                 = if negb (has_start nodes)
                   then Raise (HTTPException 400 "Workflow must have a start node")
                   else Ok tt).
    { unfold _validate_graph, dict_has, get, get_or in *. rewrite Hnodes in *.
      simpl. destruct (dict_get graph_data "edges"); [|discriminate]. simpl.
      destruct nodes as [|n nodes]; [congruence|].
      rewrite (py_any_start _ Hdicts). reflexivity. }
    split; intros Hstart; rewrite Hstart in Hv.
    + apply save_validation_fails. exact Hv.
    + exact Hv.
Qed.

End Validation.

Section ValidationExamples.

Import VisualWorkflowService Examples WorkflowExamples.

(** C9 as stated fails.  The graph [graph_duplicate_ids] has two nodes of
    id "a" and an edge whose target "zz" is the id of no node; it passes the
    validation and the save succeeds.  So neither a shared node id nor a
    dangling edge makes [save_workflow_graph] fail with status 400. *)
Lemma C9_counterexample :
  ~ (forall db workflow_id graph_data user description now nodes,
        dict_get graph_data "nodes" = Some (PList nodes) ->
        shared_node_id nodes ->
        exists detail,
          save_workflow_graph db workflow_id graph_data user description now
          = Raise (HTTPException 400 detail))
  /\
  ~ (forall db workflow_id graph_data user description now nodes edges,
        dict_get graph_data "nodes" = Some (PList nodes) ->
        dict_get graph_data "edges" = Some (PList edges) ->
        dangling_edge nodes edges ->
        exists detail,
          save_workflow_graph db workflow_id graph_data user description now
          = Raise (HTTPException 400 detail)).
Proof.
  split; intros claim.
  - destruct (claim empty_session None graph_duplicate_ids author None 100
                    [node "a" "start" []; node "a" "approval" []] eq_refl)
      as [detail Hsave].
    + intros Hnodup. inversion Hnodup as [|x l Hnotin _]. apply Hnotin.
      left. reflexivity.
    + vm_compute in Hsave. discriminate.
  - destruct (claim empty_session None graph_duplicate_ids author None 100
                    [node "a" "start" []; node "a" "approval" []]
                    [edge "e1" "a" "zz" []] eq_refl eq_refl)
      as [detail Hsave].
    + exists (edge "e1" "a" "zz" []), (PStr "zz").
      split; [left; reflexivity|]. split; [right; reflexivity|].
      simpl. intros [H|[H|[]]]; discriminate.
    + vm_compute in Hsave. discriminate.
Qed.

(** A graph without the key 'edges' is refused; [graph_v1] is accepted. *)
Lemma C9_graph_validation_witness :
  save_workflow_graph empty_session None [("nodes", PList [node "n1" "start" []])]
    author None 100
  = Raise (HTTPException 400 "Invalid graph: must contain 'nodes' and 'edges'")
  /\ _validate_graph graph_v1 = Ok tt.
Proof.
  split.
  - apply (proj1 (@C9_graph_validation empty_session None
                    [("nodes", PList [node "n1" "start" []])] author None 100)).
    right. reflexivity.
  - refine (proj2 (proj2 (proj2 (@C9_graph_validation empty_session None graph_v1
                                   author None 100))
                     nodes_v1 eq_refl eq_refl _ eq_refl) eq_refl).
    discriminate.
Defined.

End ValidationExamples.

Section Totality.

Import VisualWorkflowService.

Lemma no_http_bind {A B} (c : pyres A) (k : A -> pyres B) :
  no_http c -> (forall a, no_http (k a)) -> no_http (Py.bind c k).
Proof.
  unfold no_http. intros Hc Hk e H.
  destruct c as [a|e']; simpl in H; [eapply Hk; exact H|].
  apply Hc. congruence.
Qed.

Lemma no_http_Ok {A} (a : A) : no_http (Ok a).
Proof. intros e H. discriminate. Qed.

Lemma no_http_py_get_or o k d : no_http (py_get_or o k d).
Proof. intros e H. destruct o; inv H; reflexivity. Qed.

Lemma no_http_py_get o k : no_http (py_get o k).
Proof. apply no_http_py_get_or. Qed.

Lemma no_http_py_getitem o k : no_http (py_getitem o k).
Proof.
  intros e H. destruct o; try (inv H; reflexivity).
  simpl in H. destruct (dict_get d k); inv H. reflexivity.
Qed.

Lemma no_http_py_iter v : no_http (py_iter v).
Proof. intros e H. destruct v; inv H; reflexivity. Qed.

Lemma no_http_node_type_of v : no_http (node_type_of v).
Proof.
  intros e H. unfold node_type_of in H.
  repeat break_hyp H; inv H; reflexivity.
Qed.

Lemma no_http_ApprovalType_call v : no_http (ApprovalType.call v).
Proof.
  intros e H. unfold ApprovalType.call in H.
  repeat break_hyp H; inv H; reflexivity.
Qed.

Create HintDb no_http.

#[local] Hint Resolve no_http_Ok no_http_py_get_or no_http_py_get no_http_py_getitem
  no_http_py_iter no_http_node_type_of no_http_ApprovalType_call : no_http.

Ltac no_http_binds :=
  repeat (apply no_http_bind; [solve [auto with no_http]|intros ?]).

Lemma no_http_stage_of_node workflow_id idx node :
  no_http (stage_of_node workflow_id idx node).
Proof.
  unfold stage_of_node. no_http_binds. apply no_http_Ok.
Qed.

Lemma no_http_add_stage db stage : no_http (add_stage db stage).
Proof.
  intros e H. unfold add_stage in H.
  repeat break_hyp H; inv H; reflexivity.
Qed.

Lemma no_http_node_map_setitem m k v : no_http (node_map_setitem m k v).
Proof.
  intros e H. unfold node_map_setitem in H. destruct (hashable k); inv H. reflexivity.
Qed.

Lemma no_http_create_stages workflow_id nodes :
  forall idx db m, no_http (create_stages workflow_id nodes idx db m).
Proof.
  induction nodes as [|node nodes IH]; intros idx db m; simpl.
  - apply no_http_Ok.
  - apply no_http_bind; [apply no_http_stage_of_node|intros stage].
    apply no_http_bind; [apply no_http_add_stage|intros [row db1]].
    apply no_http_bind; [apply no_http_node_map_setitem|intros m1].
    apply IH.
Qed.

Lemma no_http_add_definition db graph_data user :
  no_http (add_definition db graph_data user).
Proof.
  intros e H. unfold add_definition in H.
  repeat break_hyp H; inv H; reflexivity.
Qed.

(** A value outside the enum makes [ApprovalType(...)] raise. *)
Lemma ApprovalType_call_unknown v :
  (forall s, In s approval_types -> v <> PStr s) ->
  ApprovalType.call v = Raise ValueError.
Proof.
  intros Hnot. destruct v; try reflexivity. simpl.
  unfold ApprovalType.of_string.
  repeat match goal with
         | |- context [String.eqb s ?t] =>
             let E := fresh "E" in
             destruct (String.eqb s t) eqn:E;
             [apply String.eqb_eq in E; exfalso;
              apply (Hnot t); [simpl; tauto|congruence]|]
         end.
  reflexivity.
Qed.

(** The constructor call of a node whose data has such an approval type
    does not return. *)
Lemma stage_of_node_unknown_approval_type workflow_id idx node data approval_type :
  py_get node "data" = Ok (PDict data) ->
  dict_get data "approval_type" = Some approval_type ->
  (forall s, In s approval_types -> approval_type <> PStr s) ->
  forall stage, stage_of_node workflow_id idx node <> Ok stage.
Proof.
  intros Hdata Htype Hnot stage H.
  apply py_get_Ok in Hdata. destruct Hdata as [d [-> Hd]].
  unfold stage_of_node in H.
  bind_inv H. bind_inv H. rename a0 into node_data.
  assert (Hnode_data : node_data = PDict data).
  { simpl in E0. inv E0. unfold get, get_or in *.
    destruct (dict_get d "data"); [congruence|discriminate]. }
  subst node_data.
  do 7 bind_inv H. bind_inv H.
  simpl in E7. inv E7. unfold get_or in E8. rewrite Htype in E8.
  rewrite (ApprovalType_call_unknown Hnot) in E8. discriminate.
Qed.

Lemma create_stages_unknown_approval_type workflow_id nodes node data approval_type :
  In node nodes ->
  py_get node "data" = Ok (PDict data) ->
  dict_get data "approval_type" = Some approval_type ->
  (forall s, In s approval_types -> approval_type <> PStr s) ->
  forall idx db m r, create_stages workflow_id nodes idx db m <> Ok r.
Proof.
  intros Hin Hdata Htype Hnot.
  induction nodes as [|n nodes IH]; [destruct Hin|].
  intros idx db m r H. simpl in H.
  bind_inv H. bind_inv H. destruct a0 as [row db1]. bind_inv H.
  destruct Hin as [->|Hin].
  - eapply stage_of_node_unknown_approval_type; eassumption.
  - eapply IH; eassumption.
Qed.

End Totality.

Section UnknownApprovalType.

Import VisualWorkflowService.

Lemma sync_unknown_approval_type db workflow graph_data nodes node data approval_type :
  dict_get graph_data "nodes" = Some (PList nodes) ->
  In node nodes ->
  py_get node "data" = Ok (PDict data) ->
  dict_get data "approval_type" = Some approval_type ->
  (forall s, In s approval_types -> approval_type <> PStr s) ->
  exists e, _sync_stages_from_graph db workflow graph_data = Raise e
            /\ is_http e = false.
Proof.
  intros Hnodes Hin Hdata Htype Hnot.
  unfold _sync_stages_from_graph, get_or. rewrite Hnodes. simpl.
  destruct (create_stages (WorkflowDefinition.id workflow) nodes 0
              (delete_routes (delete_stages db (WorkflowDefinition.id workflow))
                             (WorkflowDefinition.id workflow)) [])
    as [r|e] eqn:E.
  - exfalso.
    eapply create_stages_unknown_approval_type; eassumption.
  - exists e. split; [reflexivity|].
    eapply no_http_create_stages. exact E.
Qed.

(** C10 (the stage compiler is not total over validated graphs).  Let a
    graph pass the validation and let one of its nodes have a data object
    whose approval_type is none of sequential, parallel_all, parallel_any,
    parallel_majority.  Then [save_workflow_graph] never returns: it raises,
    and what it raises is not an HTTPException, unless the workflow to
    update is not found (404) or may not be edited (403); when it creates a
    new workflow what it raises is not an HTTPException.  An unknown node
    type, on the contrary, is read as APPROVAL. *)
Theorem C10_unknown_approval_type_aborts_save
  (db : Session.t) (graph_data : pydict) (user : User.t)
  (description : option string) (now : datetime)
  (nodes : list pyval) (node : pyval) (data : pydict) (approval_type : pyval) :
  _validate_graph graph_data = Ok tt ->
  dict_get graph_data "nodes" = Some (PList nodes) ->
  In node nodes ->
  py_get node "data" = Ok (PDict data) ->
  dict_get data "approval_type" = Some approval_type ->
  (forall s, In s approval_types -> approval_type <> PStr s) ->
  (forall workflow_id,
      exists e,
        save_workflow_graph db workflow_id graph_data user description now = Raise e
        /\ (is_http e = false
            \/ e = HTTPException 404 "Workflow not found"
            \/ e = HTTPException 403 "No permission to edit workflow"))
  /\
  (exists e,
      save_workflow_graph db None graph_data user description now = Raise e
      /\ is_http e = false)
  /\
  (forall type, NodeType.of_string type = None ->
                node_type_of (PStr type) = Ok NodeType.approval).
Proof.
  intros Hvalid Hnodes Hin Hdata Htype Hnot.
  assert (Hsync : forall db1 workflow,
             exists e, _sync_stages_from_graph db1 workflow graph_data = Raise e
                       /\ is_http e = false).
  { intros db1 workflow.
    eapply sync_unknown_approval_type; eassumption. }
  split; [|split].
  - intros workflow_id. unfold save_workflow_graph. rewrite Hvalid. simpl.
    destruct (given workflow_id) as [wid|].
    + destruct (definition_by_id db wid) as [workflow|]; simpl; [|eauto 6].
      destruct (_can_edit user workflow); simpl; [|eauto 6].
      match goal with
      | |- context [_sync_stages_from_graph ?d ?w graph_data] =>
          destruct (Hsync d w) as [e [-> Hhttp]]
      end.
      simpl. eauto.
    + destruct (add_definition db graph_data user) as [[workflow db1]|e] eqn:E;
        simpl.
      * destruct (Hsync db1 workflow) as [e [-> Hhttp]]. simpl. eauto.
      * exists e. split; [reflexivity|]. left.
        eapply no_http_add_definition. exact E.
  - unfold save_workflow_graph. rewrite Hvalid. simpl.
    destruct (add_definition db graph_data user) as [[workflow db1]|e] eqn:E; simpl.
    + destruct (Hsync db1 workflow) as [e [-> Hhttp]]. simpl. eauto.
    + exists e. split; [reflexivity|].
      eapply no_http_add_definition. exact E.
  - intros type Hnone. unfold node_type_of. simpl. rewrite Hnone. reflexivity.
Qed.

End UnknownApprovalType.

Section UnknownApprovalTypeWitness.

Import VisualWorkflowService Examples WorkflowExamples.

(** The graph has a start node, so it passes the validation; the
    approval_type "unanimous" of that node makes the save raise ValueError,
    while the node type "review" of a node would be read as APPROVAL. *)
Lemma C10_unknown_approval_type_aborts_save_witness :
  _validate_graph graph_unknown_approval_type = Ok tt
  /\ save_workflow_graph empty_session None graph_unknown_approval_type author None 100
     = Raise ValueError
  /\ (exists e,
         save_workflow_graph empty_session None graph_unknown_approval_type
           author None 100 = Raise e
         /\ is_http e = false)
  /\ node_type_of (PStr "review") = Ok NodeType.approval.
Proof.
  split; [reflexivity|]. split; [reflexivity|].
  destruct (@C10_unknown_approval_type_aborts_save empty_session
              graph_unknown_approval_type author None 100
              [node "n1" "start" [("approval_type", PStr "unanimous")]]
              (node "n1" "start" [("approval_type", PStr "unanimous")])
              [("approval_type", PStr "unanimous")] (PStr "unanimous"))
    as [_ [Hraise Htype]].
  - reflexivity.
  - reflexivity.
  - left. reflexivity.
  - reflexivity.
  - reflexivity.
  - intros s Hs. simpl in Hs.
    destruct Hs as [<-|[<-|[<-|[<-|[]]]]]; discriminate.
  - split; [exact Hraise|]. apply Htype. reflexivity.
Defined.

End UnknownApprovalTypeWitness.

Section Publish.

Import VisualWorkflowService WorkflowPermissions Examples WorkflowExamples.

(** C6 (publish permission), at a subject who did not create the workflow,
    is no admin and holds a role of the workflow's edit list:
    [can_publish_workflow] refuses the subject, yet [publish_workflow],
    which asks [_can_edit] instead, activates the workflow. *)
Theorem C6_editor_publishes_without_publish_permission (rt : Builtins) :
  definition_by_id with_editable_workflow 1 = Some editable_workflow
  /\ User.role editor <> "admin"
  /\ WorkflowDefinition.created_by editable_workflow <> User.id editor
  /\ can_publish_workflow editor editable_workflow = false
  /\ _can_edit editor editable_workflow = true
  /\ exists workflow db',
       publish_workflow (rt := rt) with_editable_workflow 1 editor 300
       = Ok (workflow, db')
       /\ WorkflowDefinition.status workflow = WorkflowStatus.active
       /\ definition_by_id db' 1 = Some workflow.
Proof.
  split; [reflexivity|]. split; [discriminate|]. split; [discriminate|].
  split; [reflexivity|]. split; [reflexivity|].
  eexists. eexists. split; [reflexivity|]. split; reflexivity.
Qed.

(** The only permission that [publish_workflow] asks for is [_can_edit]. *)
Lemma publish_asks_can_edit (rt : Builtins) db workflow_id user now workflow :
  definition_by_id db workflow_id = Some workflow ->
  _can_edit user workflow = false ->
  publish_workflow (rt := rt) db workflow_id user now
  = Raise (HTTPException 403 "No permission to publish").
Proof.
  intros Hfound Hedit. unfold publish_workflow. rewrite Hfound, Hedit. reflexivity.
Qed.

(** The same holds for the creator of a workflow who has none of the roles
    manager, supervisor, department_head. *)
Lemma creator_publishes_without_manager_role (rt : Builtins) :
  let creator := subject 1 "user" in
  can_publish_workflow creator editable_workflow = false
  /\ exists workflow db',
       publish_workflow (rt := rt) with_editable_workflow 1 creator 300
       = Ok (workflow, db')
       /\ WorkflowDefinition.status workflow = WorkflowStatus.active.
Proof.
  intros creator. split; [reflexivity|].
  eexists. eexists. split; reflexivity.
Qed.

End Publish.


(* ================================================================== *)
(** * Further properties of the policy decision engine                 *)
(* ================================================================== *)

Section DecisionTrace.

Import ABACService.
Context {rt : Builtins}.
Variables user_attrs resource_attrs env_attrs : pydict.

(** What a returning loop has done: it evaluated a prefix of the policies
    without a raise; it stopped before the end only at a matching deny, which
    is then the verdict; every match before the last evaluated policy is an
    allow. *)
Lemma evaluate_trace policies :
  forall v v',
    evaluate user_attrs resource_attrs env_attrs policies v = Ok v' ->
    exists done rest,
      policies = done ++ rest
      /\ evaluated_policy_ids v' = evaluated_policy_ids v ++ map ABACPolicy.id done
      /\ Forall (fun p => exists b, _evaluate_policy p user_attrs resource_attrs env_attrs = Ok b) done
      /\ ((rest = []
           /\ Forall (fun p => _evaluate_policy p user_attrs resource_attrs env_attrs = Ok true ->
                               ABACPolicy.effect p = PolicyEffect.allow) done
           /\ match last_matching user_attrs resource_attrs env_attrs done with
              | Some q =>
                  applied_policy v' = Some q
                  /\ decision v' = "allow"
                  /\ reason v' = ("Policy '" ++ ABACPolicy.name q ++ "' matched")%string
              | None =>
                  applied_policy v' = applied_policy v
                  /\ decision v' = decision v
                  /\ reason v' = reason v
              end)
          \/
          (exists pre q,
              done = pre ++ [q]
              /\ ABACPolicy.effect q = PolicyEffect.deny
              /\ _evaluate_policy q user_attrs resource_attrs env_attrs = Ok true
              /\ Forall (fun p => _evaluate_policy p user_attrs resource_attrs env_attrs = Ok true ->
                                  ABACPolicy.effect p = PolicyEffect.allow) pre
              /\ applied_policy v' = Some q
              /\ decision v' = "deny"
              /\ reason v' = ("Policy '" ++ ABACPolicy.name q ++ "' matched")%string)).
Proof.
  induction policies as [|p policies IH]; intros v v' H; simpl in H.
  - inv H. exists [], []. simpl. rewrite app_nil_r.
    repeat split; auto. left. repeat split; auto.
  - destruct (_evaluate_policy p user_attrs resource_attrs env_attrs) as [m|e] eqn:Ep;
      simpl in H; [|discriminate].
    destruct m.
    + destruct (ABACPolicy.effect p) eqn:Eeff.
      * (* allow *)
        apply IH in H. destruct H as (done & rest & -> & Hids & Hall & Hcase).
        exists (p :: done), rest. simpl in *.
        split; [reflexivity|].
        split; [rewrite Hids, <- app_assoc; reflexivity|].
        split; [constructor; eauto|].
        destruct Hcase as [(-> & Hallow & Hlast)|(pre & q & -> & Hq & Hm & Hpre & Hv)].
        -- left. split; [reflexivity|]. split; [constructor; auto|].
           destruct (last_matching user_attrs resource_attrs env_attrs done) as [q|].
           ++ exact Hlast.
           ++ rewrite Ep. exact Hlast.
        -- right. exists (p :: pre), q. simpl.
           repeat split; try tauto. constructor; auto.
      * (* deny *)
        inv H. exists [p], policies. simpl.
        split; [reflexivity|]. split; [reflexivity|].
        split; [constructor; eauto|].
        right. exists [], p. simpl. rewrite Eeff. repeat split; auto.
    + apply IH in H. destruct H as (done & rest & -> & Hids & Hall & Hcase).
      exists (p :: done), rest. simpl in *.
      split; [reflexivity|].
      split; [rewrite Hids, <- app_assoc; reflexivity|].
      split; [constructor; eauto|].
      destruct Hcase as [(-> & Hallow & Hlast)|(pre & q & -> & Hq & Hm & Hpre & Hv)].
      * left. split; [reflexivity|].
        split; [constructor; auto; intros; congruence|].
        destruct (last_matching user_attrs resource_attrs env_attrs done) as [q|].
        -- exact Hlast.
        -- rewrite Ep. exact Hlast.
      * right. exists (p :: pre), q. simpl.
        repeat split; try tauto. constructor; auto. intros; congruence.
Qed.

End DecisionTrace.

Section AccessDecision.

Import ABACService.
Context {rt : Builtins}.

Variables (db : Session.t) (user : User.t) (action resource_type : string)
  (resource_id : option Z) (resource_obj context : option pydict)
  (now : Clock.t) (evaluation_time_ms : Z).

(** A returning [check_access] has read the resource attributes, run the
    loop over the sorted candidates and written the log row. *)
Lemma check_access_inv allowed reason matched db' :
  check_access db user action resource_type resource_id resource_obj context
    now evaluation_time_ms = Ok ((allowed, reason, matched), db') ->
  exists resource_attrs v,
    _get_resource_attributes db resource_type resource_id resource_obj
    = Ok resource_attrs
    /\ evaluate (_get_user_attributes db user) resource_attrs
         (_get_environment_attributes now context)
         (sorted_by_priority (_get_applicable_policies db action resource_type user))
         initial_verdict = Ok v
    /\ allowed = String.eqb (decision v) "allow"
    /\ reason = ABACService.reason v
    /\ matched = applied_policy v
    /\ db' = _log_access db (User.id user) action resource_type resource_id
               (decision v) (option_map ABACPolicy.id (applied_policy v))
               (_get_user_attributes db user) resource_attrs
               (_get_environment_attributes now context)
               (evaluated_policy_ids v) evaluation_time_ms
               (ABACService.reason v) context.
Proof.
  unfold check_access. intros H.
  destruct (_get_resource_attributes db resource_type resource_id resource_obj)
    as [resource_attrs|e] eqn:Er; simpl in H; [|discriminate].
  destruct (evaluate (_get_user_attributes db user) resource_attrs
              (_get_environment_attributes now context)
              (sorted_by_priority (_get_applicable_policies db action resource_type user))
              initial_verdict) as [v|e] eqn:Ev; simpl in H; [|discriminate].
  inv H. exists resource_attrs, v. repeat split; auto.
Qed.

End AccessDecision.

Section NoMatch.

Import ABACService.
Context {rt : Builtins}.
Variables user_attrs resource_attrs env_attrs : pydict.


End NoMatch.

Section Decisions.

Import ABACService.
Context {rt : Builtins}.

Variables (db : Session.t) (user : User.t) (action resource_type : string)
  (resource_id : option Z) (resource_obj context : option pydict)
  (now : Clock.t) (evaluation_time_ms : Z).

(** X1.  Access is granted only through a matching allow: when
    [check_access] answers [True], the reported policy is a candidate of
    effect allow whose conditions matched, the reason names it, every
    candidate was evaluated without a raise, and no candidate of effect deny
    matched. *)
Theorem granted_only_by_a_matching_allow
  (reason : string) (matched : option ABACPolicy.t) (db' : Session.t) :
  let user_attrs := _get_user_attributes db user in
  let env_attrs := _get_environment_attributes now context in
  let candidates := _get_applicable_policies db action resource_type user in
  check_access db user action resource_type resource_id resource_obj context
    now evaluation_time_ms = Ok ((true, reason, matched), db') ->
  exists resource_attrs q,
    _get_resource_attributes db resource_type resource_id resource_obj
    = Ok resource_attrs
    /\ matched = Some q
    /\ In q candidates
    /\ ABACPolicy.effect q = PolicyEffect.allow
    /\ _evaluate_policy q user_attrs resource_attrs env_attrs = Ok true
    /\ reason = matched_reason q
    /\ forall p, In p candidates ->
         exists b,
           _evaluate_policy p user_attrs resource_attrs env_attrs = Ok b
           /\ (ABACPolicy.effect p = PolicyEffect.deny -> b = false).
Proof.
  intros user_attrs env_attrs candidates H.
  apply check_access_inv in H.
  destruct H as (resource_attrs & v & Hres & Hv & Hallowed & -> & -> & _).
  fold user_attrs env_attrs candidates in Hv.
  apply evaluate_trace in Hv.
  destruct Hv as (done & rest & Hsplit & _ & Hran & Hcase).
  destruct Hcase as [(-> & Hallow & Hlast)|(pre & q & _ & _ & _ & _ & _ & Hd & _)].
  2:{ rewrite Hd in Hallowed. discriminate. }
  rewrite app_nil_r in Hsplit. subst done.
  destruct (last_matching user_attrs resource_attrs env_attrs
              (sorted_by_priority candidates)) as [q|] eqn:Hq.
  2:{ destruct Hlast as (_ & Hd & _). rewrite Hd in Hallowed. discriminate. }
  destruct Hlast as (Happlied & _ & Hreason).
  apply last_matching_matches in Hq. destruct Hq as [Hin Hm].
  rewrite Forall_forall in Hallow, Hran.
  exists resource_attrs, q. repeat split; auto.
  - apply In_sorted_by_priority. exact Hin.
  - intros p Hp. apply In_sorted_by_priority in Hp.
    destruct (Hran p Hp) as [b Hb]. exists b. split; [exact Hb|].
    intros Hdeny. destruct b; [|reflexivity].
    rewrite (Hallow p Hp Hb) in Hdeny. discriminate.
Qed.


End Decisions.

Section DecisionsWitness.

Import ABACService Examples.

(** Two unconditional allows: the grant reports one of them, and both were
    evaluated. *)
Lemma granted_only_by_a_matching_allow_witness :
  let db := with_policies [allow_high; allow_low] in
  let user := subject 5 "user" in
  exists db',
    check_access (rt := no_builtins) db user "read" "invoice" None None None noon 0
    = Ok ((true, "Policy 'read-low' matched", Some allow_low), db')
    /\ exists resource_attrs q,
         Some allow_low = Some q
         /\ In q (_get_applicable_policies db "read" "invoice" user)
         /\ ABACPolicy.effect q = PolicyEffect.allow
         /\ _evaluate_policy (rt := no_builtins) q (_get_user_attributes db user)
              resource_attrs (_get_environment_attributes noon None) = Ok true.
Proof.
  intros db user. eexists.
  match goal with
  | |- ?lhs = Ok (_, ?d) /\ _ =>
      assert (H : lhs = Ok ((true, "Policy 'read-low' matched", Some allow_low), d))
        by (vm_compute; reflexivity)
  end.
  split; [exact H|].
  apply granted_only_by_a_matching_allow in H.
  destruct H as (resource_attrs & q & _ & Hq & Hin & Heff & Hm & _).
  exists resource_attrs, q. auto.
Defined.


End DecisionsWitness.

Section AuditTrail.

Import ABACService.
Context {rt : Builtins}.

Variables (db : Session.t) (user : User.t) (action resource_type : string)
  (resource_id : option Z) (resource_obj context : option pydict)
  (now : Clock.t) (evaluation_time_ms : Z).

(** X3.  Every decision that [check_access] returns is in the audit trail:
    in a session with nothing pending, the call appends one row to the
    access log, with the next id, the subject, the request, the decision as
    the word "allow" or "deny", the id of the reported policy, the reason and
    the three attribute bags that were used; no other table changes. *)
Theorem every_decision_is_logged
  (allowed : bool) (reason : string) (matched : option ABACPolicy.t)
  (db' : Session.t) :
  Session.new_routes db = [] ->
  check_access db user action resource_type resource_id resource_obj context
    now evaluation_time_ms = Ok ((allowed, reason, matched), db') ->
  same_but_access_logs db db'
  /\ Session.abac_access_logs_seq db' = Session.abac_access_logs_seq db + 1
  /\ exists log,
       Session.abac_access_logs db' = Session.abac_access_logs db ++ [log]
       /\ ABACAccessLog.id log = Session.abac_access_logs_seq db
       /\ ABACAccessLog.user_id log = User.id user
       /\ ABACAccessLog.action log = action
       /\ ABACAccessLog.resource_type log = resource_type
       /\ ABACAccessLog.resource_id log = resource_id
       /\ ABACAccessLog.decision log = (if allowed then "allow" else "deny")
       /\ ABACAccessLog.policy_id log = option_map ABACPolicy.id matched
       /\ ABACAccessLog.reason log = reason
       /\ ABACAccessLog.user_attributes log = _get_user_attributes db user
       /\ _get_resource_attributes db resource_type resource_id resource_obj
          = Ok (ABACAccessLog.resource_attributes log)
       /\ ABACAccessLog.environment_attributes log
          = _get_environment_attributes now context
       /\ ABACAccessLog.evaluation_time_ms log = evaluation_time_ms.
Proof.
  intros _ H. apply check_access_inv in H.
  destruct H as (resource_attrs & v & Hres & Hv & -> & -> & -> & ->).
  assert (Hd : decision v = "allow" \/ decision v = "deny").
  { apply evaluate_trace in Hv.
    destruct Hv as (done & rest & _ & _ & _ & Hcase).
    destruct Hcase as [(_ & _ & Hlast)|(pre & q & _ & _ & _ & _ & _ & Hd & _)];
      [|auto].
    destruct (last_matching _ _ _ done); [left|right]; tauto. }
  split; [unfold same_but_access_logs; simpl; tauto|].
  split; [reflexivity|].
  eexists. split; [reflexivity|]. simpl.
  repeat split; auto.
  destruct Hd as [-> | ->]; reflexivity.
Qed.

(** X4.  The ids that the log row lists as evaluated are those of a prefix
    of the candidates in the order of evaluation; something is left out only
    behind a matching deny, which is then the reported policy and the last
    one evaluated.  A grant has evaluated every candidate. *)
Theorem evaluated_policies_are_a_prefix
  (allowed : bool) (reason : string) (matched : option ABACPolicy.t)
  (db' : Session.t) :
  let candidates := _get_applicable_policies db action resource_type user in
  check_access db user action resource_type resource_id resource_obj context
    now evaluation_time_ms = Ok ((allowed, reason, matched), db') ->
  exists log done rest,
    Session.abac_access_logs db' = Session.abac_access_logs db ++ [log]
    /\ sorted_by_priority candidates = done ++ rest
    /\ descending (done ++ rest)
    /\ ABACAccessLog.evaluated_policies log = map ABACPolicy.id done
    /\ (rest = []
        \/ exists pre q,
             done = pre ++ [q] /\ matched = Some q
             /\ ABACPolicy.effect q = PolicyEffect.deny)
    /\ (allowed = true -> rest = []).
Proof.
  intros candidates H. apply check_access_inv in H.
  destruct H as (resource_attrs & v & Hres & Hv & -> & -> & -> & ->).
  fold candidates in Hv. apply evaluate_trace in Hv.
  destruct Hv as (done & rest & Hsplit & Hids & _ & Hcase).
  eexists. exists done, rest.
  split; [reflexivity|]. simpl.
  split; [exact Hsplit|].
  split; [rewrite <- Hsplit; apply sorted_by_priority_descending|].
  split; [exact Hids|].
  destruct Hcase as [(-> & _)|(pre & q & -> & Hq & _ & _ & Ha & Hd & _)].
  - auto.
  - split.
    + right. exists pre, q. auto.
    + rewrite Hd. discriminate.
Qed.

End AuditTrail.

Section AuditTrailWitness.

Import ABACService Examples.

(** Scenario 2: the refusal by the deny of self-approval is logged with
    the id of that policy. *)
Lemma every_decision_is_logged_witness :
  let db := with_policies [allow_approve; deny_own] in
  exists db',
    check_access (rt := no_builtins) db (subject 5 "user") "approve" "Invoice"
      (Some 7) (Some own_invoice) None noon 3
    = Ok ((false, "Policy 'no-self-approval' matched", Some deny_own), db')
    /\ exists log,
         Session.abac_access_logs db' = [log]
         /\ ABACAccessLog.id log = 1
         /\ ABACAccessLog.user_id log = 5
         /\ ABACAccessLog.decision log = "deny"
         /\ ABACAccessLog.policy_id log = Some 2.
Proof.
  intros db. eexists.
  match goal with
  | |- ?lhs = Ok (_, ?d) /\ _ =>
      assert (H : lhs = Ok ((false, "Policy 'no-self-approval' matched",
                             Some deny_own), d))
        by (vm_compute; reflexivity)
  end.
  split; [exact H|].
  apply every_decision_is_logged in H; [|reflexivity].
  destruct H as (_ & _ & log & Hlog & Hid & Hu & _ & _ & _ & Hd & Hp & _).
  exists log. auto.
Defined.

Lemma evaluated_policies_are_a_prefix_witness :
  let db := with_policies [allow_approve; deny_own] in
  exists db',
    check_access (rt := no_builtins) db (subject 5 "user") "approve" "Invoice"
      (Some 7) (Some own_invoice) None noon 3
    = Ok ((false, "Policy 'no-self-approval' matched", Some deny_own), db')
    /\ exists log done rest,
         Session.abac_access_logs db' = [log]
         /\ [allow_approve; deny_own] = done ++ rest
         /\ ABACAccessLog.evaluated_policies log = map ABACPolicy.id done.
Proof.
  intros db. eexists.
  match goal with
  | |- ?lhs = Ok (_, ?d) /\ _ =>
      assert (H : lhs = Ok ((false, "Policy 'no-self-approval' matched",
                             Some deny_own), d))
        by (vm_compute; reflexivity)
  end.
  split; [exact H|].
  apply evaluated_policies_are_a_prefix in H.
  destruct H as (log & done & rest & Hlog & Hsplit & _ & Hids & _).
  exists log, done, rest. auto.
Defined.

End AuditTrailWitness.

Section MissingAttributes.

Import ABACService.
Context {rt : Builtins}.
Variables user_attrs resource_attrs env_attrs : pydict.

(** X5.  A condition on an attribute that the bags do not have (the path
    resolves to [None]) compared with a literal that is not null: [eq], the
    four orderings, [in] and [is_not_null] fail; [ne], [not_in] and
    [is_null] are satisfied; [starts_with] compares with the text "None". *)
Theorem condition_on_a_missing_attribute
  (condition : pydict) (path operator : string) (expected : pyval) :
  get condition "attribute" = PStr path ->
  get_or condition "operator" (PStr "eq") = PStr operator ->
  get condition "value" = expected ->
  _get_attribute_value (PStr path) user_attrs resource_attrs env_attrs = Ok PNone ->
  expected <> PNone ->
  (forall s, expected = PStr s -> startswith s "{{" = false) ->
  let result :=
    _evaluate_condition (PDict condition) user_attrs resource_attrs env_attrs in
  (In operator ["eq"; "gt"; "gte"; "lt"; "lte"; "is_not_null"] -> result = Ok false)
  /\ (In operator ["ne"; "is_null"] -> result = Ok true)
  /\ (forall l, expected = PList l -> py_in PNone l = false ->
        (operator = "in" -> result = Ok false)
        /\ (operator = "not_in" -> result = Ok true))
  /\ (operator = "not_in" -> (forall l, expected <> PList l) -> result = Ok true)
  /\ (operator = "starts_with" ->
      forall s, expected = PStr s -> result = Ok (startswith "None" s)).
Proof.
  intros Hattr Hop Hvalue Hmissing Hnull Hlit result.
  assert (Hresult : result = _apply_operator (PStr operator) PNone expected).
  { unfold result, _evaluate_condition, py_get, py_get_or. simpl.
    fold (get condition "attribute"). fold (get condition "value").
    rewrite Hattr, Hop, Hvalue, Hmissing. simpl.
    destruct expected as [| | | |s| |]; try reflexivity.
    rewrite (Hlit s eq_refl). reflexivity. }
  rewrite Hresult. clear Hresult result Hvalue.
  repeat split.
  - intros Hin. simpl in Hin.
    destruct Hin as [<-|[<-|[<-|[<-|[<-|[<-|[]]]]]]];
      unfold _apply_operator, is_op; simpl;
      destruct expected; congruence || reflexivity.
  - intros Hin. simpl in Hin.
    destruct Hin as [<-|[<-|[]]];
      unfold _apply_operator, is_op; simpl;
      destruct expected; congruence || reflexivity.
  - intros ->. subst expected.
    change (except_VTA (Ok (py_in PNone l)) false = Ok false).
    rewrite H0. reflexivity.
  - intros ->. subst expected.
    change (except_VTA (Ok (negb (py_in PNone l))) false = Ok true).
    rewrite H0. reflexivity.
  - intros -> Hl. unfold _apply_operator, is_op. simpl.
    destruct expected; try reflexivity. destruct (Hl l eq_refl).
  - intros -> s ->. unfold _apply_operator, is_op. reflexivity.
Qed.

End MissingAttributes.

Section MissingAttributesWitness.

Import ABACService Examples.

(** A subject without a profile has no [department_id]; "department is not
    3" holds for that subject. *)
Lemma condition_on_a_missing_attribute_witness :
  let user_attrs := _get_user_attributes empty_session (subject 5 "user") in
  let condition :=
    [("attribute", PStr "user.department_id"); ("operator", PStr "ne");
     ("value", PInt 3)] in
  _get_attribute_value (rt := no_builtins) (PStr "user.department_id")
    user_attrs [] [] = Ok PNone
  /\ _evaluate_condition (rt := no_builtins) (PDict condition) user_attrs [] []
     = Ok true.
Proof.
  intros user_attrs condition. split; [reflexivity|].
  refine (proj1 (proj2 (@condition_on_a_missing_attribute no_builtins user_attrs
                          [] [] condition "user.department_id" "ne" (PInt 3)
                          eq_refl eq_refl eq_refl eq_refl _ _)) _).
  - discriminate.
  - intros s H. discriminate.
  - simpl. auto.
Defined.

End MissingAttributesWitness.

Section References.

Import ABACService.

Lemma append_nil_r (s : string) : (s ++ "")%string = s.
Proof. induction s; simpl; congruence. Qed.

Lemma append_assoc (s t u : string) : ((s ++ t) ++ u)%string = (s ++ t ++ u)%string.
Proof. induction s; simpl; congruence. Qed.

Lemma re_group_plain g :
  forall acc, plain g = true -> re_group acc (g ++ "}}") = Some (acc ++ g)%string.
Proof.
  induction g as [|c g IH]; intros acc Hg.
  - simpl. rewrite append_nil_r. reflexivity.
  - simpl in Hg. apply andb_prop in Hg. destruct Hg as [Hc Hg].
    apply andb_prop in Hc. destruct Hc as [Hbrace Hnl].
    apply negb_true_iff in Hbrace, Hnl.
    change (String c g ++ "}}")%string with (String c (g ++ "}}")).
    unfold re_group; fold re_group.
    replace (String.prefix "}}" (String c (g ++ "}}"))) with false.
    2:{ cbn [String.prefix]. destruct (ascii_dec "}"%char c) as [<-|Hne].
        - rewrite Ascii.eqb_refl in Hbrace. discriminate.
        - reflexivity. }
    rewrite Hnl. rewrite IH by exact Hg. rewrite append_assoc. reflexivity.
Qed.

(** The pattern of [_resolve_reference] finds the path between the braces. *)
Lemma re_match_plain g :
  g <> "" -> plain g = true -> re_match ("{{" ++ g ++ "}}") = Some g.
Proof.
  intros Hne Hg. destruct g as [|c g]; [congruence|].
  simpl in Hg. apply andb_prop in Hg. destruct Hg as [Hc Hg].
  apply andb_prop in Hc. destruct Hc as [_ Hnl]. apply negb_true_iff in Hnl.
  change ("{{" ++ String c g ++ "}}")%string
    with (String "{" (String "{" (String c (g ++ "}}")))).
  unfold re_match. rewrite Hnl. rewrite re_group_plain by exact Hg. reflexivity.
Qed.

Context {rt : Builtins}.
Variables user_attrs resource_attrs env_attrs : pydict.

(** X6.  An [eq] (or [ne]) condition whose value is a reference compares
    the values of the two paths; so two attributes that are both missing
    are equal, and the [eq] condition holds. *)
Theorem condition_with_a_reference
  (condition : pydict) (path g : string) (actual expected : pyval) :
  get condition "attribute" = PStr path ->
  get condition "value" = PStr ("{{" ++ g ++ "}}") ->
  g <> "" -> plain g = true ->
  _get_attribute_value (PStr path) user_attrs resource_attrs env_attrs = Ok actual ->
  _get_attribute_value (PStr (strip g)) user_attrs resource_attrs env_attrs
  = Ok expected ->
  let result :=
    _evaluate_condition (PDict condition) user_attrs resource_attrs env_attrs in
  (get_or condition "operator" (PStr "eq") = PStr "eq" ->
   result = Ok (py_eq actual expected)
   /\ (actual = PNone -> expected = PNone -> result = Ok true))
  /\ (get_or condition "operator" (PStr "eq") = PStr "ne" ->
      result = Ok (negb (py_eq actual expected))).
Proof.
  intros Hattr Hvalue Hne Hg Hactual Hexpected result.
  assert (Hresult : forall operator,
             get_or condition "operator" (PStr "eq") = PStr operator ->
             result = _apply_operator (PStr operator) actual expected).
  { intros operator Hop.
    assert (Hs : startswith ("{{" ++ g ++ "}}") "{{" = true)
      by (unfold startswith; simpl; destruct g; reflexivity).
    unfold result, _evaluate_condition, py_get, py_get_or.
    fold (get condition "attribute"). fold (get condition "value").
    rewrite Hattr, Hop, Hvalue. cbv beta iota delta [Py.bind].
    rewrite Hactual, Hs.
    unfold _resolve_reference. rewrite re_match_plain by assumption.
    rewrite Hexpected. reflexivity. }
  split; intros Hop; rewrite (Hresult _ Hop).
  - split; [reflexivity|]. intros -> ->. reflexivity.
  - reflexivity.
Qed.

End References.

Section ReferencesWitness.

Import ABACService Examples.

(** "The resource is of the subject's department": a subject without a
    profile and a resource without a department satisfy it. *)
Lemma condition_with_a_reference_witness :
  let user_attrs := _get_user_attributes empty_session (subject 5 "user") in
  let resource_attrs := [("type", PStr "invoice"); ("id", PInt 7)] in
  let condition :=
    [("attribute", PStr "resource.department_id"); ("operator", PStr "eq");
     ("value", PStr "{{user.department_id}}")] in
  _get_attribute_value (rt := no_builtins) (PStr "resource.department_id")
    user_attrs resource_attrs [] = Ok PNone
  /\ _get_attribute_value (rt := no_builtins) (PStr "user.department_id")
       user_attrs resource_attrs [] = Ok PNone
  /\ _evaluate_condition (rt := no_builtins) (PDict condition)
       user_attrs resource_attrs [] = Ok true.
Proof.
  intros user_attrs resource_attrs condition.
  split; [reflexivity|]. split; [reflexivity|].
  refine (proj2 (proj1 (@condition_with_a_reference no_builtins user_attrs
                          resource_attrs [] condition "resource.department_id"
                          "user.department_id" PNone PNone
                          eq_refl eq_refl _ eq_refl eq_refl eq_refl) eq_refl)
                eq_refl eq_refl).
  discriminate.
Defined.

End ReferencesWitness.

Section ConditionGroups.

Import ABACService.

Lemma py_all_decided {A} (f : A -> pyres bool) pre x post :
  Forall (fun y => f y = Ok true) pre -> f x = Ok false ->
  py_all f (pre ++ x :: post) = Ok false.
Proof.
  intros Hpre Hx. induction Hpre as [|y pre Hy _ IH]; simpl.
  - rewrite Hx. reflexivity.
  - rewrite Hy. simpl. exact IH.
Qed.

Lemma py_all_true {A} (f : A -> pyres bool) l :
  Forall (fun y => f y = Ok true) l -> py_all f l = Ok true.
Proof.
  intros H. induction H as [|y l Hy _ IH]; simpl.
  - reflexivity.
  - rewrite Hy. simpl. exact IH.
Qed.

Lemma py_any_decided {A} (f : A -> pyres bool) pre x post :
  Forall (fun y => f y = Ok false) pre -> f x = Ok true ->
  py_any f (pre ++ x :: post) = Ok true.
Proof.
  intros Hpre Hx. induction Hpre as [|y pre Hy _ IH]; simpl.
  - rewrite Hx. reflexivity.
  - rewrite Hy. simpl. exact IH.
Qed.

Lemma py_any_false {A} (f : A -> pyres bool) l :
  Forall (fun y => f y = Ok false) l -> py_any f l = Ok false.
Proof.
  intros H. induction H as [|y l Hy _ IH]; simpl.
  - reflexivity.
  - rewrite Hy. simpl. exact IH.
Qed.

Context {rt : Builtins}.
Variables user_attrs resource_attrs env_attrs : pydict.

(** X7.  The groups of a conditions object.  [all] is the conjunction and
    is decided by the first condition that fails: what follows it is not
    evaluated, whatever it is.  [any] is the disjunction, decided by the
    first condition that holds; [none] is its negation.  [all] is read
    before [any], and [any] before [none]: the other keys are ignored.  An
    object with none of the three keys never matches. *)
Theorem condition_groups (policy : ABACPolicy.t) (conditions : pydict) :
  let holds cond :=
    _evaluate_condition cond user_attrs resource_attrs env_attrs = Ok true in
  let fails cond :=
    _evaluate_condition cond user_attrs resource_attrs env_attrs = Ok false in
  let result := _evaluate_policy policy user_attrs resource_attrs env_attrs in
  ABACPolicy.conditions policy = Some conditions ->
  (forall conds,
      dict_get conditions "all" = Some (PList conds) ->
      (Forall holds conds -> result = Ok true)
      /\ (forall pre cond post,
             conds = pre ++ cond :: post -> Forall holds pre -> fails cond ->
             result = Ok false))
  /\
  (forall conds,
      dict_get conditions "all" = None ->
      dict_get conditions "any" = Some (PList conds) ->
      (Forall fails conds -> result = Ok false)
      /\ (forall pre cond post,
             conds = pre ++ cond :: post -> Forall fails pre -> holds cond ->
             result = Ok true))
  /\
  (forall conds,
      dict_get conditions "all" = None ->
      dict_get conditions "any" = None ->
      dict_get conditions "none" = Some (PList conds) ->
      (Forall fails conds -> result = Ok true)
      /\ (forall pre cond post,
             conds = pre ++ cond :: post -> Forall fails pre -> holds cond ->
             result = Ok false))
  /\
  (conditions <> [] ->
   dict_get conditions "all" = None ->
   dict_get conditions "any" = None ->
   dict_get conditions "none" = None ->
   result = Ok false).
Proof.
  intros holds fails result Hc.
  unfold result, _evaluate_policy. rewrite Hc. unfold dict_has, get, get_or.
  repeat split.
  - intros Hall. destruct conditions; [discriminate|].
    rewrite H. simpl. apply py_all_true. exact Hall.
  - intros pre cond post -> Hpre Hcond. destruct conditions; [discriminate|].
    rewrite H. simpl. apply py_all_decided; assumption.
  - intros Hall. destruct conditions; [discriminate|].
    rewrite H, H0. simpl. apply py_any_false. exact Hall.
  - intros pre cond post -> Hpre Hcond. destruct conditions; [discriminate|].
    rewrite H, H0. simpl. apply py_any_decided; assumption.
  - intros Hall. destruct conditions; [discriminate|].
    rewrite H, H0, H1. simpl. rewrite py_any_false by exact Hall. reflexivity.
  - intros pre cond post -> Hpre Hcond. destruct conditions; [discriminate|].
    rewrite H, H0, H1. simpl. rewrite py_any_decided by assumption. reflexivity.
  - intros Hne Hall Hany Hnone. destruct conditions; [congruence|].
    rewrite Hall, Hany, Hnone. reflexivity.
Qed.

End ConditionGroups.

Section ConditionGroupsWitness.

Import ABACService Examples.

(** An [all] group whose first condition fails: the malformed second
    condition, which would raise, is not reached, and the [any] key beside
    it is not read. *)
Lemma condition_groups_witness :
  let fine :=
    PDict [("attribute", PStr "user.role"); ("operator", PStr "eq");
           ("value", PStr "auditor")] in
  let malformed := PDict [("operator", PStr "eq"); ("value", PInt 1)] in
  let conditions := [("all", PList [fine; malformed]); ("any", PList [])] in
  let p := policy 1 "auditors" PolicyEffect.allow 10 "read" "invoice"
             (Some conditions) in
  let user_attrs := _get_user_attributes empty_session (subject 5 "user") in
  _evaluate_condition (rt := no_builtins) malformed user_attrs [] []
  = Raise AttributeError
  /\ _evaluate_policy (rt := no_builtins) p user_attrs [] [] = Ok false.
Proof.
  intros fine malformed conditions p user_attrs. split; [reflexivity|].
  refine (proj2 (proj1 (@condition_groups no_builtins user_attrs [] [] p conditions
                          eq_refl) [fine; malformed] eq_refl)
                [] fine [malformed] eq_refl _ eq_refl).
  constructor.
Defined.

End ConditionGroupsWitness.

Section Dicts.

Lemma dict_get_set d k v k' :
  dict_get (dict_set d k v) k'
  = if String.eqb k k' then Some v else dict_get d k'.
Proof.
  induction d as [|[k0 v0] d IH]; simpl.
  - reflexivity.
  - destruct (String.eqb k0 k) eqn:E0; simpl.
    + apply String.eqb_eq in E0. subst k0.
      destruct (String.eqb k k'); reflexivity.
    + rewrite IH. destruct (String.eqb k0 k') eqn:E1; [|reflexivity].
      apply String.eqb_eq in E1. subst k0. rewrite String.eqb_sym, E0.
      reflexivity.
Qed.

Lemma dict_get_update_other e :
  forall d k, ~ In k (map fst e) -> dict_get (dict_update d e) k = dict_get d k.
Proof.
  unfold dict_update.
  induction e as [|[k0 v0] e IH]; intros d k Hk; simpl.
  - reflexivity.
  - simpl in Hk. rewrite IH by tauto. rewrite dict_get_set.
    destruct (String.eqb k0 k) eqn:E; [|reflexivity].
    apply String.eqb_eq in E. tauto.
Qed.

Lemma dict_get_In (e : pydict) k v : dict_get e k = Some v -> In k (map fst e).
Proof.
  induction e as [|[k0 v0] e IH]; simpl; [discriminate|].
  destruct (String.eqb k0 k) eqn:E.
  - apply String.eqb_eq in E. auto.
  - auto.
Qed.

(** [d.update(e)] gives the keys of [e] their values in [e]. *)
Lemma dict_get_update e :
  forall d k v,
    NoDup (map fst e) -> dict_get e k = Some v ->
    dict_get (dict_update d e) k = Some v.
Proof.
  induction e as [|[k0 v0] e IH]; intros d k v Hnd Hk; simpl in *.
  - discriminate.
  - inv Hnd. destruct (String.eqb k0 k) eqn:E.
    + apply String.eqb_eq in E. subst k0. inv Hk.
      change (dict_get (dict_update (dict_set d k v) e) k = Some v).
      rewrite dict_get_update_other by assumption.
      rewrite dict_get_set, String.eqb_refl. reflexivity.
    + apply (IH (dict_set d k0 v0)); assumption.
Qed.

End Dicts.

Section CustomAttributes.

Import ABACService.
Context {rt : Builtins}.

(** X8.  The custom attributes of the profile are merged last into the
    subject's bag: a key of [custom_attributes] other than [roles] shadows
    the attribute of that name, the account's [role], [id] and
    [is_superuser] included, and a condition on [user.role] reads the
    custom value.  [roles] is always the list of the names of the account's
    roles. *)
Theorem custom_attributes_shadow_the_account
  (db : Session.t) (user : User.t) (ua : UserAttribute.t) (custom : pydict)
  (k : string) (v : pyval) :
  user_attribute db user = Some ua ->
  UserAttribute.custom_attributes ua = Some custom ->
  NoDup (map fst custom) ->
  dict_get custom k = Some v ->
  k <> "roles" ->
  dict_get (_get_user_attributes db user) k = Some v
  /\ (k = "role" ->
      forall resource_attrs env_attrs,
        _get_attribute_value (PStr "user.role") (_get_user_attributes db user)
          resource_attrs env_attrs = Ok v)
  /\ dict_get (_get_user_attributes db user) "roles"
     = Some (PList (map (fun r => PStr (Role.name r)) (User.roles user))).
Proof.
  intros Hua Hcustom Hnd Hk Hroles.
  assert (Hbag : dict_get (_get_user_attributes db user) k = Some v).
  { unfold _get_user_attributes. rewrite Hua, Hcustom.
    rewrite dict_get_set.
    destruct (String.eqb "roles" k) eqn:E;
      [apply String.eqb_eq in E; congruence|].
    destruct custom as [|kv custom']; [discriminate|].
    apply dict_get_update; assumption. }
  split; [exact Hbag|]. split.
  - intros -> resource_attrs env_attrs.
    revert Hbag. generalize (_get_user_attributes db user). intros bag Hbag.
    unfold _get_attribute_value. simpl. unfold get, get_or. rewrite Hbag.
    destruct v; reflexivity.
  - unfold _get_user_attributes. rewrite dict_get_set. reflexivity.
Qed.

End CustomAttributes.

Section CustomAttributesWitness.

Import ABACService Examples MoreExamples.

(** A profile whose custom attributes say [role: admin] makes an ordinary
    account read as an admin in the conditions. *)
Lemma custom_attributes_shadow_the_account_witness :
  let db := session_with [] [profile 5 [("role", PStr "admin")]] [] in
  let user := subject 5 "user" in
  User.role user = "user"
  /\ dict_get (_get_user_attributes db user) "role" = Some (PStr "admin")
  /\ _get_attribute_value (rt := no_builtins) (PStr "user.role")
       (_get_user_attributes db user) [] [] = Ok (PStr "admin").
Proof.
  intros db user. split; [reflexivity|].
  destruct (@custom_attributes_shadow_the_account no_builtins db user
              (profile 5 [("role", PStr "admin")]) [("role", PStr "admin")]
              "role" (PStr "admin") eq_refl eq_refl)
    as (Hbag & Hpath & _).
  - repeat constructor. simpl. tauto.
  - reflexivity.
  - discriminate.
  - split; [exact Hbag|]. apply Hpath. reflexivity.
Defined.

End CustomAttributesWitness.

Section DynamicAttributes.

Import ABACService.
Context {rt : Builtins}.

Lemma parse_attribute_value_raises value value_type e :
  _parse_attribute_value value value_type = Raise e ->
  e = TypeError \/ e = AttributeError.
Proof.
  unfold _parse_attribute_value. intros H.
  repeat (break_hyp H; try discriminate); inv H; auto.
Qed.

Lemma parse_attribute_value_null value_type :
  In value_type ["number"; "boolean"; "json"] ->
  exists e, _parse_attribute_value None value_type = Raise e.
Proof.
  simpl. intros [<-|[<-|[<-|[]]]]; eexists; reflexivity.
Qed.

Lemma load_attributes_raised rows e :
  fold_left
    (fun acc attr =>
       attrs <- acc ;;
       v <- _parse_attribute_value (ResourceAttribute.attribute_value attr)
                                   (ResourceAttribute.attribute_type attr) ;;
       Ok (dict_set attrs (ResourceAttribute.attribute_name attr) v))
    rows (Raise e) = Raise e.
Proof. induction rows; simpl; auto. Qed.

Lemma load_attributes_null rows attr :
  In attr rows ->
  ResourceAttribute.attribute_value attr = None ->
  In (ResourceAttribute.attribute_type attr) ["number"; "boolean"; "json"] ->
  forall attrs,
  exists e,
    fold_left
      (fun acc attr =>
         attrs <- acc ;;
         v <- _parse_attribute_value (ResourceAttribute.attribute_value attr)
                                     (ResourceAttribute.attribute_type attr) ;;
         Ok (dict_set attrs (ResourceAttribute.attribute_name attr) v))
      rows (Ok attrs) = Raise e
    /\ (e = TypeError \/ e = AttributeError).
Proof.
  intros Hin Hnull Htype.
  induction rows as [|row rows IH]; intros attrs; simpl; [destruct Hin|].
  destruct (_parse_attribute_value (ResourceAttribute.attribute_value row)
              (ResourceAttribute.attribute_type row)) as [v|e] eqn:Ev; simpl.
  - destruct Hin as [->|Hin].
    + rewrite Hnull in Ev.
      destruct (@parse_attribute_value_null _ Htype) as [e He]. congruence.
    + apply IH. exact Hin.
  - exists e. split; [apply load_attributes_raised|].
    eapply parse_attribute_value_raises. exact Ev.
Qed.

(** X9.  A dynamic attribute row of the resource whose value is NULL and
    whose type is number, boolean or json makes every access check on that
    resource raise a TypeError or an AttributeError: no decision is
    returned, whoever asks and whatever the action and the policies. *)
Theorem null_dynamic_attribute_breaks_the_check
  (db : Session.t) (user : User.t) (action resource_type : string)
  (resource_id : Z) (resource_obj context : option pydict)
  (now : Clock.t) (evaluation_time_ms : Z) (attr : ResourceAttribute.t) :
  In attr (Session.resource_attributes db) ->
  ResourceAttribute.resource_type attr = resource_type ->
  ResourceAttribute.resource_id attr = resource_id ->
  resource_id <> 0 ->
  ResourceAttribute.attribute_value attr = None ->
  In (ResourceAttribute.attribute_type attr) ["number"; "boolean"; "json"] ->
  exists e,
    check_access db user action resource_type (Some resource_id) resource_obj
      context now evaluation_time_ms = Raise e
    /\ (e = TypeError \/ e = AttributeError).
Proof.
  intros Hin Htype Hid Hnz Hnull Hkind.
  unfold check_access, _get_resource_attributes.
  destruct (resource_id =? 0) eqn:E; [apply Z.eqb_eq in E; congruence|].
  match goal with
  | |- context [fold_left ?f ?rows (Ok ?a)] =>
      assert (Hrow : In attr rows)
        by (apply filter_In; split; [exact Hin|];
            rewrite Htype, Hid, String.eqb_refl, Z.eqb_refl; reflexivity);
      destruct (@load_attributes_null rows attr Hrow Hnull Hkind a)
        as (e & He & Hkinds)
  end.
  exists e. rewrite He. auto.
Qed.

End DynamicAttributes.

Section DynamicAttributesWitness.

Import ABACService Examples MoreExamples.

Lemma null_dynamic_attribute_breaks_the_check_witness :
  let db := session_with [allow_approve] [] [risk_score_null] in
  check_access (rt := no_builtins) db (subject 5 "user") "approve" "Invoice"
    (Some 7) None None noon 3 = Raise TypeError.
Proof.
  intros db.
  destruct (@null_dynamic_attribute_breaks_the_check no_builtins db
              (subject 5 "user") "approve" "Invoice" 7 None None noon 3
              risk_score_null (or_introl eq_refl) eq_refl eq_refl
              ltac:(discriminate) eq_refl (or_introl eq_refl))
    as (e & He & [-> | ->]).
  - exact He.
  - vm_compute in He. discriminate.
Defined.

End DynamicAttributesWitness.

(* ================================================================== *)
(** * The dependencies of app/core/deps.py                             *)
(* ================================================================== *)

Section NoHTTPFromTheEngine.

Import ABACService.
Context {rt : Builtins}.

(** [str()] of a number or a container raises no HTTPException. *)
Hypothesis builtin_str_no_http : forall v, no_http (builtin_str v).

Lemma no_http_py_float v : no_http (py_float v).
Proof.
  intros e H. unfold py_float in H.
  repeat break_hyp H; inv H; reflexivity.
Qed.

Lemma no_http_py_str v : no_http (py_str v).
Proof.
  intros e H. unfold py_str in H.
  repeat break_hyp H; try (inv H; reflexivity);
    eapply builtin_str_no_http; exact H.
Qed.

Lemma no_http_except_VTA {A} (c : pyres A) d : no_http c -> no_http (except_VTA c d).
Proof.
  intros Hc e H. destruct c as [a|e']; [discriminate|].
  destruct e'; inv H; try reflexivity. apply (Hc _ eq_refl).
Qed.

Lemma no_http_py_all {A} (f : A -> pyres bool) l :
  (forall x, no_http (f x)) -> no_http (py_all f l).
Proof.
  intros Hf. induction l as [|x l IH]; simpl.
  - apply no_http_Ok.
  - apply no_http_bind; [apply Hf|]. intros [|]; [exact IH|apply no_http_Ok].
Qed.

Lemma no_http_py_any {A} (f : A -> pyres bool) l :
  (forall x, no_http (f x)) -> no_http (py_any f l).
Proof.
  intros Hf. induction l as [|x l IH]; simpl.
  - apply no_http_Ok.
  - apply no_http_bind; [apply Hf|]. intros [|]; [apply no_http_Ok|exact IH].
Qed.

Create HintDb engine.

#[local] Hint Resolve no_http_Ok no_http_py_get_or no_http_py_get no_http_py_iter
  no_http_py_float no_http_py_str : engine.

Lemma no_http_apply_operator operator actual expected :
  no_http (_apply_operator operator actual expected).
Proof.
  unfold _apply_operator. apply no_http_except_VTA.
  repeat match goal with
         | |- no_http (if ?b then _ else _) => destruct b
         | |- no_http (match ?x with _ => _ end) => destruct x
         | |- no_http (Py.bind _ _) =>
             apply no_http_bind; [solve [auto with engine]|intros ?]
         end;
    auto with engine.
Qed.

Lemma no_http_get_attribute_value path user_attrs resource_attrs env_attrs :
  no_http (_get_attribute_value path user_attrs resource_attrs env_attrs).
Proof.
  intros e H. unfold _get_attribute_value in H.
  repeat break_hyp H; inv H; reflexivity.
Qed.

Lemma no_http_evaluate_condition condition user_attrs resource_attrs env_attrs :
  no_http (_evaluate_condition condition user_attrs resource_attrs env_attrs).
Proof.
  unfold _evaluate_condition.
  apply no_http_bind; [auto with engine|intros attribute_path].
  apply no_http_bind; [auto with engine|intros operator].
  apply no_http_bind; [auto with engine|intros expected].
  apply no_http_bind; [apply no_http_get_attribute_value|intros actual].
  apply no_http_bind; [|intros expected'; apply no_http_apply_operator].
  destruct expected; auto with engine.
  destruct (startswith s "{{"); auto with engine.
  unfold _resolve_reference. destruct (re_match s); auto with engine.
  apply no_http_get_attribute_value.
Qed.

Lemma no_http_evaluate_policy policy user_attrs resource_attrs env_attrs :
  no_http (_evaluate_policy policy user_attrs resource_attrs env_attrs).
Proof.
  unfold _evaluate_policy.
  destruct (ABACPolicy.conditions policy) as [[|kv conditions]|];
    auto using no_http_Ok.
  repeat match goal with
         | |- no_http (if ?b then _ else _) => destruct b
         end;
    try apply no_http_Ok;
    (apply no_http_bind; [auto with engine|intros conds]).
  - apply no_http_py_all. intros; apply no_http_evaluate_condition.
  - apply no_http_py_any. intros; apply no_http_evaluate_condition.
  - apply no_http_bind; [|intros; apply no_http_Ok].
    apply no_http_py_any. intros; apply no_http_evaluate_condition.
Qed.

Lemma no_http_evaluate user_attrs resource_attrs env_attrs policies :
  forall v, no_http (evaluate user_attrs resource_attrs env_attrs policies v).
Proof.
  induction policies as [|p policies IH]; intros v; simpl.
  - apply no_http_Ok.
  - apply no_http_bind; [apply no_http_evaluate_policy|].
    intros [|]; [|apply IH].
    destruct (ABACPolicy.effect p); [apply IH|apply no_http_Ok].
Qed.

Lemma no_http_get_resource_attributes db resource_type resource_id resource_obj :
  no_http (_get_resource_attributes db resource_type resource_id resource_obj).
Proof.
  unfold _get_resource_attributes.
  destruct resource_id as [rid|]; [|apply no_http_Ok].
  destruct (rid =? 0); [apply no_http_Ok|].
  match goal with
  | |- no_http (fold_left ?f ?rows (Ok ?a)) =>
      generalize a; generalize rows
  end.
  intros rows. induction rows as [|row rows IH]; intros attrs; simpl.
  - apply no_http_Ok.
  - destruct (_parse_attribute_value (ResourceAttribute.attribute_value row)
                (ResourceAttribute.attribute_type row)) as [v|e] eqn:Ev; simpl.
    + apply IH.
    + rewrite load_attributes_raised. intros e' He'. inv He'.
      apply parse_attribute_value_raises in Ev. destruct Ev as [-> | ->]; reflexivity.
Qed.

(** The decision engine raises no HTTPException of its own. *)
Lemma no_http_check_access db user action resource_type resource_id resource_obj
  context now evaluation_time_ms :
  no_http (check_access db user action resource_type resource_id resource_obj
             context now evaluation_time_ms).
Proof.
  unfold check_access.
  apply no_http_bind; [apply no_http_get_resource_attributes|intros resource_attrs].
  apply no_http_bind; [apply no_http_evaluate|intros v].
  apply no_http_Ok.
Qed.

End NoHTTPFromTheEngine.

Section LoggedDecision.

Import ABACService.
Context {rt : Builtins}.

(** The word in the log row agrees with the answer. *)
Lemma check_access_logged db user action resource_type resource_id resource_obj
  context now evaluation_time_ms allowed reason matched db' :
  check_access db user action resource_type resource_id resource_obj context
    now evaluation_time_ms = Ok ((allowed, reason, matched), db') ->
  exists log,
    Session.abac_access_logs db' = Session.abac_access_logs db ++ [log]
    /\ ABACAccessLog.decision log = (if allowed then "allow" else "deny")
    /\ ABACAccessLog.reason log = reason.
Proof.
  intros H. apply check_access_inv in H.
  destruct H as (resource_attrs & v & Hres & Hv & -> & -> & -> & ->).
  eexists. split; [reflexivity|]. simpl. split; [|reflexivity].
  apply evaluate_trace in Hv.
  destruct Hv as (done & rest & _ & _ & _ & Hcase).
  destruct Hcase as [(_ & _ & Hlast)|(pre & q & _ & _ & _ & _ & _ & Hd & _)].
  - destruct (last_matching _ _ _ done).
    + destruct Hlast as (_ & -> & _). reflexivity.
    + destruct Hlast as (_ & -> & _). reflexivity.
  - rewrite Hd. reflexivity.
Qed.

End LoggedDecision.

Section Checker.

Import ABACService Deps.
Context {rt : Builtins}.

Variables (db : Session.t) (user : User.t) (action resource_type : string)
  (resource_id : option Z) (resource_obj : option pydict)
  (now : Clock.t) (evaluation_time_ms : Z).

(** X10.  [ABACChecker.require]: it returns only behind a logged allow; an
    HTTPException that it raises is the 403 whose detail is "Access denied: "
    and the reason of a deny that the access log holds; any other exception
    is the one [check_access] raised, and nothing was logged. *)
Theorem require_is_backed_by_the_log :
  (forall v, no_http (builtin_str v)) ->
  let outcome :=
    require db user action resource_type resource_id resource_obj
      now evaluation_time_ms in
  (snd outcome = Ok tt ->
   exists log,
     Session.abac_access_logs (fst outcome) = Session.abac_access_logs db ++ [log]
     /\ ABACAccessLog.decision log = "allow")
  /\
  (forall status_code detail,
      snd outcome = Raise (HTTPException status_code detail) ->
      status_code = 403
      /\ exists log,
           Session.abac_access_logs (fst outcome)
           = Session.abac_access_logs db ++ [log]
           /\ ABACAccessLog.decision log = "deny"
           /\ detail = ("Access denied: " ++ ABACAccessLog.reason log)%string)
  /\
  (forall e,
      snd outcome = Raise e -> is_http e = false ->
      fst outcome = db
      /\ check_access db user action resource_type resource_id resource_obj None
           now evaluation_time_ms = Raise e).
Proof.
  intros Hstr outcome. unfold outcome, require, check.
  destruct (check_access db user action resource_type resource_id resource_obj None
              now evaluation_time_ms) as [[[[allowed reason] matched] db']|e] eqn:E;
    simpl.
  - apply check_access_logged in E. destruct E as (log & Hlog & Hd & Hr).
    destruct allowed; simpl.
    + split; [intros _; exists log; auto|]. split; discriminate.
    + split; [discriminate|]. split.
      * intros status_code detail H. inv H. split; [reflexivity|].
        exists log. auto.
      * intros e H. inv H. discriminate.
  - split; [discriminate|]. split.
    + intros status_code detail H. inv H.
      apply (no_http_check_access Hstr) in E. discriminate.
    + intros e' H. inv H. auto.
Qed.

End Checker.

Section CheckerWitness.

Import ABACService Deps Examples.

(** With no policy at all the admin is refused, and the refusal is in the
    log. *)
Lemma require_is_backed_by_the_log_witness :
  let outcome :=
    require (rt := no_builtins) empty_session (subject 1 "admin") "read" "invoice"
      None None noon 0 in
  snd outcome
  = Raise (HTTPException 403 "Access denied: No matching policy found")
  /\ exists log,
       Session.abac_access_logs (fst outcome) = [log]
       /\ ABACAccessLog.decision log = "deny".
Proof.
  intros outcome.
  assert (H : snd outcome
              = Raise (HTTPException 403 "Access denied: No matching policy found"))
    by reflexivity.
  split; [exact H|].
  destruct (@require_is_backed_by_the_log no_builtins empty_session
              (subject 1 "admin") "read" "invoice" None None noon 0)
    as (_ & Hrefused & _).
  - intros v e He. inv He. reflexivity.
  - destruct (Hrefused _ _ H) as (_ & log & Hlog & Hd & _).
    exists log. auto.
Defined.

End CheckerWitness.

Section Hybrid.

Import ABACService Deps.
Context {rt : Builtins}.

Variables (roles permissions : option (list string)) (require_all : bool)
  (request : Request.t) (db : Session.t) (user : User.t)
  (now : Clock.t) (evaluation_time_ms : Z).

(** The dependency with both ABAC arguments given: the check runs first,
    whatever the roles say. *)
Lemma hybrid_with_abac action resource_type :
  action <> "" -> resource_type <> "" ->
  require_hybrid_auth roles permissions (Some action) (Some resource_type)
    require_all request db user now evaluation_time_ms
  = match check_access db user action resource_type None None
            (Some (request_context request)) now evaluation_time_ms with
    | Raise e => (db, Raise e)
    | Ok ((allowed, _, _), db') =>
        let rbac_passed :=
          match roles with
          | Some ((_ :: _) as required) =>
              existsb (fun role => existsb (String.eqb role) (user_roles user))
                      required
          | _ => false
          end in
        let authorized :=
          if require_all then
            if given_list roles || given_list permissions
            then rbac_passed && allowed else allowed
          else rbac_passed || allowed in
        (db', if authorized then Ok true
              else Raise (HTTPException 403
                            "Access denied: Insufficient permissions"))
    end.
Proof.
  intros Ha Hr. unfold require_hybrid_auth, given_str.
  apply String.eqb_neq in Ha, Hr. rewrite Ha, Hr. simpl.
  destruct (check_access db user action resource_type None None
              (Some (request_context request)) now evaluation_time_ms)
    as [[[[allowed reason] matched] db']|e]; simpl; [|reflexivity].
  destruct roles as [[|r required]|]; destruct permissions as [[|p ps]|];
    destruct require_all, allowed; simpl;
    try reflexivity;
    match goal with
    | |- context [existsb ?f ?l || ?x] => destruct (existsb f l || x)
    end; reflexivity.
Qed.

(** X11.  The hybrid gate with roles and ABAC arguments.  The ABAC check
    runs, and its decision is logged, whether or not the subject holds one
    of the roles.  With [require_all] the gate opens only for a holder of one
    of the roles whose check was allowed; without it, for a holder of one of
    the roles or an allowed check.  The only HTTPException is the 403
    "Access denied: Insufficient permissions". *)
Theorem hybrid_gate (required : list string) (action resource_type : string) :
  (forall v, no_http (builtin_str v)) ->
  roles = Some required -> required <> [] ->
  action <> "" -> resource_type <> "" ->
  let holds_role :=
    existsb (fun role => existsb (String.eqb role) (user_roles user)) required in
  let outcome :=
    require_hybrid_auth roles permissions (Some action) (Some resource_type)
      require_all request db user now evaluation_time_ms in
  (forall b, snd outcome = Ok b ->
     b = true
     /\ exists log,
          Session.abac_access_logs (fst outcome)
          = Session.abac_access_logs db ++ [log]
          /\ (if require_all
              then holds_role = true /\ ABACAccessLog.decision log = "allow"
              else holds_role = true \/ ABACAccessLog.decision log = "allow"))
  /\
  (forall status_code detail,
      snd outcome = Raise (HTTPException status_code detail) ->
      status_code = 403
      /\ detail = "Access denied: Insufficient permissions"
      /\ exists log,
           Session.abac_access_logs (fst outcome)
           = Session.abac_access_logs db ++ [log]
           /\ (if require_all
               then holds_role = false \/ ABACAccessLog.decision log = "deny"
               else holds_role = false /\ ABACAccessLog.decision log = "deny")).
Proof.
  intros Hstr Hroles Hne Ha Hr holds_role outcome.
  unfold outcome. rewrite hybrid_with_abac by assumption.
  destruct (check_access db user action resource_type None None
              (Some (request_context request)) now evaluation_time_ms)
    as [[[[allowed reason] matched] db']|e] eqn:E.
  2:{ split; [discriminate|]. intros status_code detail H. simpl in H. inv H.
      apply (no_http_check_access Hstr) in E. discriminate. }
  apply check_access_logged in E. destruct E as (log & Hlog & Hd & _).
  rewrite Hroles. destruct required as [|r required]; [congruence|].
  fold holds_role. simpl fst. simpl snd. cbv zeta.
  replace (given_list (Some (r :: required)) || given_list permissions)
    with true by reflexivity.
  destruct require_all, holds_role, allowed; simpl; split;
    try discriminate;
    try (intros b H; inv H; split; [reflexivity|]; exists log; auto);
    try (intros status_code detail H; inv H; split; [reflexivity|];
         split; [reflexivity|]; exists log; auto).
Qed.

(** X12.  The permissions of the hybrid gate are not checked.  Beside
    roles they change nothing.  Without roles, under [require_all], giving
    permissions closes the gate for everyone: the dependency never returns,
    even when the ABAC check allows. *)
Theorem hybrid_permissions_are_not_checked
  (abac_action abac_resource_type : option string) :
  (given_list roles = true ->
   require_hybrid_auth roles permissions abac_action abac_resource_type
     require_all request db user now evaluation_time_ms
   = require_hybrid_auth roles None abac_action abac_resource_type
       require_all request db user now evaluation_time_ms)
  /\
  (given_list roles = false -> given_list permissions = true ->
   require_all = true ->
   forall b,
     snd (require_hybrid_auth roles permissions abac_action abac_resource_type
            require_all request db user now evaluation_time_ms) <> Ok b).
Proof.
  split.
  - intros Hroles. unfold require_hybrid_auth. rewrite Hroles. reflexivity.
  - intros Hroles Hperms -> b. unfold require_hybrid_auth.
    rewrite Hroles, Hperms.
    assert (Hrbac : match roles with
                    | Some ((_ :: _) as required) =>
                        existsb (fun role =>
                                   existsb (String.eqb role) (user_roles user))
                                required
                    | _ => false
                    end = false).
    { destruct roles as [[|r required]|]; try reflexivity. discriminate. }
    simpl orb. cbv iota. rewrite Hrbac.
    destruct abac_action as [action|], abac_resource_type as [resource_type|];
      simpl; try discriminate;
      try (destruct (negb (action =? "")%string); simpl; discriminate).
    destruct (negb (action =? "")%string && negb (resource_type =? "")%string);
      simpl; try discriminate.
    destruct (check_access db user action resource_type None None
                (Some (request_context request)) now evaluation_time_ms)
      as [[[[allowed reason] matched] db']|e]; simpl; discriminate.
Qed.

End Hybrid.

Section HybridWitness.

Import ABACService Deps Examples MoreExamples.

(** A gate for admins with a check of "read invoice": subject 5 is no
    admin and is refused, yet the check has run and is logged. *)
Lemma hybrid_gate_witness :
  let db := with_policies [allow_high; allow_low] in
  let outcome :=
    require_hybrid_auth (rt := no_builtins) (Some ["admin"; "security_admin"]) None
      (Some "read") (Some "invoice") true list_policies_request db
      (subject 5 "user") noon 0 in
  snd outcome
  = Raise (HTTPException 403 "Access denied: Insufficient permissions")
  /\ exists log, Session.abac_access_logs (fst outcome) = [log].
Proof.
  intros db outcome.
  assert (H : snd outcome
              = Raise (HTTPException 403 "Access denied: Insufficient permissions"))
    by reflexivity.
  split; [exact H|].
  destruct (@hybrid_gate no_builtins (Some ["admin"; "security_admin"]) None true
              list_policies_request db (subject 5 "user") noon 0
              ["admin"; "security_admin"] "read" "invoice")
    as (_ & Hrefused); try discriminate; try reflexivity.
  - intros v e He. inv He. reflexivity.
  - destruct (Hrefused _ _ H) as (_ & _ & log & Hlog & _).
    exists log. exact Hlog.
Defined.

(** A gate that names a permission and the check "read invoice": the check
    allows subject 5, and the gate stays closed. *)
Lemma hybrid_permissions_are_not_checked_witness :
  let db := with_policies [allow_high; allow_low] in
  let user := subject 5 "user" in
  (exists reason matched db',
      check_access (rt := no_builtins) db user "read" "invoice" None None
        (Some (request_context list_policies_request)) noon 0
      = Ok ((true, reason, matched), db'))
  /\ forall b,
       snd (require_hybrid_auth (rt := no_builtins) None (Some ["invoice:read"])
              (Some "read") (Some "invoice") true list_policies_request db user
              noon 0) <> Ok b.
Proof.
  intros db user. split.
  - eexists. eexists. eexists. vm_compute. reflexivity.
  - apply (proj2 (@hybrid_permissions_are_not_checked no_builtins None
                    (Some ["invoice:read"]) true list_policies_request db user
                    noon 0 (Some "read") (Some "invoice")));
      reflexivity.
Defined.

End HybridWitness.

(* ================================================================== *)
(** * Further properties of the visual workflow service                *)
(* ================================================================== *)

Section CompilerErrors.

Import VisualWorkflowService.

Lemma no_http_node_map_get m k : no_http (node_map_get m k).
Proof.
  intros e H. unfold node_map_get in H. destruct (hashable k); inv H. reflexivity.
Qed.

Lemma no_http_connect_stages edges m :
  forall db, no_http (connect_stages edges m db).
Proof.
  induction edges as [|edge edges IH]; intros db; simpl.
  - apply no_http_Ok.
  - apply no_http_bind; [apply no_http_py_getitem|intros source_id].
    apply no_http_bind; [apply no_http_py_getitem|intros target_id].
    apply no_http_bind; [apply no_http_py_get_or|intros edge_data].
    apply no_http_bind; [apply no_http_node_map_get|intros source_stage].
    apply no_http_bind; [apply no_http_node_map_get|intros target_stage].
    destruct source_stage as [source|]; [|apply IH].
    destruct target_stage as [target|]; [|apply IH].
    apply no_http_bind; [apply no_http_py_get|intros condition].
    destruct (truthy condition); [|apply IH].
    repeat (apply no_http_bind;
            [first [apply no_http_py_get|apply no_http_py_get_or]|intros ?]).
    apply IH.
Qed.

Lemma no_http_sync db workflow graph_data :
  no_http (_sync_stages_from_graph db workflow graph_data).
Proof.
  unfold _sync_stages_from_graph.
  apply no_http_bind; [apply no_http_py_iter|intros nodes].
  apply no_http_bind; [apply no_http_create_stages|intros [db1 m]].
  apply no_http_bind; [apply no_http_py_iter|intros edges].
  apply no_http_connect_stages.
Qed.

Lemma no_http_flush_routes pending :
  forall rows seq, no_http (flush_routes pending rows seq).
Proof.
  induction pending as [|r pending IH]; intros rows seq; simpl.
  - apply no_http_Ok.
  - intros e H. repeat break_hyp H; try (inv H; reflexivity);
      eapply IH; exact H.
Qed.

Lemma no_http_commit db : no_http (commit db).
Proof.
  unfold commit.
  apply no_http_bind; [apply no_http_flush_routes|intros [rows seq]].
  apply no_http_Ok.
Qed.

Lemma validate_graph_http graph_data e :
  _validate_graph graph_data = Raise e -> is_http e = true ->
  exists detail, e = HTTPException 400 detail.
Proof.
  unfold _validate_graph. intros He Hhttp.
  destruct (negb (dict_has graph_data "nodes") || negb (dict_has graph_data "edges"));
    [inv He; eauto|].
  destruct (negb (truthy (get graph_data "nodes"))); [inv He; eauto|].
  destruct (py_iter (get graph_data "nodes")) as [items|e1] eqn:Ei; simpl in He.
  2:{ inv He. apply no_http_py_iter in Ei. congruence. }
  destruct (py_any (fun n => t <- py_get n "type" ;; Ok (py_eq t (PStr "start")))
                   items) as [b|e1] eqn:Ea; simpl in He.
  - destruct b; simpl in He; inv He. eauto.
  - inv He. exfalso.
    assert (Hany : forall l, no_http
              (py_any (fun n => t <- py_get n "type" ;; Ok (py_eq t (PStr "start"))) l)).
    { induction l as [|x l IH]; simpl; [apply no_http_Ok|].
      apply no_http_bind.
      - apply no_http_bind; [apply no_http_py_get|intros; apply no_http_Ok].
      - intros [|]; [apply no_http_Ok|exact IH]. }
    apply Hany in Ea. congruence.
Qed.

(** An HTTPException of the save is a 400 of the validation, the 404 of a
    missing definition or the 403 of the edit check. *)
Lemma save_raises_http db workflow_id graph_data user description now e :
  save_workflow_graph db workflow_id graph_data user description now = Raise e ->
  is_http e = true ->
  (_validate_graph graph_data = Raise e
   /\ exists detail, e = HTTPException 400 detail)
  \/
  (_validate_graph graph_data = Ok tt
   /\ exists wid,
        given workflow_id = Some wid
        /\ match definition_by_id db wid with
           | None => e = HTTPException 404 "Workflow not found"
           | Some workflow =>
               _can_edit user workflow = false
               /\ e = HTTPException 403 "No permission to edit workflow"
           end).
Proof.
  intros He Hhttp. unfold save_workflow_graph in He.
  destruct (_validate_graph graph_data) as [[]|e0] eqn:Hv; simpl in He.
  2:{ inv He. left. split; [reflexivity|].
      eapply validate_graph_http; eassumption. }
  right. split; [reflexivity|].
  destruct (given workflow_id) as [wid|] eqn:Hg.
  - exists wid. split; [reflexivity|].
    destruct (definition_by_id db wid) as [workflow|] eqn:Hd.
    + destruct (_can_edit user workflow) eqn:Hc; simpl in He.
      * exfalso.
        apply bind_Raise in He. destruct He as [He|(db2 & _ & He)].
        -- apply no_http_sync in He. congruence.
        -- apply bind_Raise in He. destruct He as [He|(db3 & _ & He)].
           ++ apply no_http_commit in He. congruence.
           ++ discriminate.
      * inv He. auto.
    + simpl in He. congruence.
  - exfalso.
    apply bind_Raise in He. destruct He as [He|([w db1] & _ & He)].
    + apply no_http_add_definition in He. congruence.
    + apply bind_Raise in He. destruct He as [He|(db2 & _ & He)].
      * apply no_http_sync in He. congruence.
      * apply bind_Raise in He. destruct He as [He|(db3 & _ & He)].
        -- apply no_http_commit in He. congruence.
        -- discriminate.
Qed.

(** X13.  The HTTP errors of [save_workflow_graph], in their order.  A
    graph that fails the validation fails the save in the same way, whatever
    the workflow id and the subject (the HTTP errors of the validation are
    400s); then 404 when a workflow id is given and no such definition
    exists; then 403 when the subject may not edit it.  Nothing else that
    the save raises is an HTTPException: a failure of the stage compiler or
    of the commit is not turned into one. *)
Theorem save_http_errors
  (db : Session.t) (workflow_id : option Z) (graph_data : pydict) (user : User.t)
  (description : option string) (now : datetime) :
  let save := save_workflow_graph db workflow_id graph_data user description now in
  (forall e, _validate_graph graph_data = Raise e -> save = Raise e)
  /\
  (_validate_graph graph_data = Ok tt ->
   (forall wid,
       given workflow_id = Some wid -> definition_by_id db wid = None ->
       save = Raise (HTTPException 404 "Workflow not found"))
   /\
   (forall wid workflow,
       given workflow_id = Some wid -> definition_by_id db wid = Some workflow ->
       _can_edit user workflow = false ->
       save = Raise (HTTPException 403 "No permission to edit workflow")))
  /\
  (forall e,
      save = Raise e -> is_http e = true ->
      (_validate_graph graph_data = Raise e
       /\ exists detail, e = HTTPException 400 detail)
      \/
      (_validate_graph graph_data = Ok tt
       /\ exists wid,
            given workflow_id = Some wid
            /\ match definition_by_id db wid with
               | None => e = HTTPException 404 "Workflow not found"
               | Some workflow =>
                   _can_edit user workflow = false
                   /\ e = HTTPException 403 "No permission to edit workflow"
               end)).
Proof.
  intros save. split; [intros e He; apply save_validation_fails; exact He|].
  split.
  - intros Hv. unfold save, save_workflow_graph. rewrite Hv. simpl. split.
    + intros wid -> ->. reflexivity.
    + intros wid workflow -> -> ->. reflexivity.
  - intros e He Hhttp. eapply save_raises_http; eassumption.
Qed.

End CompilerErrors.

Section CompilerErrorsWitness.

Import VisualWorkflowService Examples WorkflowExamples.

(** A stranger saving over workflow 1: an invalid graph is refused as
    invalid, a valid one as forbidden. *)
Lemma save_http_errors_witness :
  let stranger := subject 9 "user" in
  save_workflow_graph with_editable_workflow (Some 1) [] stranger None 100
  = Raise (HTTPException 400 "Invalid graph: must contain 'nodes' and 'edges'")
  /\ save_workflow_graph with_editable_workflow (Some 1) graph_v1 stranger None 100
     = Raise (HTTPException 403 "No permission to edit workflow").
Proof.
  intros stranger.
  destruct (@save_http_errors with_editable_workflow (Some 1) [] stranger None 100)
    as (Hinvalid & _).
  destruct (@save_http_errors with_editable_workflow (Some 1) graph_v1 stranger
              None 100) as (_ & Hvalid & _).
  split.
  - apply Hinvalid. reflexivity.
  - apply (proj2 (Hvalid eq_refl) 1 editable_workflow); reflexivity.
Defined.

End CompilerErrorsWitness.

Section EditChecks.

Import WorkflowPermissions WorkflowPermissionsRest VisualWorkflowService.

(** X14.  The edit check of the service against the permission module:
    [_can_edit] admits whom [can_edit_workflow] admits and, besides, the
    creator of a workflow that is no longer a draft; it also admits whoever
    [can_publish_workflow] admits.  So the creator of a published workflow
    is never refused the save over it. *)
Theorem service_edit_check_admits_the_creator
  (user : User.t) (workflow : WorkflowDefinition.t) :
  _can_edit user workflow
  = can_edit_workflow user workflow
    || (WorkflowDefinition.created_by workflow =? User.id user)
  /\ (can_publish_workflow user workflow = true -> _can_edit user workflow = true)
  /\ (WorkflowDefinition.created_by workflow = User.id user ->
      forall db wid graph_data description now,
        definition_by_id db wid = Some workflow ->
        save_workflow_graph db (Some wid) graph_data user description now
        <> Raise (HTTPException 403 "No permission to edit workflow")).
Proof.
  split; [|split].
  - unfold _can_edit, can_edit_workflow.
    destruct (String.eqb (User.role user) "admin"); [reflexivity|].
    destruct (WorkflowDefinition.created_by workflow =? User.id user);
      simpl; [rewrite orb_true_r; reflexivity|].
    rewrite orb_false_r. reflexivity.
  - unfold _can_edit, can_publish_workflow.
    destruct (String.eqb (User.role user) "admin"); [reflexivity|].
    destruct (WorkflowDefinition.created_by workflow =? User.id user);
      [reflexivity|]. simpl. discriminate.
  - intros Hcreator db wid graph_data description now Hd Hsave.
    apply save_raises_http in Hsave; [|reflexivity].
    destruct Hsave as [(_ & detail & He)|(_ & wid' & Hg & Hcase)];
      [discriminate|].
    unfold given in Hg. destruct (wid =? 0); inv Hg.
    rewrite Hd in Hcase. destruct Hcase as [Hc _].
    unfold _can_edit in Hc. rewrite Hcreator, Z.eqb_refl in Hc.
    destruct (String.eqb (User.role user) "admin"); discriminate.
Qed.

End EditChecks.

Section EditChecksWitness.

Import WorkflowPermissions WorkflowPermissionsRest VisualWorkflowService.
Import Examples WorkflowExamples.

Lemma service_edit_check_admits_the_creator_witness :
  let creator := subject 1 "user" in
  WorkflowDefinition.created_by editable_workflow = User.id creator
  /\ definition_by_id with_editable_workflow 1 = Some editable_workflow
  /\ save_workflow_graph with_editable_workflow (Some 1) graph_v1 creator None 100
     <> Raise (HTTPException 403 "No permission to edit workflow").
Proof.
  intros creator. split; [reflexivity|]. split; [reflexivity|].
  apply (proj2 (proj2 (@service_edit_check_admits_the_creator creator
                         editable_workflow)) eq_refl with_editable_workflow 1).
  reflexivity.
Defined.

End EditChecksWitness.

Section ViewChecks.

Import WorkflowPermissionsRest VisualWorkflowService VisualWorkflowServiceRest.
Import WorkflowEndpoints.
Context {rt : Builtins}.

(** X15.  A non-empty [can_view_roles] list binds everyone but the admin,
    the creator included: a subject who holds none of the listed roles can
    neither read the workflow nor its versions nor clone it.  When that
    subject is the creator, the permission module's [can_view_workflow]
    says yes and the service still lets them edit. *)
Theorem view_list_excludes_the_creator
  (db : Session.t) (workflow_id : Z) (workflow : WorkflowDefinition.t)
  (user : User.t) (allowed : list string) (new_name : string) :
  definition_by_id db workflow_id = Some workflow ->
  User.role user <> "admin" ->
  WorkflowDefinition.can_view_roles workflow = Some allowed ->
  allowed <> [] ->
  any_role_in (user_roles user) allowed = false ->
  _can_view user workflow = false
  /\ get_workflow db workflow_id user
     = Raise (HTTPException 403 "No permission to view")
  /\ get_workflow_versions db workflow_id user
     = Raise (HTTPException 403 "No permission")
  /\ clone_workflow db workflow_id new_name user
     = Raise (HTTPException 403 "No permission to view workflow")
  /\ (WorkflowDefinition.created_by workflow = User.id user ->
      can_view_workflow user workflow = true
      /\ _can_edit user workflow = true).
Proof.
  intros Hd Hrole Hroles Hne Hnone.
  assert (Hview : _can_view user workflow = false).
  { unfold _can_view. apply String.eqb_neq in Hrole. rewrite Hrole, Hroles.
    destruct allowed; [congruence|exact Hnone]. }
  split; [exact Hview|].
  unfold get_workflow, get_workflow_versions, clone_workflow.
  rewrite Hd, Hview. simpl. repeat split.
  - unfold can_view_workflow. rewrite H, Z.eqb_refl.
    destruct (String.eqb (User.role user) "admin"); reflexivity.
  - unfold _can_edit. rewrite H, Z.eqb_refl.
    destruct (String.eqb (User.role user) "admin"); reflexivity.
Qed.

End ViewChecks.

Section Compilation.

Import VisualWorkflowService.

Lemma only_next_differs_refl s : only_next_differs s s.
Proof. unfold only_next_differs. destruct s; reflexivity. Qed.

Lemma only_next_differs_trans s1 s2 s3 :
  only_next_differs s1 s2 -> only_next_differs s2 s3 -> only_next_differs s1 s3.
Proof.
  unfold only_next_differs. intros H12 H23. rewrite H23. rewrite H12.
  destruct s1; reflexivity.
Qed.

Lemma only_next_differs_set s n :
  only_next_differs s (WorkflowStage.set_next_stage_id s n).
Proof. unfold only_next_differs. destruct s; reflexivity. Qed.

Lemma only_next_differs_fields s s' :
  only_next_differs s s' ->
  WorkflowStage.id s' = WorkflowStage.id s
  /\ WorkflowStage.workflow_id s' = WorkflowStage.workflow_id s
  /\ WorkflowStage.order_index s' = WorkflowStage.order_index s
  /\ WorkflowStage.node_id s' = WorkflowStage.node_id s.
Proof. unfold only_next_differs. intros ->. destruct s; simpl; auto. Qed.

Lemma Forall2_trans {A} (R : A -> A -> Prop) :
  (forall x y z, R x y -> R y z -> R x z) ->
  forall l1 l2 l3, Forall2 R l1 l2 -> Forall2 R l2 l3 -> Forall2 R l1 l3.
Proof.
  intros Htrans l1 l2 l3 H12. revert l3.
  induction H12; intros l3 H23; inv H23; constructor; eauto.
Qed.

Lemma Forall2_refl {A} (R : A -> A -> Prop) :
  (forall x, R x x) -> forall l, Forall2 R l l.
Proof. intros Hrefl l. induction l; constructor; auto. Qed.

Lemma Forall2_map_right {A} (R : A -> A -> Prop) (f : A -> A) l :
  (forall x, R x (f x)) -> Forall2 R l (map f l).
Proof. intros H. induction l; simpl; constructor; auto. Qed.

Lemma stage_of_node_fresh workflow_id idx node stage :
  stage_of_node workflow_id idx node = Ok stage ->
  forall id,
    WorkflowStage.order_index (stage id) = idx
    /\ WorkflowStage.next_stage_id (stage id) = None.
Proof.
  unfold stage_of_node. intros H.
  repeat bind_inv H. inv H. intros id. simpl. auto.
Qed.

Lemma Zseq_length start n : List.length (Zseq start n) = n.
Proof. revert start. induction n; intros start; simpl; auto. Qed.

Lemma In_Zseq start n x : In x (Zseq start n) <-> start <= x < start + Z.of_nat n.
Proof.
  revert start. induction n as [|n IH]; intros start.
  - simpl. lia.
  - cbn [Zseq In]. rewrite IH. lia.
Qed.

(** The columns of compiled rows. *)
Lemma compiled_columns workflow_id nodes :
  forall id idx rows,
    compiled workflow_id id idx nodes rows ->
    map WorkflowStage.id rows = Zseq id (List.length nodes)
    /\ map WorkflowStage.order_index rows = Zseq idx (List.length nodes)
    /\ Forall (fun s => WorkflowStage.workflow_id s = workflow_id) rows
    /\ Forall2 (fun s n => py_getitem n "id" = Ok (WorkflowStage.node_id s))
               rows nodes.
Proof.
  induction nodes as [|node nodes IH]; intros id idx [|row rows] H;
    simpl in H; try contradiction.
  - simpl. auto.
  - destruct H as [(stage & Hstage & Hrow) Hrest].
    destruct (IH _ _ _ Hrest) as (Hids & Hidx & Hwf & Hnodes).
    destruct (stage_of_node_spec _ _ _ Hstage id) as (Hid & Hwid & Hnode).
    destruct (stage_of_node_fresh _ _ _ Hstage id) as (Horder & _).
    apply only_next_differs_fields in Hrow.
    destruct Hrow as (Hid' & Hwid' & Horder' & Hnode').
    simpl. rewrite Hids, Hidx. repeat split.
    + congruence.
    + congruence.
    + constructor; [congruence|exact Hwf].
    + constructor; [congruence|exact Hnodes].
Qed.

Lemma compiled_next_differs workflow_id nodes :
  forall id idx rows rows',
    compiled workflow_id id idx nodes rows ->
    Forall2 only_next_differs rows rows' ->
    compiled workflow_id id idx nodes rows'.
Proof.
  induction nodes as [|node nodes IH]; intros id idx rows rows' H H2;
    destruct rows as [|row rows]; simpl in H; try contradiction; inv H2.
  - exact I.
  - destruct H as [(stage & Hstage & Hrow) Hrest]. simpl. split.
    + exists stage. split; [exact Hstage|].
      eapply only_next_differs_trans; eassumption.
    + eapply IH; eassumption.
Qed.

Lemma node_map_find_set_kept m k k' v :
  (exists x, node_map_find m k = Some x) ->
  exists x, node_map_find (node_map_set m k' v) k = Some x.
Proof.
  induction m as [|[k0 v0] m IH]; simpl; intros [x Hx]; [discriminate|].
  destruct (py_eq k0 k') eqn:E'; simpl.
  - destruct (py_eq k0 k); eauto.
  - destruct (py_eq k0 k); eauto.
Qed.

Lemma node_map_find_set_string m s v :
  exists x, node_map_find (node_map_set m (PStr s) v) (PStr s) = Some x.
Proof.
  induction m as [|[k0 v0] m IH]; simpl.
  - rewrite String.eqb_refl. eauto.
  - destruct (py_eq k0 (PStr s)) eqn:E; simpl; rewrite E; eauto.
Qed.

(** The node loop: the rows it appends, the sequence, and the keys of the
    map. *)
Lemma create_stages_compiled workflow_id nodes :
  forall idx db m db' m',
    create_stages workflow_id nodes idx db m = Ok (db', m') ->
    exists rows,
      Session.workflow_stages db' = Session.workflow_stages db ++ rows
      /\ compiled workflow_id (Session.workflow_stages_seq db) idx nodes rows
      /\ Forall (fun s => WorkflowStage.next_stage_id s = None) rows
      /\ Session.workflow_stages_seq db'
         = Session.workflow_stages_seq db + Z.of_nat (List.length nodes)
      /\ (forall k, (exists x, node_map_find m k = Some x) ->
                    exists x, node_map_find m' k = Some x)
      /\ (forall node s, In node nodes -> py_getitem node "id" = Ok (PStr s) ->
                         exists x, node_map_find m' (PStr s) = Some x).
Proof.
  induction nodes as [|node nodes IH]; intros idx db m db' m' H; simpl in H.
  - inv H. exists []. rewrite app_nil_r. simpl.
    repeat split; auto; try lia; try (intros node s []).
  - bind_inv H. bind_inv H. destruct a0 as [row db1]. bind_inv H.
    rename a into stage, a0 into m1.
    destruct (stage_of_node_spec _ _ _ E (Session.workflow_stages_seq db))
      as (Hid & Hwid & Hnode).
    destruct (stage_of_node_fresh _ _ _ E (Session.workflow_stages_seq db))
      as (_ & Hnext).
    destruct (add_stage_spec _ _ E0) as (Hrow & Hst & Hseq & _).
    destruct (IH _ _ _ _ _ H) as (rows & Hst' & Hc & Hn & Hseq' & Hkeys & Hnodes).
    unfold node_map_setitem in E1.
    destruct (hashable (WorkflowStage.node_id row)); [|discriminate].
    injection E1 as E1. subst m1 row.
    exists (stage (Session.workflow_stages_seq db) :: rows).
    split. { rewrite Hst', Hst, <- app_assoc. reflexivity. }
    split. { simpl. split.
             - exists stage. split; [exact E|apply only_next_differs_refl].
             - rewrite Hseq in Hc. exact Hc. }
    split. { constructor; assumption. }
    split. { rewrite Hseq', Hseq. simpl List.length. lia. }
    split.
    + intros k Hk. apply Hkeys. apply node_map_find_set_kept. exact Hk.
    + intros node' s [<-|Hin] Hs.
      * apply Hkeys. rewrite Hs in Hnode. injection Hnode as Hnode.
        rewrite <- Hnode. apply node_map_find_set_string.
      * eapply Hnodes; eassumption.
Qed.

(** A stage after the edge loop: the same row but for [next_stage_id],
    which has changed only on a mapped stage, to a mapped stage. *)
Lemma connect_stages_next edges m :
  forall db db',
    connect_stages edges m db = Ok db' ->
    Forall2 (fun s s' =>
               only_next_differs s s'
               /\ (WorkflowStage.next_stage_id s' = WorkflowStage.next_stage_id s
                   \/ (In (WorkflowStage.id s) (map snd m)
                       /\ exists t, WorkflowStage.next_stage_id s' = Some t
                                    /\ In t (map snd m))))
            (Session.workflow_stages db) (Session.workflow_stages db').
Proof.
  assert (Htrans : forall x y z : WorkflowStage.t,
             (only_next_differs x y
              /\ (WorkflowStage.next_stage_id y = WorkflowStage.next_stage_id x
                  \/ (In (WorkflowStage.id x) (map snd m)
                      /\ exists t, WorkflowStage.next_stage_id y = Some t
                                   /\ In t (map snd m)))) ->
             (only_next_differs y z
              /\ (WorkflowStage.next_stage_id z = WorkflowStage.next_stage_id y
                  \/ (In (WorkflowStage.id y) (map snd m)
                      /\ exists t, WorkflowStage.next_stage_id z = Some t
                                   /\ In t (map snd m)))) ->
             only_next_differs x z
             /\ (WorkflowStage.next_stage_id z = WorkflowStage.next_stage_id x
                 \/ (In (WorkflowStage.id x) (map snd m)
                     /\ exists t, WorkflowStage.next_stage_id z = Some t
                                  /\ In t (map snd m)))).
  { intros x y z [Hxy Hx] [Hyz Hy].
    split; [eapply only_next_differs_trans; eassumption|].
    apply only_next_differs_fields in Hxy. destruct Hxy as (Hid & _).
    destruct Hy as [Hy|(Hin & t & Ht & Htin)].
    - rewrite Hy. exact Hx.
    - right. rewrite <- Hid. eauto. }
  induction edges as [|edge edges IH]; intros db db' H; simpl in H.
  - inv H. apply Forall2_refl. intros s. split; [apply only_next_differs_refl|auto].
  - bind_inv H. bind_inv H. bind_inv H. bind_inv H. bind_inv H.
    rename a into source_id, a0 into target_id, a1 into edge_data,
           a2 into source_stage, a3 into target_stage.
    destruct source_stage as [source|]; [destruct target_stage as [target|]|];
      try (apply IH; exact H).
    bind_inv H. rename a into condition.
    destruct (truthy condition).
    + bind_inv H. bind_inv H. bind_inv H. bind_inv H. bind_inv H.
      apply IH in H. exact H.
    + destruct (match option_map WorkflowStage.next_stage_id (stage_by_id db source) with
                | Some (Some n) => n =? 0
                | _ => true
                end); [|apply IH; exact H].
      apply IH in H. eapply Forall2_trans; [exact Htrans| |exact H].
      unfold set_next_stage. simpl. apply Forall2_map_right. intros s.
      cbv beta. unfold node_map_get in E2, E3.
      destruct (hashable source_id); [|discriminate].
      destruct (hashable target_id); [|discriminate].
      injection E2 as E2. injection E3 as E3.
      destruct (WorkflowStage.id s =? source) eqn:Es.
      * apply Z.eqb_eq in Es. split; [apply only_next_differs_set|].
        right. split.
        -- rewrite Es. eapply node_map_find_values; eassumption.
        -- exists target. split; [destruct s; reflexivity|].
           eapply node_map_find_values; eassumption.
      * split; [apply only_next_differs_refl|auto].
Qed.

End Compilation.

Section StageTable.

Import VisualWorkflowService.

Lemma Forall2_compose {A B C} (R1 : A -> B -> Prop) (R2 : B -> C -> Prop)
  (R3 : A -> C -> Prop) :
  (forall x y z, R1 x y -> R2 y z -> R3 x z) ->
  forall l1 l2 l3, Forall2 R1 l1 l2 -> Forall2 R2 l2 l3 -> Forall2 R3 l1 l3.
Proof.
  intros Hc l1 l2 l3 H12. revert l3.
  induction H12; intros l3 H23; inv H23; constructor; eauto.
Qed.

Lemma Forall2_In_right {A B} (R : A -> B -> Prop) l l' y :
  Forall2 R l l' -> In y l' -> exists x, In x l /\ R x y.
Proof.
  induction 1 as [|x0 y0 l l' Hxy _ IH]; simpl; [tauto|].
  intros [<-|Hin]; [eauto|]. destruct (IH Hin) as (x & Hx & Hr). eauto.
Qed.

Lemma Forall2_map_eq {A B C} (R : A -> B -> Prop) (f : A -> C) (g : B -> C) l l' :
  Forall2 R l l' -> (forall x y, R x y -> f x = g y) -> map f l = map g l'.
Proof.
  intros H Hfg. induction H; simpl; [reflexivity|].
  f_equal; auto.
Qed.

(** The bulk delete of the stages of a workflow: the other rows stay, and
    lose their [next_stage_id] when it named a deleted stage. *)
Lemma delete_stages_table db workflow_id :
  Forall2 (fun s s' =>
             only_next_differs s s'
             /\ (WorkflowStage.next_stage_id s' = WorkflowStage.next_stage_id s
                 \/ (WorkflowStage.next_stage_id s' = None
                     /\ exists t, WorkflowStage.next_stage_id s = Some t
                                  /\ In t (stage_ids db workflow_id))))
          (filter (fun s => negb (WorkflowStage.workflow_id s =? workflow_id))
                  (Session.workflow_stages db))
          (Session.workflow_stages (delete_stages db workflow_id)).
Proof.
  unfold delete_stages. simpl. apply Forall2_map_right. intros s. cbv beta.
  destruct (WorkflowStage.next_stage_id s) as [t|] eqn:Et.
  - destruct (mem t (map WorkflowStage.id (stages_of db workflow_id))) eqn:Em.
    + split; [apply only_next_differs_set|]. right.
      split; [destruct s; reflexivity|]. exists t. split; [reflexivity|].
      apply mem_In. exact Em.
    + split; [apply only_next_differs_refl|auto].
  - split; [apply only_next_differs_refl|auto].
Qed.

Lemma filter_none_of_workflow workflow_id (l l' : list WorkflowStage.t) :
  Forall2 only_next_differs
          (filter (fun s => negb (WorkflowStage.workflow_id s =? workflow_id)) l) l' ->
  filter (fun s => WorkflowStage.workflow_id s =? workflow_id) l' = [].
Proof.
  intros H.
  assert (Hall : Forall (fun s => (WorkflowStage.workflow_id s =? workflow_id) = false) l').
  { apply Forall_forall. intros s' Hs'.
    destruct (@Forall2_In_right _ _ _ _ _ s' H Hs') as (s & Hs & Hr).
    apply filter_In in Hs. destruct Hs as [_ Hs].
    apply only_next_differs_fields in Hr. destruct Hr as (_ & Hwf & _).
    rewrite Hwf. apply negb_true_iff. exact Hs. }
  clear H. induction Hall as [|s l0 Hs _ IH]; simpl; [reflexivity|].
  rewrite Hs. exact IH.
Qed.

(** The stage table after the compilation of a graph: the rows of the other
    workflows, then one compiled row per node. *)
Lemma sync_table db workflow graph_data db' :
  _sync_stages_from_graph db workflow graph_data = Ok db' ->
  let wid := WorkflowDefinition.id workflow in
  exists nodes kept rows,
    py_iter (get_or graph_data "nodes" (PList [])) = Ok nodes
    /\ Session.workflow_stages db' = kept ++ rows
    /\ Forall2 (fun s s' =>
                  only_next_differs s s'
                  /\ (WorkflowStage.next_stage_id s' = WorkflowStage.next_stage_id s
                      \/ (WorkflowStage.next_stage_id s' = None
                          /\ exists t, WorkflowStage.next_stage_id s = Some t
                                       /\ In t (stage_ids db wid))
                      \/ Session.workflow_stages_seq db <= WorkflowStage.id s))
               (filter (fun s => negb (WorkflowStage.workflow_id s =? wid))
                       (Session.workflow_stages db))
               kept
    /\ compiled wid (Session.workflow_stages_seq db) 0 nodes rows
    /\ stages_of db' wid = rows
    /\ Session.workflow_stages_seq db'
       = Session.workflow_stages_seq db + Z.of_nat (List.length nodes)
    /\ (forall s t, In s rows -> WorkflowStage.next_stage_id s = Some t ->
                    In t (map WorkflowStage.id rows)).
Proof.
  intros H wid. unfold _sync_stages_from_graph in H. fold wid in H.
  bind_inv H. rename a into nodes.
  bind_inv H. destruct a as [db1 m].
  bind_inv H. rename a into edges.
  pose proof (delete_stages_table db wid) as Hdel.
  set (db0 := delete_routes (delete_stages db wid) wid) in *.
  assert (Hst0 : Session.workflow_stages db0
                 = Session.workflow_stages (delete_stages db wid)) by reflexivity.
  assert (Hseq0 : Session.workflow_stages_seq db0 = Session.workflow_stages_seq db)
    by reflexivity.
  rewrite <- Hst0 in Hdel.
  destruct (create_stages_compiled _ _ _ _ _ E0)
    as (rows0 & Hst1 & Hc & Hnone & Hseq1 & _).
  destruct (create_stages_spec _ _ _ _ _ E0)
    as (rows0' & Hst1' & _ & _ & Hvals & _).
  rewrite Hst1 in Hst1'. apply app_inv_head in Hst1'. subst rows0'.
  destruct (compiled_columns _ _ _ _ _ Hc) as (Hids & _ & Hwf & _).
  pose proof (connect_stages_next _ _ _ H) as Hnext.
  destruct (connect_stages_spec _ _ _ H) as (_ & Hseq2 & _).
  rewrite Hst1 in Hnext. apply Forall2_app_inv_l in Hnext.
  destruct Hnext as (kept & rows & Hkept & Hrows & Hst2).
  assert (Hmapped : forall v, In v (map snd m) ->
                              In v (map WorkflowStage.id rows0)).
  { intros v Hv. destruct (Hvals v Hv) as [[]|Hin]. exact Hin. }
  assert (Hsame_ids : map WorkflowStage.id rows0 = map WorkflowStage.id rows).
  { eapply Forall2_map_eq; [exact Hrows|].
    intros x y [Hxy _]. apply only_next_differs_fields in Hxy.
    symmetry. tauto. }
  exists nodes, kept, rows.
  split; [exact E|]. split; [exact Hst2|].
  split.
  { eapply Forall2_compose; [|exact Hdel|exact Hkept].
    intros x y z [Hxy Hx] [Hyz Hy]. cbv beta in *.
    split; [eapply only_next_differs_trans; eassumption|].
    destruct Hy as [Hy|(Hin & _)].
    - rewrite Hy. destruct Hx as [Hx|Hx]; auto.
    - right. right. apply Hmapped in Hin. rewrite Hids in Hin.
      apply In_Zseq in Hin. apply only_next_differs_fields in Hxy.
      destruct Hxy as (Hid & _). rewrite Hseq0 in Hin. lia. }
  split.
  { rewrite <- Hseq0. eapply compiled_next_differs; [exact Hc|].
    eapply Forall2_impl; [|exact Hrows]. intros x y [Hxy _]. exact Hxy. }
  assert (Hwf' : Forall (fun s => WorkflowStage.workflow_id s = wid) rows).
  { apply Forall_forall. intros s' Hs'.
    destruct (@Forall2_In_right _ _ _ _ _ s' Hrows Hs') as (s & Hs & Hr & _).
    apply only_next_differs_fields in Hr. destruct Hr as (_ & Hw & _).
    rewrite Forall_forall in Hwf. rewrite Hw. apply Hwf. exact Hs. }
  split.
  { unfold stages_of. rewrite Hst2. apply filter_app_own; [|exact Hwf'].
    apply (@filter_none_of_workflow wid (Session.workflow_stages db) kept).
    eapply Forall2_compose; [|exact Hdel|exact Hkept].
    intros x y z [Hxy _] [Hyz _].
    eapply only_next_differs_trans; eassumption. }
  split; [rewrite Hseq2, Hseq1, Hseq0; reflexivity|].
  intros s' t Hs' Ht.
  destruct (@Forall2_In_right _ _ _ _ _ s' Hrows Hs') as (s & Hs & _ & Hn).
  rewrite <- Hsame_ids.
  destruct Hn as [Hn|(_ & t' & Ht' & Hin)].
  - rewrite Forall_forall in Hnone. rewrite (Hnone s Hs) in Hn. congruence.
  - apply Hmapped. congruence.
Qed.

End StageTable.

Section SavedStages.

Import VisualWorkflowService.

Lemma commit_tables db db' :
  commit db = Ok db' ->
  Session.workflow_stages db' = Session.workflow_stages db
  /\ Session.workflow_stages_seq db' = Session.workflow_stages_seq db
  /\ Session.new_routes db' = []
  /\ Session.workflow_definitions db' = Session.workflow_definitions db
  /\ Session.workflow_definitions_seq db' = Session.workflow_definitions_seq db
  /\ Session.workflow_versions db' = Session.workflow_versions db.
Proof.
  unfold commit. intros H. bind_inv H. destruct a as [rows seq]. inv H.
  simpl. auto 10.
Qed.



End SavedStages.

Section SavedStagesWitness.

Import VisualWorkflowService Examples WorkflowExamples.


End SavedStagesWitness.

Section Invariant.

Import VisualWorkflowService.



End Invariant.

Section InvariantKept.

Import VisualWorkflowService VisualWorkflowServiceRest.
Context {rt : Builtins}.




End InvariantKept.

Section InvariantKeptWitness.

Import VisualWorkflowService VisualWorkflowServiceRest Examples WorkflowExamples.


End InvariantKeptWitness.

Section Isolation.

Import VisualWorkflowService.

Lemma filter_filter_workflow (l : list WorkflowStage.t) wid other :
  other <> wid ->
  filter (fun s => WorkflowStage.workflow_id s =? other)
         (filter (fun s => negb (WorkflowStage.workflow_id s =? wid)) l)
  = filter (fun s => WorkflowStage.workflow_id s =? other) l.
Proof.
  intros Hne. induction l as [|s l IH]; simpl; [reflexivity|].
  destruct (WorkflowStage.workflow_id s =? wid) eqn:Ew; simpl.
  - apply Z.eqb_eq in Ew.
    destruct (WorkflowStage.workflow_id s =? other) eqn:Eo; [|exact IH].
    apply Z.eqb_eq in Eo. congruence.
  - rewrite IH. reflexivity.
Qed.

Lemma Forall2_filter_workflow (R : WorkflowStage.t -> WorkflowStage.t -> Prop)
  other l l' :
  (forall s s', R s s' -> WorkflowStage.workflow_id s' = WorkflowStage.workflow_id s) ->
  Forall2 R l l' ->
  Forall2 R (filter (fun s => WorkflowStage.workflow_id s =? other) l)
            (filter (fun s => WorkflowStage.workflow_id s =? other) l').
Proof.
  intros Hwf H. induction H as [|s s' l l' Hr _ IH]; simpl; [constructor|].
  rewrite (Hwf _ _ Hr).
  destruct (WorkflowStage.workflow_id s =? other); [constructor; assumption|exact IH].
Qed.

Lemma Forall2_impl_left {A B} (R R' : A -> B -> Prop) l l' :
  Forall2 R l l' -> (forall x y, In x l -> R x y -> R' x y) -> Forall2 R' l l'.
Proof.
  induction 1 as [|x y l l' Hxy _ IH]; intros Himpl; constructor.
  - apply Himpl; [left; reflexivity|exact Hxy].
  - apply IH. intros x' y' Hin. apply Himpl. right. exact Hin.
Qed.

Lemma filter_other_workflow (rows : list WorkflowStage.t) wid other :
  other <> wid ->
  Forall (fun s => WorkflowStage.workflow_id s = wid) rows ->
  filter (fun s => WorkflowStage.workflow_id s =? other) rows = [].
Proof.
  intros Hne H. induction H as [|s rows Hs _ IH]; simpl; [reflexivity|].
  rewrite Hs. destruct (wid =? other) eqn:E; [|exact IH].
  apply Z.eqb_eq in E. congruence.
Qed.

(** The definitions and versions of the other workflows before the
    compilation. *)
Lemma prepared_others db workflow_id graph_data user description now workflow db1 :
  prepared db workflow_id graph_data user description now workflow db1 ->
  forall other,
    other <> WorkflowDefinition.id workflow ->
    filter (fun w => WorkflowDefinition.id w =? other)
           (Session.workflow_definitions db1)
    = filter (fun w => WorkflowDefinition.id w =? other)
             (Session.workflow_definitions db)
    /\ filter (fun v => WorkflowVersion.workflow_id v =? other)
              (Session.workflow_versions db1)
       = filter (fun v => WorkflowVersion.workflow_id v =? other)
                (Session.workflow_versions db).
Proof.
  unfold prepared. intros Hprep other Hne.
  destruct (given workflow_id) as [wid|].
  - destruct Hprep as (old & Hold & _ & -> & ->).
    apply definition_by_id_id in Hold. simpl in *.
    split.
    + induction (Session.workflow_definitions db) as [|w l IH]; simpl;
        [reflexivity|].
      destruct (WorkflowDefinition.id w =? WorkflowDefinition.id old) eqn:Ew; simpl.
      * apply Z.eqb_eq in Ew. rewrite Ew.
        destruct (WorkflowDefinition.id old =? other) eqn:Eo;
          [apply Z.eqb_eq in Eo; congruence|exact IH].
      * rewrite IH. reflexivity.
    + rewrite filter_app. simpl.
      destruct (WorkflowDefinition.id old =? other) eqn:Eo;
        [apply Z.eqb_eq in Eo; congruence|].
      rewrite app_nil_r. reflexivity.
  - unfold add_definition in Hprep.
    repeat break_hyp Hprep; try discriminate; inv Hprep; simpl in *;
      (split; [|reflexivity]); rewrite filter_app; simpl;
      (destruct (Session.workflow_definitions_seq db =? other) eqn:Eo;
       [apply Z.eqb_eq in Eo; congruence|]);
      rewrite app_nil_r; reflexivity.
Qed.

(** X18.  A save touches one workflow.  In a consistent database the
    stages of every other workflow stay as they are, except that a
    [next_stage_id] which named a stage of the saved workflow becomes NULL;
    the routes between stages of other workflows stay; so do the definition
    and the version rows of every other workflow. *)
Theorem save_leaves_the_other_workflows
  (db : Session.t) (workflow_id : option Z) (graph_data : pydict) (user : User.t)
  (description : option string) (now : datetime)
  (workflow : WorkflowDefinition.t) (db' : Session.t) :
  consistent db ->
  save_workflow_graph db workflow_id graph_data user description now
  = Ok (workflow, db') ->
  let wid := WorkflowDefinition.id workflow in
  (forall other,
      other <> wid ->
      Forall2 (fun s s' =>
                 only_next_differs s s'
                 /\ (WorkflowStage.next_stage_id s' = WorkflowStage.next_stage_id s
                     \/ (WorkflowStage.next_stage_id s' = None
                         /\ exists t, WorkflowStage.next_stage_id s = Some t
                                      /\ In t (stage_ids db wid))))
              (stages_of db other) (stages_of db' other)
      /\ definition_by_id db' other = definition_by_id db other
      /\ filter (fun v => WorkflowVersion.workflow_id v =? other)
                (Session.workflow_versions db')
         = filter (fun v => WorkflowVersion.workflow_id v =? other)
                  (Session.workflow_versions db))
  /\
  (forall r,
      In r (Session.conditional_routes db) ->
      ~ In (ConditionalRoute.from_stage_id r) (stage_ids db wid) ->
      ~ In (ConditionalRoute.to_stage_id r) (stage_ids db wid) ->
      In r (Session.conditional_routes db')).
Proof.
  intros Hdb H wid. apply save_inv in H.
  destruct H as (db1 & db2 & _ & Hprep & Hsync & Hcommit).
  pose proof (@prepared_others _ _ _ _ _ _ _ _ Hprep) as Hothers.
  apply prepared_tables in Hprep. destruct Hprep as (Hst1 & Hseq1 & Hr1 & Hn1).
  pose proof (sync_spec _ _ _ Hsync) as Hspec. cbv zeta in Hspec.
  destruct Hspec as (_ & _ & _ & _ & _ & _ & _ & Hroutes & _ & _ & Hdefs2).
  pose proof (sync_table _ _ _ Hsync) as Htable. cbv zeta in Htable.
  destruct Htable as (nodes & kept & rows & _ & Hst2 & Hkept & Hc & _).
  destruct (commit_spec _ Hcommit) as (_ & Hdefs3 & new & Hroutes' & _).
  apply commit_tables in Hcommit. destruct Hcommit as (Hst3 & _).
  destruct (compiled_columns _ _ _ _ _ Hc) as (_ & _ & Hwf & _).
  fold wid in Hroutes, Hkept, Hc, Hwf.
  assert (Hids : stage_ids db1 wid = stage_ids db wid).
  { unfold stage_ids, stages_of. rewrite Hst1. reflexivity. }
  rewrite Hids in Hroutes, Hkept. rewrite Hst1, Hseq1 in Hkept.
  destruct Hdefs2 as [Hd2 Hv2]. destruct Hdefs3 as [Hd3 Hv3].
  split.
  - intros other Hne. destruct (Hothers other Hne) as [Hdo Hvo].
    split; [|split].
    + unfold stages_of at 2. rewrite Hst3, Hst2, filter_app.
      rewrite (@filter_other_workflow rows wid other Hne Hwf), app_nil_r.
      unfold stages_of. rewrite <- (@filter_filter_workflow _ wid other Hne).
      apply Forall2_filter_workflow.
      { intros s s' [Hs _]. apply only_next_differs_fields in Hs. tauto. }
      eapply Forall2_impl_left; [exact Hkept|]. cbv beta.
      intros s s' Hin [Hs Hcase]. split; [exact Hs|].
      destruct Hcase as [Hcase|[Hcase|Hcase]]; auto.
      exfalso. apply filter_In in Hin. destruct Hin as [Hin _].
      destruct Hdb as (_ & Hbelow & _). specialize (Hbelow s Hin). lia.
    + unfold definition_by_id. rewrite Hd3, Hd2, Hdo. reflexivity.
    + rewrite Hv3, Hv2. exact Hvo.
  - intros r Hr Hfrom Hto. rewrite Hroutes'. apply in_or_app. left.
    rewrite Hroutes, Hr1. apply filter_In. split; [exact Hr|].
    apply andb_true_intro. split; apply negb_true_iff.
    + destruct (mem (ConditionalRoute.from_stage_id r) (stage_ids db wid)) eqn:E;
        [apply mem_In in E; tauto|reflexivity].
    + destruct (mem (ConditionalRoute.to_stage_id r) (stage_ids db wid)) eqn:E;
        [apply mem_In in E; tauto|reflexivity].
Qed.

End Isolation.

Section IsolationWitness.

Import VisualWorkflowService Examples WorkflowExamples.

(** A second workflow is created beside workflow 1, whose definition and
    stages stay. *)
Lemma save_leaves_the_other_workflows_witness :
  consistent saved_once
  /\ exists workflow db',
       save_workflow_graph saved_once None
         (dict_set graph_v2 "name" (PStr "Travel request")) author None 200
       = Ok (workflow, db')
       /\ WorkflowDefinition.id workflow = 2
       /\ definition_by_id db' 1 = definition_by_id saved_once 1
       /\ map WorkflowStage.id (stages_of db' 1) = [1; 2; 3].
Proof.
  split; [exact saved_once_consistent|]. eexists. eexists.
  match goal with
  | |- ?lhs = Ok (?w, ?d) /\ _ =>
      assert (H : lhs = Ok (w, d)) by (vm_compute; reflexivity)
  end.
  split; [exact H|]. split; [reflexivity|].
  apply (@save_leaves_the_other_workflows saved_once None
           (dict_set graph_v2 "name" (PStr "Travel request")) author None 200
           _ _ saved_once_consistent) in H.
  destruct H as [Hothers _]. destruct (Hothers 1) as (Hstages & Hdef & _).
  { discriminate. }
  split; [exact Hdef|].
  change [1; 2; 3] with (map WorkflowStage.id (stages_of saved_once 1)).
  symmetry. eapply Forall2_map_eq; [exact Hstages|].
  intros s s' [Hs _]. apply only_next_differs_fields in Hs. symmetry. tauto.
Defined.

End IsolationWitness.

Section ConditionalEdges.

Import VisualWorkflowService.

Lemma flush_routes_complete pending :
  forall rows seq r,
    flush_routes pending rows seq = Ok r ->
    forall p, In p pending ->
              ConditionalRoute.condition_field p <> PNone
              /\ ConditionalRoute.operator p <> PNone
              /\ ConditionalRoute.condition_value p <> PNone.
Proof.
  induction pending as [|q pending IH]; intros rows seq r H p Hp; [destruct Hp|].
  simpl in H.
  destruct (ConditionalRoute.condition_field q) eqn:Ef; try discriminate;
    destruct (ConditionalRoute.operator q) eqn:Eo; try discriminate;
    destruct (ConditionalRoute.condition_value q) eqn:Ev; try discriminate;
    (destruct Hp as [<-|Hp];
     [rewrite Ef, Eo, Ev; repeat split; discriminate
     |eapply IH; eassumption]).
Qed.

(** The edge loop queues a route for every conditional edge between two
    mapped nodes. *)
Lemma connect_stages_queues edges m :
  forall db db',
    connect_stages edges m db = Ok db' ->
    forall edge source target data,
      In edge edges ->
      py_getitem edge "source" = Ok (PStr source) ->
      py_getitem edge "target" = Ok (PStr target) ->
      (exists x, node_map_find m (PStr source) = Some x) ->
      (exists y, node_map_find m (PStr target) = Some y) ->
      py_get_or edge "data" (PDict []) = Ok (PDict data) ->
      truthy (get data "condition") = true ->
      exists r,
        In r (Session.new_routes db')
        /\ ConditionalRoute.condition_field r = get data "condition_field"
        /\ ConditionalRoute.operator r = get data "operator"
        /\ ConditionalRoute.condition_value r = get data "condition_value".
Proof.
  induction edges as [|edge0 edges IH];
    intros db db' H edge source target data Hin Hs Ht [x Hx] [y Hy] Hd Hc;
    [destruct Hin|].
  destruct Hin as [->|Hin].
  - simpl in H. rewrite Hs, Ht, Hd in H. simpl in H.
    unfold node_map_get in H. simpl in H. rewrite Hx, Hy in H. simpl in H.
    fold (get data "condition") in H. rewrite Hc in H.
    fold (get data "label") (get data "condition_field") (get data "operator")
         (get data "condition_value") in H.
    apply connect_stages_spec in H.
    destruct H as (_ & _ & _ & _ & (added & Hnew & _) & _).
    eexists. split.
    + rewrite Hnew. simpl. apply in_or_app. left. apply in_or_app. right.
      left. reflexivity.
    + simpl. auto.
  - simpl in H.
    bind_inv H. bind_inv H. bind_inv H. bind_inv H. bind_inv H.
    rename a2 into source_stage, a3 into target_stage.
    destruct source_stage as [s0|]; [destruct target_stage as [t0|]|];
      try (eapply IH; eauto; fail).
    bind_inv H. destruct (truthy a2).
    + bind_inv H. bind_inv H. bind_inv H. bind_inv H. bind_inv H.
      eapply IH; eauto.
    + eapply IH; eauto.
Qed.

(** X19.  A conditional edge between two nodes of the graph whose data
    lacks [condition_field], [operator] or [condition_value] makes the save
    fail, whoever saves: the route that the stage compiler queues for it
    breaks a NOT NULL constraint at the commit.  On the create branch, once
    the graph has passed the validation, what is raised is not an
    HTTPException. *)
Theorem incomplete_conditional_edge_aborts_the_save
  (db : Session.t) (graph_data : pydict) (user : User.t)
  (description : option string) (now : datetime)
  (nodes edges : list pyval) (edge : pyval) :
  dict_get graph_data "nodes" = Some (PList nodes) ->
  dict_get graph_data "edges" = Some (PList edges) ->
  In edge edges ->
  incomplete_conditional_edge nodes edge ->
  (forall workflow_id result,
      save_workflow_graph db workflow_id graph_data user description now
      <> Ok result)
  /\
  (_validate_graph graph_data = Ok tt ->
   exists e,
     save_workflow_graph db None graph_data user description now = Raise e
     /\ is_http e = false).
Proof.
  intros Hnodes Hedges Hin
    (source & target & data & Hs & Ht & (n1 & Hn1 & Hid1) & (n2 & Hn2 & Hid2)
     & Hd & Hc & Hmissing).
  assert (Hnever : forall workflow_id result,
             save_workflow_graph db workflow_id graph_data user description now
             <> Ok result).
  { intros workflow_id [workflow db'] H. apply save_inv in H.
    destruct H as (db1 & db2 & _ & _ & Hsync & Hcommit).
    unfold _sync_stages_from_graph, get_or in Hsync.
    rewrite Hnodes, Hedges in Hsync. simpl in Hsync.
    bind_inv Hsync. destruct a as [dbc m].
    destruct (create_stages_compiled _ _ _ _ _ E) as (_ & _ & _ & _ & _ & _ & Hkeys).
    destruct (connect_stages_queues _ _ _ Hsync edge Hin Hs Ht
                (Hkeys _ _ Hn1 Hid1) (Hkeys _ _ Hn2 Hid2) Hd Hc)
      as (r & Hr & Hf & Ho & Hv).
    unfold commit in Hcommit. bind_inv Hcommit.
    destruct (flush_routes_complete _ _ _ E0 r Hr) as (Hf' & Ho' & Hv').
    destruct Hmissing as [Hm|[Hm|Hm]]; congruence. }
  split; [exact Hnever|].
  intros Hvalid.
  destruct (save_workflow_graph db None graph_data user description now)
    as [result|e] eqn:Hsave.
  - exfalso. exact (Hnever None result Hsave).
  - exists e. split; [reflexivity|].
    destruct (is_http e) eqn:Hhttp; [|reflexivity].
    exfalso. destruct (save_raises_http _ _ _ _ _ _ Hsave Hhttp)
      as [(Hv & _)|(_ & wid & Hg & _)]; [congruence|discriminate].
Qed.

End ConditionalEdges.

Section ConditionalEdgesWitness.

Import VisualWorkflowService Examples WorkflowExamples WorkflowTemplates.

(** The purchase order template of the repository: its edge e3, from the
    condition node to the CFO approval, is conditional and carries a label
    only, so the template cannot be saved. *)
Lemma incomplete_conditional_edge_aborts_the_save_witness :
  _validate_graph purchase_order = Ok tt
  /\ save_workflow_graph empty_session None purchase_order author None 100
     = Raise IntegrityError.
Proof.
  split; [reflexivity|].
  destruct (@incomplete_conditional_edge_aborts_the_save empty_session
              purchase_order author None 100
              (match dict_get purchase_order "nodes" with
               | Some (PList l) => l
               | _ => []
               end)
              (match dict_get purchase_order "edges" with
               | Some (PList l) => l
               | _ => []
               end)
              (PDict [("id", PStr "e3"); ("source", PStr "condition-1");
                      ("target", PStr "approval-2");
                      ("data", PDict [("label", PStr "> $10,000");
                                      ("condition", PBool true)])])
              eq_refl eq_refl)
    as (_ & Hraises).
  - simpl. auto.
  - exists "condition-1", "approval-2",
      [("label", PStr "> $10,000"); ("condition", PBool true)].
    split; [reflexivity|]. split; [reflexivity|].
    split.
    { eexists. split; [simpl; right; right; left; reflexivity|reflexivity]. }
    split.
    { eexists.
      split; [simpl; right; right; right; left; reflexivity|reflexivity]. }
    split; [reflexivity|]. split; [reflexivity|]. left. reflexivity.
  - destruct (Hraises eq_refl) as (e & He & _).
    rewrite He. vm_compute in He. symmetry. exact He.
Defined.

End ConditionalEdgesWitness.

Section Clone.

Import VisualWorkflowService VisualWorkflowServiceRest.
Context {rt : Builtins}.


End Clone.

Section CloneWitness.

Import VisualWorkflowService VisualWorkflowServiceRest Examples WorkflowExamples.


End CloneWitness.

Section Creation.

Import VisualWorkflowService.

Lemma connect_stages_definitions_seq edges m :
  forall db db',
    connect_stages edges m db = Ok db' ->
    Session.workflow_definitions_seq db' = Session.workflow_definitions_seq db.
Proof.
  induction edges as [|edge edges IH]; intros db db' H; simpl in H;
    [inv H; reflexivity|].
  bind_inv H. bind_inv H. bind_inv H. bind_inv H. bind_inv H.
  rename a2 into source_stage, a3 into target_stage.
  destruct source_stage as [s0|]; [destruct target_stage as [t0|]|];
    try (apply IH in H; exact H).
  bind_inv H. destruct (truthy a2).
  - bind_inv H. bind_inv H. bind_inv H. bind_inv H. bind_inv H.
    apply IH in H. exact H.
  - destruct (match option_map WorkflowStage.next_stage_id (stage_by_id db s0) with
              | Some (Some n) => n =? 0
              | _ => true
              end);
      apply IH in H; exact H.
Qed.

Lemma create_stages_definitions_seq workflow_id nodes :
  forall idx db m db' m',
    create_stages workflow_id nodes idx db m = Ok (db', m') ->
    Session.workflow_definitions_seq db' = Session.workflow_definitions_seq db.
Proof.
  induction nodes as [|node nodes IH]; intros idx db m db' m' H; simpl in H;
    [inv H; reflexivity|].
  bind_inv H. bind_inv H. destruct a0 as [row db1]. bind_inv H.
  apply IH in H. rewrite H.
  unfold add_stage in E0. repeat break_hyp E0; try discriminate;
    inv E0; reflexivity.
Qed.

Lemma sync_definitions_seq db workflow graph_data db' :
  _sync_stages_from_graph db workflow graph_data = Ok db' ->
  Session.workflow_definitions_seq db' = Session.workflow_definitions_seq db.
Proof.
  unfold _sync_stages_from_graph. intros H.
  bind_inv H. bind_inv H. destruct a0 as [dbc m]. bind_inv H.
  apply connect_stages_definitions_seq in H.
  apply create_stages_definitions_seq in E0.
  rewrite H, E0. reflexivity.
Qed.

(** X21.  A save without a workflow id (or with the id 0) creates a
    definition: a draft of version 1 that the subject created, with the next
    id of the sequence, the name, description and model name of the payload
    (or "New Workflow" and "GenericModel") and the payload as its graph.  No
    version row is written, and the [description] argument is not stored.
    The definition has no access lists, whatever the payload says: only
    admins and the creator may edit it. *)
Theorem save_creates_a_draft
  (db : Session.t) (workflow_id : option Z) (graph_data : pydict) (user : User.t)
  (description : option string) (now : datetime)
  (workflow : WorkflowDefinition.t) (db' : Session.t) :
  given workflow_id = None ->
  save_workflow_graph db workflow_id graph_data user description now
  = Ok (workflow, db') ->
  WorkflowDefinition.id workflow = Session.workflow_definitions_seq db
  /\ WorkflowDefinition.name workflow = get_or graph_data "name" (PStr "New Workflow")
  /\ WorkflowDefinition.description workflow = get graph_data "description"
  /\ WorkflowDefinition.model_name workflow
     = get_or graph_data "model_name" (PStr "GenericModel")
  /\ WorkflowDefinition.workflow_graph workflow = PDict graph_data
  /\ WorkflowDefinition.version workflow = 1
  /\ WorkflowDefinition.status workflow = WorkflowStatus.draft
  /\ WorkflowDefinition.created_by workflow = User.id user
  /\ WorkflowDefinition.can_view_roles workflow = None
  /\ WorkflowDefinition.can_edit_roles workflow = None
  /\ WorkflowDefinition.can_use_roles workflow = None
  /\ (forall w, In w (Session.workflow_definitions db) ->
                py_eq (WorkflowDefinition.name w) (WorkflowDefinition.name workflow)
                = false)
  /\ Session.workflow_definitions db' = Session.workflow_definitions db ++ [workflow]
  /\ Session.workflow_definitions_seq db' = Session.workflow_definitions_seq db + 1
  /\ Session.workflow_versions db' = Session.workflow_versions db
  /\ (forall subject,
         _can_edit subject workflow = true <->
         User.role subject = "admin" \/ User.id subject = User.id user).
Proof.
  intros Hgiven H. apply save_inv in H.
  destruct H as (db1 & db2 & _ & Hprep & Hsync & Hcommit).
  unfold prepared in Hprep. rewrite Hgiven in Hprep.
  pose proof (sync_spec _ _ _ Hsync) as Hspec. cbv zeta in Hspec.
  destruct Hspec as (_ & _ & _ & _ & _ & _ & _ & _ & _ & _ & Hd2 & Hv2).
  apply sync_definitions_seq in Hsync.
  apply commit_tables in Hcommit.
  destruct Hcommit as (_ & _ & _ & Hd3 & Hseq3 & Hv3).
  rewrite Hd3, Hd2, Hv3, Hv2, Hseq3, Hsync.
  clear Hd3 Hd2 Hv3 Hv2 Hseq3 Hsync db2 db'.
  unfold add_definition in Hprep. cbv zeta in Hprep.
  set (name := get_or graph_data "name" (PStr "New Workflow")) in *.
  set (model_name := get_or graph_data "model_name" (PStr "GenericModel")) in *.
  cbn [WorkflowDefinition.name WorkflowDefinition.model_name] in Hprep.
  destruct name eqn:En; try discriminate;
    destruct model_name eqn:Em; try discriminate;
    match type of Hprep with
    | context [existsb ?f ?l] => destruct (existsb f l) eqn:Ex; [discriminate|]
    end;
    inv Hprep; simpl;
    (repeat match goal with |- _ /\ _ => split end; try reflexivity;
     [ intros w Hw;
       match goal with
       | |- ?b = false => destruct b eqn:Ew; [|reflexivity]
       end;
       exfalso;
       match type of Ex with
       | existsb ?f ?l = false =>
           assert (Hex : existsb f l = true) by (apply existsb_exists; eauto)
       end;
       congruence
     | intros subject; unfold _can_edit; simpl;
       destruct (String.eqb (User.role subject) "admin") eqn:Er;
       [ apply String.eqb_eq in Er; tauto | ];
       apply String.eqb_neq in Er;
       destruct (User.id user =? User.id subject) eqn:Ei;
       [ apply Z.eqb_eq in Ei; split; auto
       | apply Z.eqb_neq in Ei; split; [discriminate|];
         intros [Hadmin|Hsame]; [tauto|]; symmetry in Hsame; tauto ] ]).
Qed.

End Creation.

Section CreationWitness.

Import VisualWorkflowService Examples WorkflowExamples.

(** The first save of the author: workflow 1, a draft of version 1. *)
Lemma save_creates_a_draft_witness :
  exists workflow db',
    save_workflow_graph empty_session None graph_v1 author None 100
    = Ok (workflow, db')
    /\ WorkflowDefinition.id workflow = 1
    /\ WorkflowDefinition.version workflow = 1
    /\ WorkflowDefinition.status workflow = WorkflowStatus.draft
    /\ WorkflowDefinition.created_by workflow = 5
    /\ Session.workflow_versions db' = [].
Proof.
  eexists. eexists.
  match goal with
  | |- ?lhs = Ok (?w, ?d) /\ _ =>
      assert (H : lhs = Ok (w, d)) by (vm_compute; reflexivity)
  end.
  split; [exact H|].
  apply save_creates_a_draft in H; [|reflexivity].
  destruct H as (Hid & _ & _ & _ & _ & Hversion & Hstatus & Hby & _ & _ & _ & _ & _
                 & _ & Hversions & _).
  auto.
Defined.

End CreationWitness.

Section EdgesWithoutData.

Import VisualWorkflowService.

(** The edge loop returns only if the data of every edge between two mapped
    nodes is a dict. *)
Lemma connect_stages_data edges m :
  forall db db',
    connect_stages edges m db = Ok db' ->
    forall edge source target data,
      In edge edges ->
      py_getitem edge "source" = Ok (PStr source) ->
      py_getitem edge "target" = Ok (PStr target) ->
      (exists x, node_map_find m (PStr source) = Some x) ->
      (exists y, node_map_find m (PStr target) = Some y) ->
      py_get_or edge "data" (PDict []) = Ok data ->
      is_dict data = true.
Proof.
  induction edges as [|edge0 edges IH];
    intros db db' H edge source target data Hin Hs Ht [x Hx] [y Hy] Hd;
    [destruct Hin|].
  destruct Hin as [->|Hin].
  - simpl in H. rewrite Hs, Ht, Hd in H. simpl in H.
    unfold node_map_get in H. simpl in H. rewrite Hx, Hy in H. simpl in H.
    destruct data; try discriminate. reflexivity.
  - simpl in H.
    bind_inv H. bind_inv H. bind_inv H. bind_inv H. bind_inv H.
    rename a2 into source_stage, a3 into target_stage.
    destruct source_stage as [s0|]; [destruct target_stage as [t0|]|];
      try (eapply IH; eauto; fail).
    bind_inv H. destruct (truthy a2).
    + bind_inv H. bind_inv H. bind_inv H. bind_inv H. bind_inv H.
      eapply IH; eauto.
    + eapply IH; eauto.
Qed.

(** X22.  An edge between two nodes of the graph whose [data] is null (or
    anything but an object) makes the save fail, whoever saves: the stage
    compiler calls [get] on it.  On the create branch, once the graph has
    passed the validation, what is raised is not an HTTPException.  An edge
    with no [data] key at all is read as one with empty data. *)
Theorem edge_without_data_aborts_the_save
  (db : Session.t) (graph_data : pydict) (user : User.t)
  (description : option string) (now : datetime)
  (nodes edges : list pyval) (edge : pyval) :
  dict_get graph_data "nodes" = Some (PList nodes) ->
  dict_get graph_data "edges" = Some (PList edges) ->
  In edge edges ->
  edge_without_data nodes edge ->
  (forall workflow_id result,
      save_workflow_graph db workflow_id graph_data user description now
      <> Ok result)
  /\
  (_validate_graph graph_data = Ok tt ->
   exists e,
     save_workflow_graph db None graph_data user description now = Raise e
     /\ is_http e = false).
Proof.
  intros Hnodes Hedges Hin
    (source & target & data & Hs & Ht & (n1 & Hn1 & Hid1) & (n2 & Hn2 & Hid2)
     & Hd & Hnot).
  assert (Hnever : forall workflow_id result,
             save_workflow_graph db workflow_id graph_data user description now
             <> Ok result).
  { intros workflow_id [workflow db'] H. apply save_inv in H.
    destruct H as (db1 & db2 & _ & _ & Hsync & _).
    unfold _sync_stages_from_graph, get_or in Hsync.
    rewrite Hnodes, Hedges in Hsync. simpl in Hsync.
    bind_inv Hsync. destruct a as [dbc m].
    destruct (create_stages_compiled _ _ _ _ _ E) as (_ & _ & _ & _ & _ & _ & Hkeys).
    pose proof (connect_stages_data _ _ _ Hsync edge Hin Hs Ht
                  (Hkeys _ _ Hn1 Hid1) (Hkeys _ _ Hn2 Hid2) Hd) as Hdict.
    congruence. }
  split; [exact Hnever|].
  intros Hvalid.
  destruct (save_workflow_graph db None graph_data user description now)
    as [result|e] eqn:Hsave.
  - exfalso. exact (Hnever None result Hsave).
  - exists e. split; [reflexivity|].
    destruct (is_http e) eqn:Hhttp; [|reflexivity].
    exfalso. destruct (save_raises_http _ _ _ _ _ _ Hsave Hhttp)
      as [(Hv & _)|(_ & wid & Hg & _)]; [congruence|discriminate].
Qed.

End EdgesWithoutData.

Section EdgesWithoutDataWitness.

Import VisualWorkflowService Examples WorkflowExamples.

(** Two nodes and the edge between them as the schema hands it over when the
    client sent no data for it. *)
Lemma edge_without_data_aborts_the_save_witness :
  let nodes := [node "n1" "start" []; node "n2" "end" []] in
  let e1 :=
    PDict [("id", PStr "e1"); ("source", PStr "n1"); ("target", PStr "n2");
           ("data", PNone)] in
  let graph_data := [("nodes", PList nodes); ("edges", PList [e1])] in
  _validate_graph graph_data = Ok tt
  /\ save_workflow_graph empty_session None graph_data author None 100
     = Raise AttributeError.
Proof.
  intros nodes e1 graph_data. split; [reflexivity|].
  destruct (@edge_without_data_aborts_the_save empty_session graph_data author None
              100 nodes [e1] e1 eq_refl eq_refl (or_introl eq_refl))
    as (_ & Hraises).
  - exists "n1", "n2", PNone.
    split; [reflexivity|]. split; [reflexivity|].
    split.
    { eexists. split; [simpl; left; reflexivity|reflexivity]. }
    split.
    { eexists. split; [simpl; right; left; reflexivity|reflexivity]. }
    split; reflexivity.
  - destruct (Hraises eq_refl) as (e & He & _).
    rewrite He. vm_compute in He. symmetry. exact He.
Defined.

End EdgesWithoutDataWitness.

Section Publication.

Import VisualWorkflowService.
Context {rt : Builtins}.





End Publication.

Section PublicationWitness.

Import VisualWorkflowService Examples WorkflowExamples.


End PublicationWitness.

Section ViewChecksWitness.

Import WorkflowPermissionsRest VisualWorkflowService VisualWorkflowServiceRest.
Import WorkflowEndpoints Examples MoreExamples.

(** Subject 1 created a workflow and listed auditors as its viewers without
    being one. *)
Lemma view_list_excludes_the_creator_witness :
  let creator := subject 1 "user" in
  WorkflowDefinition.created_by restricted_workflow = User.id creator
  /\ get_workflow with_restricted_workflow 1 creator
     = Raise (HTTPException 403 "No permission to view")
  /\ clone_workflow (rt := no_builtins) with_restricted_workflow 1 "Copy" creator
     = Raise (HTTPException 403 "No permission to view workflow")
  /\ can_view_workflow creator restricted_workflow = true
  /\ _can_edit creator restricted_workflow = true.
Proof.
  intros creator. split; [reflexivity|].
  destruct (@view_list_excludes_the_creator no_builtins with_restricted_workflow 1
              restricted_workflow creator ["auditor"] "Copy" eq_refl)
    as (_ & Hget & _ & Hclone & Hcreator); try reflexivity; try discriminate.
  destruct (Hcreator eq_refl) as [Hview Hedit]. auto.
Defined.

End ViewChecksWitness.

Section Update.

Import VisualWorkflowService.

(** X24.  A save over an existing workflow changes the definition in
    place: the graph is the payload, the version is one more, [updated_at]
    is the time of the call, and the name, the description, the model name,
    the status, the creator and the access lists stay as they were, whatever
    the payload says; so a published workflow stays active under its new
    graph.  Exactly one version row is appended, with the next id, and the
    rows of the other definitions are the same. *)
Theorem save_updates_in_place
  (db : Session.t) (workflow_id : option Z) (wid : Z) (graph_data : pydict)
  (user : User.t) (description : option string) (now : datetime)
  (workflow : WorkflowDefinition.t) (db' : Session.t) :
  given workflow_id = Some wid ->
  save_workflow_graph db workflow_id graph_data user description now
  = Ok (workflow, db') ->
  exists old,
    definition_by_id db wid = Some old
    /\ _can_edit user old = true
    /\ workflow = with_new_graph old graph_data now
    /\ WorkflowDefinition.name workflow = WorkflowDefinition.name old
    /\ WorkflowDefinition.status workflow = WorkflowDefinition.status old
    /\ WorkflowDefinition.created_by workflow = WorkflowDefinition.created_by old
    /\ WorkflowDefinition.can_edit_roles workflow
       = WorkflowDefinition.can_edit_roles old
    /\ WorkflowDefinition.updated_at workflow = Some now
    /\ Session.workflow_definitions db'
       = map (fun w => if WorkflowDefinition.id w =? wid then workflow else w)
             (Session.workflow_definitions db)
    /\ Session.workflow_definitions_seq db' = Session.workflow_definitions_seq db
    /\ Session.workflow_versions db'
       = Session.workflow_versions db ++
         [ {| WorkflowVersion.id := Session.workflow_versions_seq db;
              WorkflowVersion.workflow_id := wid;
              WorkflowVersion.version_number := WorkflowDefinition.version old;
              WorkflowVersion.workflow_graph := WorkflowDefinition.workflow_graph old;
              WorkflowVersion.change_description := description;
              WorkflowVersion.created_by := User.id user |} ].
Proof.
  intros Hgiven H. apply save_inv in H.
  destruct H as (db1 & db2 & _ & Hprep & Hsync & Hcommit).
  unfold prepared in Hprep. rewrite Hgiven in Hprep.
  destruct Hprep as (old & Hold & Hedit & -> & ->).
  pose proof (definition_by_id_id _ _ Hold) as Hid.
  pose proof (sync_spec _ _ _ Hsync) as Hspec. cbv zeta in Hspec.
  destruct Hspec as (_ & _ & _ & _ & _ & _ & _ & _ & _ & _ & Hd2 & Hv2).
  apply sync_definitions_seq in Hsync.
  apply commit_tables in Hcommit.
  destruct Hcommit as (_ & _ & _ & Hd3 & Hseq3 & Hv3).
  exists old.
  repeat match goal with |- _ /\ _ => split end; try reflexivity;
    try assumption.
  - rewrite Hd3, Hd2. simpl. rewrite Hid. reflexivity.
  - rewrite Hseq3, Hsync. reflexivity.
  - rewrite Hv3, Hv2. simpl. rewrite Hid. reflexivity.
Qed.

End Update.

Section UpdateWitness.

Import VisualWorkflowService Examples WorkflowExamples.

(** The second save of workflow 1: one version row, holding the first
    graph. *)
Lemma save_updates_in_place_witness :
  exists workflow db',
    save_workflow_graph saved_once (Some 1) graph_v2 author (Some "shorter") 200
    = Ok (workflow, db')
    /\ WorkflowDefinition.version workflow = 2
    /\ WorkflowDefinition.name workflow = PStr "Leave request"
    /\ map WorkflowVersion.version_number (Session.workflow_versions db') = [1].
Proof.
  eexists. eexists.
  match goal with
  | |- ?lhs = Ok (?w, ?d) /\ _ =>
      assert (H : lhs = Ok (w, d)) by (vm_compute; reflexivity)
  end.
  split; [exact H|]. split; [reflexivity|]. split; [reflexivity|].
  apply (@save_updates_in_place saved_once (Some 1) 1) in H; [|reflexivity].
  destruct H as (old & Hold & _ & _ & _ & _ & _ & _ & _ & _ & _ & Hversions).
  rewrite Hversions. vm_compute in Hold. inv Hold. reflexivity.
Defined.

End UpdateWitness.
